(** * ComEd five-minute pricing dashboard

    A shallow embedding of the data pipeline of [comed_pricing_dashboard.py]:
    the timestamp normaliser [convert_to_chicago_time], the feed parser
    [process_data_for_plotting], the week windower [get_week_boundaries] and
    the statistics part of [create_weekly_chart].

    Python's [datetime], [timedelta] and [pytz] objects are modelled by the
    small calendar library of the first three modules; the four functions
    of the script follow, each next to the lines it embeds. *)

From Stdlib Require Import ZArith QArith Bool List String Ascii Lia Lqa.
From Stdlib Require Import Sorting.Sorted Sorting.Permutation.
From Stdlib Require Import DecimalString SpecFloat.
Import ListNotations.
#[local] Set Warnings "-register-all".
Local Open Scope Z_scope.

(* ===================================================================== *)
(** * Exceptions as [option]                                              *)
(* ===================================================================== *)

(** A computation that may raise returns [None]; [x <- m ;; k] propagates
    the exception the way an uncaught Python exception unwinds. *)

Definition bind {A B : Type} (m : option A) (k : A -> option B) : option B :=
  match m with
  | Some a => k a
  | None => None
  end.

Notation "x <- m ;; k" := (bind m (fun x => k))
  (at level 61, m at next level, right associativity).

(** [mapM f l]: a [for] loop that appends [f i] for each [i], aborting at
    the first exception. *)
Fixpoint mapM {A B : Type} (f : A -> option B) (l : list A) : option (list B) :=
  match l with
  | [] => Some []
  | a :: l' => b <- f a ;; bs <- mapM f l' ;; Some (b :: bs)
  end.

(** Python's [range(n)] for an integer [n]: empty when [n <= 0]. *)
Definition range (n : Z) : list Z := map Z.of_nat (seq 0 (Z.to_nat n)).

(* ===================================================================== *)
(** * The proleptic Gregorian calendar of [datetime]                      *)
(* ===================================================================== *)

Module Calendar.

Definition MINYEAR : Z := 1.
Definition MAXYEAR : Z := 9999.
(** [date.max.toordinal()] *)
Definition MAXORDINAL : Z := 3652059.

Definition is_leap (year : Z) : bool :=
  (year mod 4 =? 0) && (negb (year mod 100 =? 0) || (year mod 400 =? 0)).

Definition days_before_year (year : Z) : Z :=
  let y := year - 1 in
  y * 365 + y / 4 - y / 100 + y / 400.

Definition DAYS_IN_MONTH (month : Z) : Z :=
  match month with
  | 1 => 31 | 2 => 28 | 3 => 31 | 4 => 30 | 5 => 31 | 6 => 30
  | 7 => 31 | 8 => 31 | 9 => 30 | 10 => 31 | 11 => 30 | 12 => 31
  | _ => -1
  end.

Definition DAYS_BEFORE_MONTH (month : Z) : Z :=
  match month with
  | 1 => 0 | 2 => 31 | 3 => 59 | 4 => 90 | 5 => 120 | 6 => 151
  | 7 => 181 | 8 => 212 | 9 => 243 | 10 => 273 | 11 => 304 | 12 => 334
  | _ => -1
  end.

Definition days_before_month (year month : Z) : Z :=
  DAYS_BEFORE_MONTH month + (if (2 <? month) && is_leap year then 1 else 0).

(** [_ymd2ord]: 0001-01-01 is day 1. *)
Definition ymd2ord (year month day : Z) : Z :=
  days_before_year year + days_before_month year month + day.

Definition DI400Y : Z := 146097.
Definition DI100Y : Z := 36524.
Definition DI4Y : Z := 1461.

(** [_ord2ymd] *)
Definition ord2ymd (n : Z) : Z * Z * Z :=
  let n := n - 1 in
  let n400 := n / DI400Y in
  let n := n mod DI400Y in
  let year := n400 * 400 + 1 in
  let n100 := n / DI100Y in
  let n := n mod DI100Y in
  let n4 := n / DI4Y in
  let n := n mod DI4Y in
  let n1 := n / 365 in
  let n := n mod 365 in
  let year := year + n100 * 100 + n4 * 4 + n1 in
  if (n1 =? 4) || (n100 =? 4) then (year - 1, 12, 31)
  else
    let leapyear := (n1 =? 3) && (negb (n4 =? 24) || (n100 =? 3)) in
    let month := Z.shiftr (n + 50) 5 in
    let preceding :=
      DAYS_BEFORE_MONTH month + (if (2 <? month) && leapyear then 1 else 0) in
    if n <? preceding then
      let month := month - 1 in
      let preceding :=
        preceding
        - (DAYS_IN_MONTH month + (if (month =? 2) && leapyear then 1 else 0)) in
      (year, month, n - preceding + 1)
    else (year, month, n - preceding + 1).

(** [date.weekday()]: Monday is 0, Sunday is 6. *)
Definition weekday_of_ordinal (ord : Z) : Z := (ord + 6) mod 7.

Definition SUNDAY : Z := 6.

End Calendar.

(* ===================================================================== *)
(** * [timedelta] and [datetime]                                          *)
(* ===================================================================== *)

Module PyDatetime.
Import Calendar.

Definition US_PER_SECOND : Z := 1000000.
Definition US_PER_DAY : Z := 86400 * US_PER_SECOND.

(** A [timedelta] is its exact length in microseconds; the constructor
    adds its keyword arguments up as Python does. *)
Definition timedelta (weeks days hours minutes seconds microseconds : Z) : Z :=
  microseconds
  + US_PER_SECOND * (seconds + 60 * (minutes + 60 * (hours + 24 * (days + 7 * weeks)))).

Definition timedelta_days (d : Z) : Z := timedelta 0 d 0 0 0 0.
Definition timedelta_weeks (w : Z) : Z := timedelta w 0 0 0 0 0.

(** The calendar fields of a [datetime], without its [tzinfo]: the day as
    a proleptic Gregorian ordinal and the time of day in microseconds. *)
Record naive : Type := mkNaive {
  ordinal : Z;       (* 1 <= ordinal <= MAXORDINAL *)
  usec_of_day : Z    (* 0 <= usec_of_day < US_PER_DAY *)
}.

(** A timezone-aware [datetime]: the calendar fields and the [utcoffset()]
    of the attached [tzinfo], in seconds east of UTC. *)
Record aware : Type := mkAware {
  fields : naive;
  utcoffset : Z
}.

Definition valid_naive (d : naive) : Prop :=
  1 <= ordinal d <= MAXORDINAL /\ 0 <= usec_of_day d < US_PER_DAY.

Definition valid_naiveb (d : naive) : bool :=
  (1 <=? ordinal d) && (ordinal d <=? MAXORDINAL)
  && (0 <=? usec_of_day d) && (usec_of_day d <? US_PER_DAY).

(** [datetime(year, month, day, hour, minute, second, microsecond)] *)
Definition mk_datetime (year month day hour minute second microsecond : Z) : naive :=
  {| ordinal := ymd2ord year month day;
     usec_of_day := timedelta 0 0 hour minute second microsecond |}.

(** Microseconds from 0001-01-01T00:00 minus one day to the wall-clock
    reading, [timedelta(toordinal(), hours=.., ...)] in [datetime.__add__]. *)
Definition wall_us (d : naive) : Z := ordinal d * US_PER_DAY + usec_of_day d.

(** [datetime.__add__]: arithmetic on the calendar fields; the result must
    fall on a day [0 < days <= _MAXORDINAL], else [OverflowError]. *)
Definition naive_add (d : naive) (delta : Z) : option naive :=
  let total := wall_us d + delta in
  let days := total / US_PER_DAY in
  if (0 <? days) && (days <=? MAXORDINAL)
  then Some {| ordinal := days; usec_of_day := total mod US_PER_DAY |}
  else None.

(** Adding to an aware datetime keeps its [tzinfo] and works on the fields. *)
Definition add (d : aware) (delta : Z) : option aware :=
  f <- naive_add (fields d) delta ;;
  Some {| fields := f; utcoffset := utcoffset d |}.

Definition sub (d : aware) (delta : Z) : option aware := add d (- delta).

(** [weekday()] reads the calendar fields only. *)
Definition weekday (d : aware) : Z := weekday_of_ordinal (ordinal (fields d)).

(** [replace(hour=h, minute=m, second=s, microsecond=us)] *)
Definition replace_time (d : aware) (hour minute second microsecond : Z) : aware :=
  {| fields := {| ordinal := ordinal (fields d);
                  usec_of_day := timedelta 0 0 hour minute second microsecond |};
     utcoffset := utcoffset d |}.

(** Ordinal of 1970-01-01. *)
Definition EPOCH_ORDINAL : Z := 719163.

(** The absolute instant of an aware datetime, in microseconds since the
    Unix epoch: what [==], [<] and [<=] between aware datetimes compare. *)
Definition instant (d : aware) : Z :=
  (ordinal (fields d) - EPOCH_ORDINAL) * US_PER_DAY + usec_of_day (fields d)
  - utcoffset d * US_PER_SECOND.

Definition leb (a b : aware) : bool := instant a <=? instant b.
Definition ltb (a b : aware) : bool := instant a <? instant b.

End PyDatetime.

(* ===================================================================== *)
(** * [pytz] timezones                                                    *)
(* ===================================================================== *)

Module Pytz.
Import Calendar PyDatetime.

(** What the script uses of a [pytz] zone object:
    - [attached_utcoffset]: the [utcoffset()] of the bare zone object, the
      one a datetime carries after [replace(tzinfo=zone)]. A [pytz] zone
      object that has not gone through [localize] or [fromutc] answers
      with the first entry of its table whatever the date is;
    - [utcoffset_at t]: the offset in force at the absolute instant [t]
      (microseconds since the epoch), looked up in the zone's transition
      table by [fromutc], on which [astimezone] relies.
    Both are in seconds east of UTC. *)
Record tzinfo : Type := mkTz {
  attached_utcoffset : Z;
  utcoffset_at : Z -> Z
}.

(** [pytz.utc] *)
Definition utc : tzinfo := {| attached_utcoffset := 0; utcoffset_at := fun _ => 0 |}.

(** [naive.replace(tzinfo=tz)]: same fields, no conversion. *)
Definition replace_tzinfo (d : naive) (tz : tzinfo) : aware :=
  {| fields := d; utcoffset := attached_utcoffset tz |}.

(** [pytz.utc.localize(naive)] *)
Definition utc_localize (d : naive) : aware := {| fields := d; utcoffset := 0 |}.

(** [aware.astimezone(tz)]: shift to UTC, look the offset up, shift to the
    zone's wall clock. Either shift may leave the range of [datetime]
    ([OverflowError]). *)
Definition astimezone (d : aware) (tz : tzinfo) : option aware :=
  u <- naive_add (fields d) (- (utcoffset d * US_PER_SECOND)) ;;
  let off := utcoffset_at tz (instant (utc_localize u)) in
  l <- naive_add u (off * US_PER_SECOND) ;;
  Some {| fields := l; utcoffset := off |}.

(** ** America/Chicago *)

Definition CST : Z := -21600.   (* UTC-6 *)
Definition CDT : Z := -18000.   (* UTC-5 *)
(** Local mean time of the zone, 5:50:36 west, which [pytz] rounds to the
    minute: the first entry of the zone's table. *)
Definition LMT : Z := -21060.   (* UTC-5:51 *)

Definition sunday_on_or_after (ord : Z) : Z := ord + (SUNDAY - weekday_of_ordinal ord) mod 7.

Definition first_sunday (year month : Z) : Z := sunday_on_or_after (ymd2ord year month 1).
Definition second_sunday (year month : Z) : Z := first_sunday year month + 7.
Definition last_sunday_of (year month : Z) : Z :=
  sunday_on_or_after (ymd2ord year month (DAYS_IN_MONTH month - 6)).

(** Day on which daylight time starts (at 02:00 standard time) and ends
    (at 02:00 daylight time) in the given year, from 1970 to 2037, the
    last year of the table [pytz] ships; no daylight time later. *)
Definition dst_start_day (year : Z) : option Z :=
  if (year <? 1970) || (2037 <? year) then None
  else if year =? 1974 then Some (ymd2ord 1974 1 6)
  else if year =? 1975 then Some (ymd2ord 1975 2 23)
  else if year <=? 1986 then Some (last_sunday_of year 4)
  else if year <=? 2006 then Some (first_sunday year 4)
  else Some (second_sunday year 3).

Definition dst_end_day (year : Z) : Z :=
  if year <=? 2006 then last_sunday_of year 10 else first_sunday year 11.

Definition utc_us_of_day (ord hour : Z) : Z :=
  (ord - EPOCH_ORDINAL) * US_PER_DAY + timedelta 0 0 hour 0 0 0.

(** Offset of America/Chicago at an instant from 1970 on. *)
Definition chicago_utcoffset_since_1970 (t : Z) : Z :=
  let ord := t / US_PER_DAY + EPOCH_ORDINAL in
  let '(year, _, _) := ord2ymd ord in
  match dst_start_day year with
  | None => CST
  | Some start =>
      if (utc_us_of_day start 8 <=? t) && (t <? utc_us_of_day (dst_end_day year) 7)
      then CDT else CST
  end.

(** The transitions of the zone before 1970, oldest first: the second
    since the epoch, UTC, from which an offset is in force, and the
    offset. Standard time came in 1883; the offset 5 hours west was
    daylight time, Eastern standard time in 1936 and war time from 1942
    to 1945. *)
Definition chicago_history : list (Z * Z) :=
  [ (-2717647200, -21600); (-1633276800, -18000); (-1615136400, -21600);
    (-1601827200, -18000); (-1583686800, -21600); (-1563724800, -18000);
    (-1551632400, -21600); (-1538928000, -18000); (-1520182800, -21600);
    (-1504454400, -18000); (-1491757200, -21600); (-1473004800, -18000);
    (-1459702800, -21600); (-1441555200, -18000); (-1428253200, -21600);
    (-1410105600, -18000); (-1396803600, -21600); (-1378656000, -18000);
    (-1365354000, -21600); (-1347206400, -18000); (-1333904400, -21600);
    (-1315152000, -18000); (-1301850000, -21600); (-1283702400, -18000);
    (-1270400400, -21600); (-1252252800, -18000); (-1238950800, -21600);
    (-1220803200, -18000); (-1207501200, -21600); (-1189353600, -18000);
    (-1176051600, -21600); (-1157299200, -18000); (-1144602000, -21600);
    (-1125849600, -18000); (-1112547600, -21600); (-1094400000, -18000);
    (-1081098000, -21600); (-1067788800, -18000); (-1045414800, -21600);
    (-1031500800, -18000); (-1018198800, -21600); (-1000051200, -18000);
    (-986749200, -21600); (-967996800, -18000); (-955299600, -21600);
    (-936547200, -18000); (-923245200, -21600); (-905097600, -18000);
    (-891795600, -21600); (-880214400, -18000); (-769395600, -18000);
    (-765392400, -21600); (-747244800, -18000); (-733942800, -21600);
    (-715795200, -18000); (-702493200, -21600); (-684345600, -18000);
    (-671043600, -21600); (-652896000, -18000); (-639594000, -21600);
    (-620841600, -18000); (-608144400, -21600); (-589392000, -18000);
    (-576090000, -21600); (-557942400, -18000); (-544640400, -21600);
    (-526492800, -18000); (-513190800, -21600); (-495043200, -18000);
    (-481741200, -21600); (-463593600, -18000); (-447267600, -21600);
    (-431539200, -18000); (-415818000, -21600); (-400089600, -18000);
    (-384368400, -21600); (-368640000, -18000); (-352918800, -21600);
    (-337190400, -18000); (-321469200, -21600); (-305740800, -18000);
    (-289414800, -21600); (-273686400, -18000); (-257965200, -21600);
    (-242236800, -18000); (-226515600, -21600); (-210787200, -18000);
    (-195066000, -21600); (-179337600, -18000); (-163616400, -21600);
    (-147888000, -18000); (-131562000, -21600); (-116438400, -18000);
    (-100112400, -21600); (-84384000, -18000); (-68662800, -21600);
    (-52934400, -18000); (-37213200, -21600); (-21484800, -18000);
    (-5763600, -21600) ].

(** The offset of the last transition of [table] that is not after the
    instant [t]; [before] when [t] is older than all of them. *)
Fixpoint offset_in_table (table : list (Z * Z)) (before t : Z) : Z :=
  match table with
  | [] => before
  | (second, offset) :: rest =>
      if second * US_PER_SECOND <=? t then offset_in_table rest offset t else before
  end.

(** Offset of America/Chicago at an instant: the zone's table, which
    starts with local mean time. *)
Definition chicago_utcoffset_at (t : Z) : Z :=
  if t <? 0 then offset_in_table chicago_history LMT t
  else chicago_utcoffset_since_1970 t.

(** [pytz.timezone('America/Chicago')] *)
Definition America_Chicago : tzinfo :=
  {| attached_utcoffset := LMT; utcoffset_at := chicago_utcoffset_at |}.

End Pytz.

(* ===================================================================== *)
(** * The week windower: [get_week_boundaries]                            *)
(* ===================================================================== *)

Module Windower.
Import Calendar PyDatetime Pytz.

Section Zone.
(** [chicago_tz = pytz.timezone('America/Chicago')] *)
Variable chicago_tz : tzinfo.

(** The body of the [for] loop: one (start, end) pair. *)
Definition week_pair (last_sunday : aware) (i : Z) : option (aware * aware) :=
  week_start <- sub last_sunday (timedelta_weeks i) ;;
  week_end <- add week_start (timedelta 0 6 23 59 59 999999) ;;
  Some (week_start, week_end).

(** [get_week_boundaries(end_date, num_weeks)]; [None] is the
    [OverflowError] of a date before year 1 or after year 9999.
    [end_date] is given by its calendar fields: the [replace] of the
    second line discards whatever zone it carried. *)
Definition get_week_boundaries (end_date : naive) (num_weeks : Z)
  : option (list (aware * aware)) :=
  let end_date := replace_tzinfo end_date chicago_tz in
  let days_since_sunday := (weekday end_date - 6) mod 7 in
  last_sunday <-
    (if days_since_sunday =? 0 then Some end_date
     else sub end_date (timedelta_days days_since_sunday)) ;;
  let last_sunday := replace_time last_sunday 0 0 0 0 in
  mapM (week_pair last_sunday) (range num_weeks).

End Zone.

End Windower.

(* ===================================================================== *)
(** * Python [float]                                                      *)
(* ===================================================================== *)

(** ** Rounding to binary64

    [int(timestamp_str) / 1000] and [datetime.utcfromtimestamp] compute on
    IEEE binary64 values. The non-negative finite ones are modelled as
    dyadic numbers [mant * 2 ^ expo], with the three operations the
    normaliser performs on them, each rounded to nearest, ties to even, on
    53 significant bits. Zero and the normal range are covered, which is
    where every quotient of a 13-digit integer by 1000 lives. *)

Module Binary64.

Record dyadic : Type := mkDyadic { mant : Z; expo : Z }.

(** Nearest integer to [num / den], ties to even ([0 < den]). *)
Definition rne (num den : Z) : Z :=
  let q := num / den in
  let r := num mod den in
  if 2 * r <? den then q
  else if den <? 2 * r then q + 1
  else if Z.even q then q else q + 1.

(** [floor (log2 (num / den))] for [2 ^ -1100 <= num / den]. *)
Definition ilog2_ratio (num den : Z) : Z := Z.log2 (num * 2 ^ 1100 / den) - 1100.

(** The binary64 value nearest to [num / den] ([0 <= num], [0 < den]). *)
Definition round_ratio (num den : Z) : dyadic :=
  if num =? 0 then {| mant := 0; expo := 0 |}
  else
    let s := 52 - ilog2_ratio num den in
    {| mant := if 0 <=? s then rne (num * 2 ^ s) den else rne num (den * 2 ^ (- s));
       expo := - s |}.

Definition round_dyadic (m e : Z) : dyadic :=
  if 0 <=? e then round_ratio (m * 2 ^ e) 1 else round_ratio m (2 ^ (- e)).

(** [a / b] on two Python ints: the correctly rounded quotient. *)
Definition truediv (a b : Z) : dyadic := round_ratio a b.

(** [x * y] *)
Definition fmul (x y : dyadic) : dyadic :=
  round_dyadic (mant x * mant y) (expo x + expo y).

(** [math.modf]: fractional and integral part, both exact. *)
Definition modf (x : dyadic) : dyadic * Z :=
  if 0 <=? expo x then ({| mant := 0; expo := 0 |}, mant x * 2 ^ expo x)
  else ({| mant := mant x mod 2 ^ (- expo x); expo := expo x |},
        mant x / 2 ^ (- expo x)).

(** [round(x)] to an integer, ties to even. *)
Definition round_half_even (x : dyadic) : Z :=
  if 0 <=? expo x then mant x * 2 ^ expo x else rne (mant x) (2 ^ (- expo x)).

(** The literal [1e6] = 15625 * 2^6. *)
Definition f1e6 : dyadic := {| mant := 15625; expo := 6 |}.

End Binary64.

(** ** Prices

    A price is a [float] that is only compared, stored and averaged. Its
    finite values are kept as rationals (every binary64 value is one), next
    to the two infinities and NaN, which [float()] can produce from the
    texts [inf] and [nan]. *)

Module PyFloat.

Inductive pyfloat : Type :=
| Finite (q : Q)
| PosInf
| NegInf
| NaN.

(** [x <= y]: false as soon as one side is NaN. *)
Definition leb (x y : pyfloat) : bool :=
  match x, y with
  | NaN, _ | _, NaN => false
  | NegInf, _ => true
  | _, PosInf => true
  | Finite a, Finite b => Qle_bool a b
  | _, _ => false
  end.

(** [x == y] *)
Definition eqb (x y : pyfloat) : bool :=
  match x, y with
  | Finite a, Finite b => Qeq_bool a b
  | PosInf, PosInf | NegInf, NegInf => true
  | _, _ => false
  end.

(** [x < y] *)
Definition ltb (x y : pyfloat) : bool := leb x y && negb (eqb x y).

(** [bool(x)]: only zero is false. *)
Definition truthy (x : pyfloat) : bool :=
  match x with
  | Finite q => negb (Qeq_bool q 0)
  | _ => true
  end.

Definition of_Z (z : Z) : pyfloat := Finite (inject_Z z).

(** Integers from this bound on round to infinity as binary64. *)
Definition INT_TOO_LARGE : Z := 2 ^ 1024 - 2 ^ 970.

End PyFloat.

(** ** Binary64 arithmetic on prices

    The sum and the quotient of two floats are the exact results rounded
    to the nearest binary64 value, ties to even: 53 significant bits in
    the normal range, multiples of [2 ^ -1074] below it, an infinity from
    [2 ^ 1024 - 2 ^ 970] on. *)

Module Float64.
Import Binary64 PyFloat.

(** The exponent of the last place of the value nearest to the positive
    ratio [num / den]. *)
Definition last_place (num den : Z) : Z := Z.max (ilog2_ratio num den - 52) (-1074).

(** The nearest integer to [(num / den) / 2 ^ e], ties to even. *)
Definition mantissa (num den e : Z) : Z :=
  if 0 <=? e then rne num (den * 2 ^ e) else rne (num * 2 ^ (- e)) den.

(** The rational [m * 2 ^ e]. *)
Definition scaled (m e : Z) : Q :=
  if 0 <=? e then inject_Z (m * 2 ^ e) else m # Z.to_pos (2 ^ (- e)).

(** The binary64 value nearest to a rational. *)
Definition round (x : Q) : pyfloat :=
  let n := Qnum x in
  let d := Zpos (Qden x) in
  if n =? 0 then Finite 0
  else
    let e := last_place (Z.abs n) d in
    let m := mantissa (Z.abs n) d e in
    if (0 <=? e) && (2 ^ 1024 <=? m * 2 ^ e)
    then (if 0 <? n then PosInf else NegInf)
    else Finite (scaled (Z.sgn n * m) e).

(** [a + b] on two finite floats. *)
Definition fadd (a b : Q) : pyfloat := round (a + b).

(** [x / n] for a float [x] and a count [n > 0]. *)
Definition fdiv (x : pyfloat) (n : Z) : pyfloat :=
  match x with
  | Finite q => round (q / inject_Z n)
  | _ => x
  end.

End Float64.

(* ===================================================================== *)
(** * JSON values and the text routines of the standard library           *)
(* ===================================================================== *)

Module Json.
Import PyFloat.

(** What [response.json()] returns. A [dict] is an association list in
    insertion order; its keys are distinct. Text is ASCII. *)
Inductive json : Type :=
| JNull
| JBool (b : bool)
| JInt (z : Z)
| JFloat (f : pyfloat)
| JStr (s : string)
| JList (l : list json)
| JDict (d : list (string * json)).

(** [d.get(key)]; [None] when [key not in d]. *)
Fixpoint lookup (key : string) (d : list (string * json)) : option json :=
  match d with
  | [] => None
  | (k, v) :: d' => if String.eqb k key then Some v else lookup key d'
  end.

(** [bool(x)], the test of [if x] and [if not x]. *)
Definition truthy (x : json) : bool :=
  match x with
  | JNull => false
  | JBool b => b
  | JInt z => negb (z =? 0)
  | JFloat f => PyFloat.truthy f
  | JStr s => negb (String.eqb s "")
  | JList l => match l with [] => false | _ => true end
  | JDict d => match d with [] => false | _ => true end
  end.

(** [type(x)], as printed in the "unexpected format" message. *)
Inductive pytype : Type :=
  TNone | TBool | TInt | TFloat | TStr | TList | TDict.

Definition type_of (x : json) : pytype :=
  match x with
  | JNull => TNone | JBool _ => TBool | JInt _ => TInt | JFloat _ => TFloat
  | JStr _ => TStr | JList _ => TList | JDict _ => TDict
  end.

End Json.

Module PyText.
Import PyDatetime PyFloat Json.

(** A [datetime] as the parsers return it: with or without a zone. *)
Inductive pydt : Type :=
| Naive (d : naive)
| Aware (d : aware).

(** Parsing and printing routines of the Python standard library that
    the script calls on text. They are taken as given; [None] is the
    [ValueError] they raise on text they do not accept. *)
Class TextRoutines : Type := {
  (** [datetime.strptime(s, "%Y%m%d%H%M%S")] *)
  strptime_ymdhms : string -> option naive;
  (** [datetime.strptime(s, "%Y%m%d%H%M")] *)
  strptime_ymdhm : string -> option naive;
  (** [datetime.fromisoformat(s)] *)
  fromisoformat : string -> option pydt;
  (** [float(s)] on a [str] *)
  float_of_str : string -> option pyfloat;
  (** [str(x)] on a float, a list or a dict *)
  repr : json -> string
}.

Definition is_ascii_digit (c : ascii) : bool :=
  let n := nat_of_ascii c in (48 <=? n)%nat && (n <=? 57)%nat.

(** [s.isdigit()]: non-empty and digits only. *)
Definition isdigit (s : string) : bool :=
  match s with
  | EmptyString => false
  | _ => forallb is_ascii_digit (list_ascii_of_string s)
  end.

Definition len (s : string) : Z := Z.of_nat (String.length s).

(** [int(s)] on a string of digits. *)
Definition int_of_digits (s : string) : Z :=
  fold_left (fun acc c => 10 * acc + (Z.of_nat (nat_of_ascii c) - 48))
            (list_ascii_of_string s) 0.

(** [s.replace('Z', '+00:00')]: every occurrence. *)
Fixpoint replace_Z (s : string) : string :=
  match s with
  | EmptyString => EmptyString
  | String c s' =>
      if Ascii.eqb c "Z"%char then ("+00:00" ++ replace_Z s')%string
      else String c (replace_Z s')
  end.

(** [str(x)] *)
Definition str `{TextRoutines} (x : json) : string :=
  match x with
  | JStr s => s
  | JInt z => DecimalString.NilZero.string_of_int (Z.to_int z)
  | JBool true => "True"
  | JBool false => "False"
  | JNull => "None"
  | _ => repr x
  end.

(** What [float(x)] does: a value, a [ValueError] or [TypeError] (both
    caught by the price loop), or an [OverflowError] (caught nowhere). *)
Inductive float_result : Type :=
| FloatOk (f : pyfloat)
| FloatValueOrTypeError
| FloatOverflowError.

(** [float(x)]. An int converts to the nearest binary64 value, which
    stands on the same side of 0 and of 1000 as the int itself and is the
    int itself in between; the int is kept. *)
Definition float `{TextRoutines} (x : json) : float_result :=
  match x with
  | JFloat f => FloatOk f
  | JInt z =>
      if INT_TOO_LARGE <=? Z.abs z then FloatOverflowError else FloatOk (of_Z z)
  | JBool b => FloatOk (of_Z (if b then 1 else 0))
  | JStr s =>
      match float_of_str s with
      | Some f => FloatOk f
      | None => FloatValueOrTypeError
      end
  | JNull | JList _ | JDict _ => FloatValueOrTypeError
  end.

End PyText.

(* ===================================================================== *)
(** * The timestamp normaliser: [convert_to_chicago_time]                 *)
(* ===================================================================== *)

Module Normalizer.
Import Calendar PyDatetime Pytz Binary64 PyText.

(** [datetime.utcfromtimestamp(t)] for [t >= 0]: split [t] with [modf],
    round the fraction to microseconds (ties to even), carry a full
    second, then break the seconds down as [gmtime] does. A day past
    year 9999 is an error. *)
Definition utcfromtimestamp (t : dyadic) : option naive :=
  let '(frac, intpart) := modf t in
  let us := round_half_even (fmul frac f1e6) in
  let '(sec, us) :=
    if 1000000 <=? us then (intpart + 1, us - 1000000) else (intpart, us) in
  let ord := EPOCH_ORDINAL + sec / 86400 in
  if ord <=? MAXORDINAL
  then Some {| ordinal := ord; usec_of_day := (sec mod 86400) * US_PER_SECOND + us |}
  else None.

Section Zone.
Context `{TextRoutines}.
(** [chicago_tz = pytz.timezone('America/Chicago')] *)
Variable chicago_tz : tzinfo.

(** The [if]/[elif] chain on the shape of the text. *)
Definition parse_timestamp (timestamp_str : string) : option pydt :=
  if isdigit timestamp_str && (len timestamp_str =? 13) then
    let timestamp_seconds := truediv (int_of_digits timestamp_str) 1000 in
    d <- utcfromtimestamp timestamp_seconds ;;
    Some (Aware (replace_tzinfo d utc))
  else if len timestamp_str =? 14 then
    d <- strptime_ymdhms timestamp_str ;; Some (Naive d)
  else if len timestamp_str =? 12 then
    d <- strptime_ymdhm timestamp_str ;; Some (Naive d)
  else fromisoformat (replace_Z timestamp_str).

(** [convert_to_chicago_time(timestamp_str)]. Every exception of the
    body is caught and turned into the return value [None]. *)
Definition convert_to_chicago_time (timestamp_str : string) : option aware :=
  dt <- parse_timestamp timestamp_str ;;
  let dt := match dt with
            | Naive d => utc_localize d
            | Aware d => d
            end in
  astimezone dt chicago_tz.

End Zone.

End Normalizer.

(* ===================================================================== *)
(** * The feed parser: [process_data_for_plotting]                        *)
(* ===================================================================== *)

Module Parser.
Import PyDatetime Pytz PyFloat Json PyText Normalizer.

Definition container_keys : list string := ["data"; "prices"; "feed"; "results"; "items"]%string.
Definition ts_fields : list string := ["millisUTC"; "timestamp"; "time"; "date"; "datetime"]%string.
Definition price_fields : list string := ["price"; "value"; "cost"; "rate"]%string.

(** The messages of the fourth component of the returned tuple. *)
Inductive error : Type :=
| NoDataReceived                 (* "No data received" *)
| UnexpectedFormat (t : pytype)  (* "Unexpected data format: {type(data)}" *)
| NoValidPoints (n : nat).       (* "No valid data points found. Processed {n} items." *)

(** One observation: [(chicago_time, price)], an element of [zip(times, prices)]. *)
Definition row : Type := (aware * pyfloat)%type.

(** The returned tuple: [(times, prices, len(items), None)] or
    [(None, None, None, message)]. *)
Inductive outcome : Type :=
| Parsed (rows : list row) (n_items : nat)
| Failed (e : error).

(** The first of [keys] that holds a list gives the items; [[]] if none. *)
Fixpoint find_list (keys : list string) (data : list (string * json)) : list json :=
  match keys with
  | [] => []
  | key :: keys' =>
      match lookup key data with
      | Some (JList l) => l
      | _ => find_list keys' data
      end
  end.

(** The value of the first of [fields] present in [item]; [JNull], the
    initial [timestamp = None], if none is. *)
Fixpoint find_timestamp (fields : list string) (item : list (string * json)) : json :=
  match fields with
  | [] => JNull
  | ts_field :: fields' =>
      match lookup ts_field item with
      | Some v => v
      | None => find_timestamp fields' item
      end
  end.

(** [(times, prices)] order: [a < b] on tuples compares the first
    components that differ under [==]. *)
Definition row_ltb (a b : row) : bool :=
  if negb (instant (fst a) =? instant (fst b)) then PyDatetime.ltb (fst a) (fst b)
  else if negb (PyFloat.eqb (snd a) (snd b)) then PyFloat.ltb (snd a) (snd b)
  else false.

(** [sorted]: the stable sort under [<]. *)
Fixpoint insert (x : row) (l : list row) : list row :=
  match l with
  | [] => [x]
  | y :: l' => if row_ltb y x then y :: insert x l' else x :: l
  end.

Fixpoint sorted (l : list row) : list row :=
  match l with
  | [] => []
  | x :: l' => insert x (sorted l')
  end.

Section Zone.
Context `{TextRoutines}.
Variable chicago_tz : tzinfo.

(** The price loop: the first of [fields] present in [item] that
    [float()] converts. Inner [None] is [price = None]; outer [None] is
    the uncaught [OverflowError]. *)
Fixpoint find_price (fields : list string) (item : list (string * json))
  : option (option pyfloat) :=
  match fields with
  | [] => Some None
  | price_field :: fields' =>
      match lookup price_field item with
      | Some v =>
          match float v with
          | FloatOk p => Some (Some p)
          | FloatValueOrTypeError => find_price fields' item
          | FloatOverflowError => None
          end
      | None => find_price fields' item
      end
  end.

(** The body of [for item in items]: the observation appended, if any. *)
Definition extract (item : json) : option (option row) :=
  match item with
  | JDict d =>
      let timestamp := find_timestamp ts_fields d in
      price <- find_price price_fields d ;;
      match price with
      | Some price =>
          if Json.truthy timestamp then
            match convert_to_chicago_time chicago_tz (str timestamp) with
            | Some chicago_time =>
                if PyFloat.leb (of_Z 0) price && PyFloat.leb price (of_Z 1000)
                then Some (Some (chicago_time, price))
                else Some None
            | None => Some None
            end
          else Some None
      | None => Some None
      end
  | _ => Some None
  end.

Fixpoint collect (items : list json) : option (list row) :=
  match items with
  | [] => Some []
  | item :: items' =>
      r <- extract item ;;
      rs <- collect items' ;;
      Some (match r with Some x => x :: rs | None => rs end)
  end.

(** The candidate items of a payload; [None] for the [else] branch. *)
Definition items_of (data : json) : option (list json) :=
  match data with
  | JList l => Some l
  | JDict d =>
      match find_list container_keys d with
      | [] => Some [data]
      | items => Some items
      end
  | _ => None
  end.

(** [process_data_for_plotting(data)]; [None] is an exception that
    leaves the function. *)
Definition process_data_for_plotting (data : json) : option outcome :=
  if negb (Json.truthy data) then Some (Failed NoDataReceived)
  else
    match items_of data with
    | None => Some (Failed (UnexpectedFormat (type_of data)))
    | Some items =>
        rows <- collect items ;;
        match rows with
        | [] => Some (Failed (NoValidPoints (List.length items)))
        | _ => Some (Parsed (sorted rows) (List.length items))
        end
    end.

End Zone.

End Parser.

(* ===================================================================== *)
(** * The aggregator: the statistics of [create_weekly_chart]             *)
(* ===================================================================== *)

Module Aggregator.
Import PyFloat Float64 PyDatetime.

(** A row of the data frame [df]: the columns ['Time'] and ['Price'].
    The prices that reach the frame are finite floats (the parser keeps
    only those between 0 and 1000): the column holds the rationals they
    are. *)
Record row : Type := mkRow { Time : aware; Price : Q }.

Definition DataFrame : Type := list row.

(** The dict returned next to the figure. The minimum and the maximum
    are values of the column; the mean and the median come out of float
    arithmetic, which can overflow. *)
Record stats : Type := mkStats {
  avg_price : pyfloat;
  median_price : pyfloat;
  min_price : Q;
  max_price : Q;
  total_points : nat
}.

(** [Series.mean()]: pandas adds the values as binary64 numbers and
    divides the sum by their count. The order in which the values are
    added, one after the other or by blocks and pairs, is a matter of
    the numerical library that pandas finds installed, and the rounded
    sum depends on it: the routine is taken as given. *)
Class SeriesRoutines : Type := {
  series_mean : list Q -> pyfloat
}.

(** [(df['Time'] >= week_start) & (df['Time'] <= week_end)] *)
Definition in_week (week_start week_end : aware) (r : row) : bool :=
  leb week_start (Time r) && leb (Time r) week_end.

(** ** [pandas.Series] reductions *)

Fixpoint insert_value (x : Q) (l : list Q) : list Q :=
  match l with
  | [] => [x]
  | y :: l' => if Qle_bool x y then x :: l else y :: insert_value x l'
  end.

(** The values in ascending order. *)
Fixpoint sort_values (l : list Q) : list Q :=
  match l with
  | [] => []
  | x :: l' => insert_value x (sort_values l')
  end.

(** [Series.median()]: the mean of the middle value of the ordered
    values, or of the two middle values when their number is even. The
    mean of two floats is their sum, rounded, divided by 2, rounded; the
    mean of one float is that float. An empty series has the median
    NaN. *)
Definition series_median (xs : list Q) : pyfloat :=
  let s := sort_values xs in
  let n := List.length s in
  match xs with
  | [] => NaN
  | _ =>
      if Nat.even n
      then fdiv (fadd (nth (n / 2 - 1) s 0%Q) (nth (n / 2) s 0%Q)) 2
      else Finite (nth (n / 2) s 0%Q)
  end.

(** [Series.min()] and [Series.max()] on a non-empty series. *)
Definition series_min (xs : list Q) : Q :=
  match xs with
  | [] => 0%Q
  | x :: xs' => fold_left (fun m y => if Qle_bool y m then y else m) xs' x
  end.

Definition series_max (xs : list Q) : Q :=
  match xs with
  | [] => 0%Q
  | x :: xs' => fold_left (fun m y => if Qle_bool m y then y else m) xs' x
  end.

(** [create_weekly_chart(df, week_start, week_end, week_number,
    show_average, show_median)]: the second component of the returned
    pair, [None] for [(None, None)]. The figure, which is all that
    [week_number] and the two flags act on, is left out. *)
Definition create_weekly_chart `{SeriesRoutines} (df : DataFrame)
    (week_start week_end : aware)
    (week_number : Z) (show_average show_median : bool) : option stats :=
  let week_data := filter (in_week week_start week_end) df in
  if (List.length week_data =? 0)%nat then None
  else
    let prices := map Price week_data in
    Some {| avg_price := series_mean prices;
            median_price := series_median prices;
            min_price := series_min prices;
            max_price := series_max prices;
            total_points := List.length week_data |}.

End Aggregator.

(* ===================================================================== *)
(** * Vocabulary of the statements about the week windows                 *)
(* ===================================================================== *)

Module WindowerSpec.
Import Calendar PyDatetime.

(** [days_since_sunday] as [get_week_boundaries] computes it from the
    calendar fields of [end_date]. *)
Definition days_since_sunday (end_date : naive) : Z :=
  (weekday_of_ordinal (ordinal end_date) - 6) mod 7.

(** The day of window 1's start. *)
Definition sunday_ordinal (end_date : naive) : Z :=
  ordinal end_date - days_since_sunday end_date.

(** Every boundary of the [num_weeks] windows is a date that [datetime]
    can hold: the oldest start is not before 0001-01-01 and the end of
    window 1 is not after 9999-12-31. *)
Definition representable (end_date : naive) (num_weeks : Z) : Prop :=
  0 < sunday_ordinal end_date - 7 * (num_weeks - 1)
  /\ sunday_ordinal end_date + 6 <= MAXORDINAL.

(** The [i]-th pair of the result, counted from 0, in closed form. *)
Definition window (sunday offset i : Z) : aware * aware :=
  ({| fields := {| ordinal := sunday - 7 * i; usec_of_day := 0 |};
      utcoffset := offset |},
   {| fields := {| ordinal := sunday - 7 * i + 6; usec_of_day := US_PER_DAY - 1 |};
      utcoffset := offset |}).

End WindowerSpec.

(* ===================================================================== *)
(** * The dyadic model against the IEEE 754 operations of the library     *)
(* ===================================================================== *)

Module Binary64Spec.
Import Binary64.

(** The binary64 value of a dyadic number and of an integer, in the
    format of the library's specification of floating-point numbers. *)
Definition ieee_of_dyadic (d : dyadic) : spec_float :=
  binary_normalize 53 1024 (mant d) (expo d) false.

Definition ieee_of_int (z : Z) : spec_float := binary_normalize 53 1024 z 0 false.

Definition same_float (x y : spec_float) : bool :=
  match x, y with
  | S754_finite s m e, S754_finite s' m' e' => Bool.eqb s s' && Pos.eqb m m' && Z.eqb e e'
  | S754_zero s, S754_zero s' => Bool.eqb s s'
  | _, _ => false
  end.

(** On the millisecond count [ms], the quotient [ms / 1000] and the
    product of its fraction by [1e6] are what [SFdiv] and [SFmul]
    compute at precision 53. *)
Definition agrees_with_ieee (ms : Z) : bool :=
  let t := truediv ms 1000 in
  let '(frac, _) := modf t in
  same_float (SFdiv 53 1024 (ieee_of_int ms) (ieee_of_int 1000)) (ieee_of_dyadic t)
  && same_float (SFmul 53 1024 (ieee_of_dyadic frac) (ieee_of_int 1000000))
                (ieee_of_dyadic (fmul frac f1e6)).

Definition sample_millis : list Z :=
  [ 0; 1; 2; 3; 7; 999; 1000; 1001; 123456789012; 1234567890123; 1700000000123;
    1753743600000; 8589934591001; 8589934592001; 9000000000001; 9999999999999 ].

End Binary64Spec.

(* ===================================================================== *)
(** * Vocabulary of the statements about float arithmetic                 *)
(* ===================================================================== *)

Module Float64Spec.
Import PyFloat Float64.

(** A finite binary64 value of magnitude below [2 ^ top]: at most 53
    significant bits, the last place not below [2 ^ -1074]. *)
Definition binary64_below (top : Z) (q : Q) : Prop :=
  exists m e : Z, Z.abs m < 2 ^ 53 /\ -1074 <= e <= top - 53 /\ (q == scaled m e)%Q.

(** A finite binary64 value. *)
Definition binary64 (q : Q) : Prop := binary64_below 1024 q.

(** [k] times the smallest positive float, [2 ^ -1074]. *)
Definition units (k : Z) : Q := k # Z.to_pos (2 ^ 1074).

(** The same float: the same number or the same special value. *)
Definition float_eq (x y : pyfloat) : Prop :=
  match x, y with
  | Finite a, Finite b => (a == b)%Q
  | PosInf, PosInf | NegInf, NegInf | NaN, NaN => True
  | _, _ => False
  end.


(** ** Against the IEEE 754 operations of the library *)

Definition ieee_of (m e : Z) : spec_float := binary_normalize 53 1024 m e false.

Definition float_of_ieee (x : spec_float) : pyfloat :=
  match x with
  | S754_zero _ => Finite 0
  | S754_infinity s => if s then NegInf else PosInf
  | S754_nan => NaN
  | S754_finite s m e => Finite (scaled (if s then Z.neg m else Z.pos m) e)
  end.

(** On the floats [ma * 2 ^ ea] and [mb * 2 ^ eb], the sum and its
    quotient by 2 are what [SFadd] and [SFdiv] compute at precision 53. *)
Definition mean_agrees_with_ieee (ab : (Z * Z) * (Z * Z)) : bool :=
  let '((ma, ea), (mb, eb)) := ab in
  let s := SFadd 53 1024 (ieee_of ma ea) (ieee_of mb eb) in
  PyFloat.eqb (float_of_ieee s) (fadd (scaled ma ea) (scaled mb eb))
  && PyFloat.eqb (float_of_ieee (SFdiv 53 1024 s (ieee_of 2 0)))
                 (fdiv (fadd (scaled ma ea) (scaled mb eb)) 2).

(** 0.1 and 0.2; small integers; the smallest floats; the largest ones;
    sums that cancel; mixed signs and magnitudes. *)
Definition sample_pairs : list ((Z * Z) * (Z * Z)) :=
  [ ((3602879701896397, -55), (3602879701896397, -54));
    ((2, 0), (4, 0)); ((4, 0), (6, 0)); ((3, 0), (4, 0));
    ((1, -1074), (0, 0)); ((3, -1074), (0, 0)); ((1, -1074), (2, -1074));
    ((5, -1074), (4503599627370496, -1074)); ((4503599627370497, -1074), (0, 0));
    ((9007199254740991, 971), (9007199254740991, 971));
    ((9007199254740991, 970), (9007199254740991, 970));
    ((9007199254740991, 971), (1, 918)); ((9007199254740991, 971), (1, 917));
    ((-3602879701896397, -55), (-3602879701896397, -54));
    ((3602879701896397, -55), (-3602879701896397, -54));
    ((7, 0), (-7, 0)); ((9007199254740991, 0), (1, 0)); ((9007199254740991, 0), (3, 0));
    ((6004799503160661, -54), (6004799503160661, -106));
    ((5, 0), (-1, -1074)); ((1000, 0), (1000, 0)); ((4591870180066957, -40), (1, -3)) ].

End Float64Spec.

(* ===================================================================== *)
(** * Vocabulary of the statements about the parsed rows                  *)
(* ===================================================================== *)

Module ParserSpec.
Import PyDatetime PyFloat Parser.

(** Ascending by instant. *)
Definition instant_le (a b : row) : Prop := instant (fst a) <= instant (fst b).

(** The price is a number between 0 and 1000. *)
Definition price_in_range (r : row) : Prop :=
  exists q : Q, snd r = Finite q /\ (0 <= q <= 1000)%Q.

End ParserSpec.

(* ===================================================================== *)
(** * The median, as statistics defines it                                *)
(* ===================================================================== *)

Module AggregatorSpec.

(** Number of values of [l] strictly below [x], and at most [x]. *)
Definition count_lt (x : Q) (l : list Q) : nat :=
  List.length (filter (fun y => negb (Qle_bool x y)) l).

Definition count_le (x : Q) (l : list Q) : nat :=
  List.length (filter (fun y => Qle_bool y x) l).

(** [x] stands at position [k], counted from 0, when the values of [l]
    are put in ascending order: at most [k] values are below it and more
    than [k] are not above it. *)
Definition kth_smallest (l : list Q) (k : nat) (x : Q) : Prop :=
  In x l /\ (count_lt x l <= k < count_le x l)%nat.

(** The median: the middle value of the ordered values, and the mean of
    the two middle values when their number is even. *)
Definition is_median (l : list Q) (m : Q) : Prop :=
  let n := List.length l in
  if Nat.even n
  then exists a b : Q,
         kth_smallest l (n / 2 - 1) a /\ kth_smallest l (n / 2) b
         /\ (m == (a + b) / 2)%Q
  else exists a : Q, kth_smallest l (n / 2) a /\ (m == a)%Q.

Definition ascending (l : list Q) : Prop := StronglySorted Qle l.


(** The median as float arithmetic computes it: the middle value of the
    ordered values, and the float mean of the two middle values, their
    sum rounded and then halved, when their number is even. *)
Definition is_float_median (l : list Q) (m : PyFloat.pyfloat) : Prop :=
  let n := List.length l in
  if Nat.even n
  then exists a b : Q,
         kth_smallest l (n / 2 - 1) a /\ kth_smallest l (n / 2) b
         /\ m = Float64.fdiv (Float64.fadd a b) 2
  else exists a : Q, kth_smallest l (n / 2) a /\ m = PyFloat.Finite a.

End AggregatorSpec.

(* ===================================================================== *)
(** * Sample inputs                                                       *)
(* ===================================================================== *)

Module Samples.
Import Calendar PyDatetime Pytz PyFloat Json Parser Aggregator WindowerSpec.

(** Wednesday 2025-01-15, noon. *)
Definition mid_january : naive := mk_datetime 2025 1 15 12 0 0 0.

(** The five weeks back from [mid_january], in closed form. *)
Definition five_weeks : list (aware * aware) :=
  map (window (sunday_ordinal mid_january) LMT) (range 5).

(** A row at the last microsecond of the first of the five weeks,
    Saturday 2025-01-18 23:59:59.999999 on the clock of the windows. *)
Definition last_instant_row : Aggregator.row :=
  mkRow (snd (window (sunday_ordinal mid_january) LMT 0)) 7.

(** The payload [{"foo": 1}]. *)
Definition foo_payload : json := JDict [("foo"%string, JInt 1)].

(** The payload [{"millisUTC": "1700000000000", "price": 3.5}], a usable
    single record. *)
Definition usable_record : json :=
  JDict [("millisUTC"%string, JStr "1700000000000");
         ("price"%string, JFloat (Finite (7 # 2)))].

(** The payload [{"foo": 1, "price": 2 ** 1024}]. *)
Definition overflowing_record : json :=
  JDict [("foo"%string, JInt 1); ("price"%string, JInt (2 ^ 1024))].

(** The item [{"millisUTC": 0, "price": 3.5}]. *)
Definition zero_millis_item : json :=
  JDict [("millisUTC"%string, JInt 0); ("price"%string, JFloat (Finite (7 # 2)))].

Definition observation (millis : Z) (price : Q) : json :=
  JDict [("millisUTC"%string, JInt millis); ("price"%string, JFloat (Finite price))].

(** Three observations out of order, the last one priced above 1000. *)
Definition unordered_feed : json :=
  JDict [("data"%string,
          JList [observation 1700000300000 4;
                 observation 1700000000000 (7 # 2);
                 observation 1700000600000 2000])].

(** 2023-11-14 16:13:20 and 16:18:20, Central Standard Time. *)
Definition unordered_feed_rows : list Parser.row :=
  [ ({| fields := {| ordinal := 738838; usec_of_day := 58400000000 |}; utcoffset := CST |},
     Finite (7 # 2));
    ({| fields := {| ordinal := 738838; usec_of_day := 58700000000 |}; utcoffset := CST |},
     Finite 4) ].

Definition at_second (k : Z) : aware :=
  {| fields := {| ordinal := 739460; usec_of_day := k * US_PER_SECOND |}; utcoffset := 0 |}.

(** Four rows with the prices 6, 2, 8, 4. *)
Definition even_frame : DataFrame :=
  [ mkRow (at_second 3) 6; mkRow (at_second 1) 2;
    mkRow (at_second 4) 8; mkRow (at_second 2) 4 ].




End Samples.

(* ===================================================================== *)
(** * The data path of [main]                                             *)
(* ===================================================================== *)

Module Dashboard.
Import Calendar PyFloat PyDatetime Aggregator.

(** One row of [pd.DataFrame({'Time': times, 'Price': prices})]. The
    ['Price'] column of the model holds finite numbers: a row with an
    infinite or NaN price has no counterpart ([None]). *)
Definition frame_row (r : Parser.row) : option row :=
  match snd r with
  | Finite q => Some (mkRow (fst r) q)
  | _ => None
  end.

(** [df = pd.DataFrame({'Time': times, 'Price': prices})] *)
Definition DataFrame_of (rows : list Parser.row) : option DataFrame :=
  mapM frame_row rows.

(** Two decimal digits, as [%m] and [%d] print a month and a day. *)
Definition two_digits (n : Z) : string :=
  let s := DecimalString.NilZero.string_of_int (Z.to_int n) in
  if n <? 10 then ("0" ++ s)%string else s.

(** [d.strftime("%m/%d")] *)
Definition strftime_md (d : aware) : string :=
  let '(_, month, day) := ord2ymd (ordinal (fields d)) in
  (two_digits month ++ "/" ++ two_digits day)%string.

(** An element of [weekly_stats]. *)
Record week_entry : Type := mkWeekEntry {
  week : string;
  avg_price : pyfloat;
  min_price : Q;
  max_price : Q;
  data_points : nat
}.

(** [f"Week {i+1}: {week_start_str}-{week_end_str}"] *)
Definition week_label (i : nat) (week_start week_end : aware) : string :=
  ("Week " ++ DecimalString.NilZero.string_of_uint (Nat.to_uint (S i)) ++ ": "
   ++ strftime_md week_start ++ "-" ++ strftime_md week_end)%string.

(** The loop [for i, (week_start, week_end) in enumerate(week_boundaries)]
    that fills [weekly_stats], from index [i] on: a week without rows
    adds nothing. *)
Fixpoint weekly_stats_from `{SeriesRoutines} (i : nat) (df : DataFrame)
    (week_boundaries : list (aware * aware)) : list week_entry :=
  match week_boundaries with
  | [] => []
  | (week_start, week_end) :: rest =>
      let week_data := filter (in_week week_start week_end) df in
      (if (0 <? List.length week_data)%nat
       then [ {| week := week_label i week_start week_end;
                 avg_price := series_mean (map Price week_data);
                 min_price := series_min (map Price week_data);
                 max_price := series_max (map Price week_data);
                 data_points := List.length week_data |} ]
       else [])
      ++ weekly_stats_from (S i) df rest
  end.

Definition weekly_stats `{SeriesRoutines} (df : DataFrame)
    (week_boundaries : list (aware * aware)) : list week_entry :=
  weekly_stats_from 0 df week_boundaries.

(** The loop of the weekly analysis,
    [for i, (week_start, week_end) in enumerate(week_boundaries)], from
    index [i] on: the statistics of the charts shown, one for each week
    for which [create_weekly_chart] returns a figure. *)
Fixpoint weekly_charts_from `{SeriesRoutines} (i : nat) (df : DataFrame)
    (week_boundaries : list (aware * aware)) (show_average show_median : bool)
  : list stats :=
  match week_boundaries with
  | [] => []
  | (week_start, week_end) :: rest =>
      (match create_weekly_chart df week_start week_end (Z.of_nat i + 1)
               show_average show_median with
       | Some stats => [stats]
       | None => []
       end)
      ++ weekly_charts_from (S i) df rest show_average show_median
  end.

Definition weekly_charts `{SeriesRoutines} (df : DataFrame)
    (week_boundaries : list (aware * aware))
    (show_average show_median : bool) : list stats :=
  weekly_charts_from 0 df week_boundaries show_average show_median.

(** [charts_created] when the loop ends. *)
Definition charts_created `{SeriesRoutines} (df : DataFrame)
    (week_boundaries : list (aware * aware))
    (show_average show_median : bool) : nat :=
  List.length (weekly_charts df week_boundaries show_average show_median).

Section SortValues.
(** [df.sort_values('Time', ascending=b)]. pandas fixes the order of
    the result, not which of two rows of the same instant comes first:
    the routine is taken as given. *)
Variable sort_values : bool -> DataFrame -> DataFrame.

(** [recent_data = df.sort_values('Time', ascending=False).head(144)] *)
Definition recent_data (df : DataFrame) : DataFrame :=
  firstn 144 (sort_values false df).

(** [chart_data = recent_data.sort_values('Time', ascending=True)] *)
Definition chart_data (df : DataFrame) : DataFrame :=
  sort_values true (recent_data df).

End SortValues.

(** A sorting routine to run the above with: insertion by instant. *)
Definition before (ascending : bool) (a b : row) : bool :=
  if ascending then PyDatetime.leb (Time a) (Time b)
  else PyDatetime.leb (Time b) (Time a).

Fixpoint insert_row (ascending : bool) (x : row) (l : DataFrame) : DataFrame :=
  match l with
  | [] => [x]
  | y :: l' => if before ascending x y then x :: l else y :: insert_row ascending x l'
  end.

Fixpoint insertion_sort_values (ascending : bool) (df : DataFrame) : DataFrame :=
  match df with
  | [] => []
  | x :: df' => insert_row ascending x (insertion_sort_values ascending df')
  end.

End Dashboard.

(* ===================================================================== *)
(** * Vocabulary of the statements about the statistics and the rows      *)
(* ===================================================================== *)

Module DashboardSpec.
Import PyDatetime PyFloat Aggregator.

(** Ascending by instant, then by price: the order of the tuples
    [(time, price)]. *)
Definition row_le (a b : Parser.row) : Prop :=
  instant (fst a) < instant (fst b)
  \/ (instant (fst a) = instant (fst b)
      /\ exists p q : Q, snd a = Finite p /\ snd b = Finite q /\ (p <= q)%Q).

(** Order of the rows of a frame by instant. *)
Definition time_le (a b : row) : Prop := instant (Time a) <= instant (Time b).
Definition time_ge (a b : row) : Prop := instant (Time b) <= instant (Time a).

(** What [sort_values] promises: the same rows, in the order asked for. *)
Definition sorts (sort_values : bool -> DataFrame -> DataFrame) : Prop :=
  forall df,
    Permutation df (sort_values true df)
    /\ StronglySorted time_le (sort_values true df)
    /\ Permutation df (sort_values false df)
    /\ StronglySorted time_ge (sort_values false df).

(** The statistics that rest on the order of the prices, not on their
    sum, agree: the numbers up to equality of rationals. *)
Definition same_order_stats (a b : stats) : Prop :=
  Float64Spec.float_eq (median_price a) (median_price b)
  /\ (min_price a == min_price b)%Q /\ (max_price a == max_price b)%Q
  /\ total_points a = total_points b.

(** The row lies in the window given as a pair. *)
Definition in_pair (r : row) (w : aware * aware) : bool :=
  in_week (fst w) (snd w) r.

(** The numbers of a [weekly_stats] entry and of a chart's statistics. *)
Definition entry_numbers (e : Dashboard.week_entry) : pyfloat * Q * Q * nat :=
  (Dashboard.avg_price e, Dashboard.min_price e, Dashboard.max_price e,
   Dashboard.data_points e).

Definition stats_numbers (st : stats) : pyfloat * Q * Q * nat :=
  (avg_price st, min_price st, max_price st, total_points st).

Definition sum_nat (l : list nat) : nat := fold_right Nat.add 0%nat l.

End DashboardSpec.

(* ===================================================================== *)
(** * Vocabulary of the statements about whole feeds                      *)
(* ===================================================================== *)

Module FeedSpec.
Import PyDatetime Pytz PyFloat Json PyText Parser.

(** An item as the 5-minute feed sends them: a dict whose timestamp field
    is a text of 13 digits and whose price field converts to a number
    between 0 and 1000. *)
Definition feed_item `{TextRoutines} (item : json) : Prop :=
  exists (d : list (string * json)) (s : string) (q : Q),
    item = JDict d
    /\ find_timestamp ts_fields d = JStr s
    /\ isdigit s = true /\ len s = 13
    /\ find_price price_fields d = Some (Some (Finite q))
    /\ (0 <= q <= 1000)%Q.

(** The offsets of the zone stay within a day. *)
Definition offsets_within_a_day (tz : tzinfo) : Prop :=
  forall t, -86400 < utcoffset_at tz t < 86400.

End FeedSpec.

(* ===================================================================== *)
(** * More sample inputs                                                  *)
(* ===================================================================== *)

Module DashboardSamples.
Import Calendar PyDatetime Pytz PyFloat Json PyText Parser Aggregator Samples.

(** Monday 2025-01-13, 08:30: the week of [mid_january]. *)
Definition monday_morning : naive := mk_datetime 2025 1 13 8 30 0 0.

(** Noon of a day, Central Standard Time. *)
Definition cst_noon (year month day : Z) : aware :=
  {| fields := mk_datetime year month day 12 0 0 0; utcoffset := CST |}.

(** Rows of 14, 7 and 6 January 2025 and one of 1 November 2024, which
    is older than the five weeks back from [mid_january]. *)
Definition january_frame : DataFrame :=
  [ mkRow (cst_noon 2025 1 14) 3; mkRow (cst_noon 2025 1 7) 5;
    mkRow (cst_noon 2025 1 6) (5 # 2); mkRow (cst_noon 2024 11 1) 9 ].

(** [even_frame] with its first two rows exchanged. *)
Definition swapped_frame : DataFrame :=
  [ mkRow (at_second 1) 2; mkRow (at_second 3) 6;
    mkRow (at_second 4) 8; mkRow (at_second 2) 4 ].

(** An item as the feed sends it, the timestamp a text. *)
Definition feed_observation (millis : string) (price : Q) : json :=
  JDict [("millisUTC"%string, JStr millis); ("price"%string, JFloat (Finite price))].

Definition two_observations : list json :=
  [ feed_observation "1700000300000" 4; feed_observation "1700000000000" (7 # 2) ].

Definition two_observations_swapped : list json :=
  [ feed_observation "1700000000000" (7 # 2); feed_observation "1700000300000" 4 ].

(** The item [{"millisUTC": "1700000600000", "price": 2 ** 1024}]. *)
Definition huge_price_fields : list (string * json) :=
  [("millisUTC"%string, JStr "1700000600000"); ("price"%string, JInt (2 ^ 1024))].

(** The payload [{"data": [], "prices": [...]}]. *)
Definition shadowed_fields : list (string * json) :=
  [("data"%string, JList []); ("prices"%string, JList two_observations)].

(** 150 rows, one a second. *)
Definition long_frame : DataFrame :=
  map (fun k => mkRow (at_second k) (inject_Z (k mod 7))) (range 150).

(** Text routines that know one compact timestamp, 2023-11-14 22:13:20,
    and nothing else. *)
Definition one_stamp_routines : TextRoutines :=
  {| strptime_ymdhms := fun s =>
       if String.eqb s "20231114221320"
       then Some (mk_datetime 2023 11 14 22 13 20 0) else None;
     strptime_ymdhm := fun _ => None;
     fromisoformat := fun _ => None;
     float_of_str := fun _ => None;
     repr := fun _ => EmptyString |}.

(** 2023-11-14 16:13:20, Central Standard Time. *)
Definition mid_november : aware :=
  {| fields := {| ordinal := 738838; usec_of_day := 58400000000 |}; utcoffset := CST |}.

End DashboardSamples.

(* ===================================================================== *)
(** * Loops                                                               *)
(* ===================================================================== *)

Section Loops.
Context {A B : Type}.

Lemma mapM_total (f : A -> option B) (g : A -> B) (l : list A) :
  (forall a, In a l -> f a = Some (g a)) -> mapM f l = Some (map g l).
Proof.
  induction l as [|a l IH]; intros Hf; simpl.
  - reflexivity.
  - rewrite (Hf a (or_introl eq_refl)). simpl.
    rewrite IH by (intros; apply Hf; now right). reflexivity.
Qed.

Lemma mapM_fails (f : A -> option B) (l : list A) (a : A) :
  In a l -> f a = None -> mapM f l = None.
Proof.
  induction l as [|b l IH]; simpl; intros Hin Hf.
  - contradiction.
  - destruct Hin as [->|Hin].
    + now rewrite Hf.
    + destruct (f b); simpl; [|reflexivity]. now rewrite (IH Hin Hf).
Qed.
End Loops.

Lemma range_length (n : Z) : List.length (range n) = Z.to_nat n.
Proof. unfold range. now rewrite length_map, length_seq. Qed.

Lemma range_In (n i : Z) : In i (range n) <-> 0 <= i < n.
Proof.
  unfold range. rewrite in_map_iff. split.
  - intros [k [<- Hk]]. apply in_seq in Hk. lia.
  - intros Hi. exists (Z.to_nat i). split; [lia|]. apply in_seq. lia.
Qed.

Lemma range_nth_error (n : Z) (k : nat) :
  (k < Z.to_nat n)%nat -> nth_error (range n) k = Some (Z.of_nat k).
Proof.
  intros Hk. unfold range. rewrite nth_error_map.
  rewrite nth_error_seq. 
  destruct (Nat.ltb_spec k (Z.to_nat n)); [reflexivity | lia].
Qed.

(* ===================================================================== *)
(** * Facts about [datetime] arithmetic and the week windows              *)
(* ===================================================================== *)

Module DatetimeFacts.
Import Calendar PyDatetime.

Lemma US_PER_DAY_pos : 0 < US_PER_DAY.
Proof. reflexivity. Qed.

(** Adding [k] whole days and [r] microseconds that stay within the day. *)
Lemma naive_add_days (o u k r : Z) :
  0 <= u + r < US_PER_DAY ->
  0 < o + k <= MAXORDINAL ->
  naive_add {| ordinal := o; usec_of_day := u |} (k * US_PER_DAY + r)
  = Some {| ordinal := o + k; usec_of_day := u + r |}.
Proof.
  intros Hu Ho. unfold naive_add, wall_us. simpl.
  replace (o * US_PER_DAY + u + (k * US_PER_DAY + r))
    with ((u + r) + (o + k) * US_PER_DAY) by ring.
  rewrite Z.div_add, Z.mod_add by (unfold US_PER_DAY, US_PER_SECOND; lia).
  rewrite Z.div_small, Z.mod_small by assumption. simpl.
  replace (0 <? o + k) with true by (symmetry; apply Z.ltb_lt; lia).
  replace (o + k <=? MAXORDINAL) with true by (symmetry; apply Z.leb_le; lia).
  reflexivity.
Qed.

(** Outside the calendar the addition raises. *)
Lemma naive_add_overflow (o u k r : Z) :
  0 <= u + r < US_PER_DAY ->
  o + k <= 0 \/ MAXORDINAL < o + k ->
  naive_add {| ordinal := o; usec_of_day := u |} (k * US_PER_DAY + r) = None.
Proof.
  intros Hu Ho. unfold naive_add, wall_us. simpl.
  replace (o * US_PER_DAY + u + (k * US_PER_DAY + r))
    with ((u + r) + (o + k) * US_PER_DAY) by ring.
  rewrite Z.div_add by (unfold US_PER_DAY, US_PER_SECOND; lia).
  rewrite Z.div_small by assumption. simpl.
  destruct Ho as [Ho|Ho].
  - replace (0 <? o + k) with false by (symmetry; apply Z.ltb_ge; lia). reflexivity.
  - replace (o + k <=? MAXORDINAL) with false by (symmetry; apply Z.leb_gt; lia).
    now rewrite andb_false_r.
Qed.

Lemma add_days (d : aware) (k r : Z) :
  0 <= usec_of_day (fields d) + r < US_PER_DAY ->
  0 < ordinal (fields d) + k <= MAXORDINAL ->
  add d (k * US_PER_DAY + r)
  = Some {| fields := {| ordinal := ordinal (fields d) + k;
                         usec_of_day := usec_of_day (fields d) + r |};
            utcoffset := utcoffset d |}.
Proof.
  intros Hu Ho. unfold add. destruct d as [[o u] off]. cbn [fields utcoffset ordinal usec_of_day] in *.
  rewrite naive_add_days by assumption. reflexivity.
Qed.

Lemma add_overflow (d : aware) (k r : Z) :
  0 <= usec_of_day (fields d) + r < US_PER_DAY ->
  ordinal (fields d) + k <= 0 \/ MAXORDINAL < ordinal (fields d) + k ->
  add d (k * US_PER_DAY + r) = None.
Proof.
  intros Hu Ho. unfold add. destruct d as [[o u] off]. cbn [fields utcoffset ordinal usec_of_day] in *.
  rewrite naive_add_overflow by assumption. reflexivity.
Qed.

Lemma weekday_range (d : aware) : 0 <= weekday d < 7.
Proof. unfold weekday, weekday_of_ordinal. apply Z.mod_pos_bound. lia. Qed.

End DatetimeFacts.

Module WindowerFacts.
Import Calendar PyDatetime Pytz Windower WindowerSpec DatetimeFacts.

Lemma days_since_sunday_range (d : naive) : 0 <= days_since_sunday d < 7.
Proof. unfold days_since_sunday. apply Z.mod_pos_bound. lia. Qed.

Lemma sunday_ordinal_weekday (d : naive) :
  weekday_of_ordinal (sunday_ordinal d) = SUNDAY.
Proof.
  unfold sunday_ordinal, days_since_sunday, weekday_of_ordinal, SUNDAY.
  generalize (ordinal d). intros o.
  pose proof (Z.mod_pos_bound (o + 6) 7 ltac:(lia)).
  pose proof (Z.mod_pos_bound ((o + 6) mod 7 - 6) 7 ltac:(lia)).
  pose proof (Z.mod_pos_bound (o - ((o + 6) mod 7 - 6) mod 7 + 6) 7 ltac:(lia)).
  pose proof (Z.div_mod (o + 6) 7 ltac:(lia)).
  pose proof (Z.div_mod ((o + 6) mod 7 - 6) 7 ltac:(lia)).
  pose proof (Z.div_mod (o - ((o + 6) mod 7 - 6) mod 7 + 6) 7 ltac:(lia)).
  lia.
Qed.

Section Zone.
Variable tz : tzinfo.

Lemma week_pair_closed (sunday i : Z) :
  0 < sunday - 7 * i -> sunday - 7 * i + 6 <= MAXORDINAL ->
  week_pair
    {| fields := {| ordinal := sunday; usec_of_day := 0 |};
       utcoffset := attached_utcoffset tz |} i
  = Some (window sunday (attached_utcoffset tz) i).
Proof.
  intros Hlo Hhi. unfold week_pair, sub.
  replace (- timedelta_weeks i) with ((- (7 * i)) * US_PER_DAY + 0)
    by (unfold timedelta_weeks, timedelta, US_PER_DAY, US_PER_SECOND; ring).
  rewrite add_days by (cbn [fields ordinal usec_of_day]; unfold US_PER_DAY, US_PER_SECOND; lia).
  cbn [bind fields ordinal usec_of_day utcoffset].
  replace (timedelta 0 6 23 59 59 999999) with (6 * US_PER_DAY + (US_PER_DAY - 1))
    by reflexivity.
  rewrite add_days by (cbn [fields ordinal usec_of_day]; unfold US_PER_DAY, US_PER_SECOND; lia).
  cbn [bind fields ordinal usec_of_day utcoffset].
  unfold window. repeat f_equal; ring.
Qed.

(** The whole function in closed form. *)
Lemma get_week_boundaries_closed (end_date : naive) (num_weeks : Z) :
  valid_naive end_date -> 1 <= num_weeks -> representable end_date num_weeks ->
  get_week_boundaries tz end_date num_weeks
  = Some (map (window (sunday_ordinal end_date) (attached_utcoffset tz))
              (range num_weeks)).
Proof.
  intros [Hord Hus] Hn [Hlo Hhi].
  pose proof (days_since_sunday_range end_date) as Hd.
  unfold get_week_boundaries.
  change (weekday (replace_tzinfo end_date tz) - 6) 
    with (weekday_of_ordinal (ordinal end_date) - 6).
  fold (days_since_sunday end_date).
  assert (Hsun :
    (if days_since_sunday end_date =? 0 then Some (replace_tzinfo end_date tz)
     else sub (replace_tzinfo end_date tz) (timedelta_days (days_since_sunday end_date)))
    = Some {| fields := {| ordinal := sunday_ordinal end_date;
                           usec_of_day := usec_of_day end_date |};
              utcoffset := attached_utcoffset tz |}).
  { unfold sunday_ordinal. destruct (Z.eqb_spec (days_since_sunday end_date) 0) as [E|E].
    - rewrite E, Z.sub_0_r. destruct end_date; reflexivity.
    - unfold sub.
      replace (- timedelta_days (days_since_sunday end_date))
        with ((- days_since_sunday end_date) * US_PER_DAY + 0)
        by (unfold timedelta_days, timedelta, US_PER_DAY, US_PER_SECOND; ring).
      rewrite add_days; unfold replace_tzinfo; cbn [fields ordinal usec_of_day utcoffset].
      + repeat f_equal; ring.
      + lia.
      + unfold sunday_ordinal in Hlo, Hhi. lia. }
  rewrite Hsun. cbn [bind]. unfold replace_time. cbn [fields ordinal usec_of_day utcoffset].
  change (timedelta 0 0 0 0 0 0) with 0.
  apply mapM_total. intros i Hi. apply range_In in Hi.
  apply week_pair_closed; lia.
Qed.

(** Past either end of the calendar the function raises. *)
Lemma get_week_boundaries_overflow (end_date : naive) (num_weeks : Z) :
  valid_naive end_date -> 1 <= num_weeks -> ~ representable end_date num_weeks ->
  get_week_boundaries tz end_date num_weeks = None.
Proof.
  intros [Hord Hus] Hn Hrep.
  pose proof (days_since_sunday_range end_date) as Hd.
  unfold get_week_boundaries.
  change (weekday (replace_tzinfo end_date tz) - 6)
    with (weekday_of_ordinal (ordinal end_date) - 6).
  fold (days_since_sunday end_date).
  destruct (Z_lt_le_dec 0 (sunday_ordinal end_date)) as [Hpos|Hneg].
  - assert (Hsun :
      (if days_since_sunday end_date =? 0 then Some (replace_tzinfo end_date tz)
       else sub (replace_tzinfo end_date tz) (timedelta_days (days_since_sunday end_date)))
      = Some {| fields := {| ordinal := sunday_ordinal end_date;
                             usec_of_day := usec_of_day end_date |};
                utcoffset := attached_utcoffset tz |}).
    { unfold sunday_ordinal. destruct (Z.eqb_spec (days_since_sunday end_date) 0) as [E|E].
      - rewrite E, Z.sub_0_r. destruct end_date; reflexivity.
      - unfold sub.
        replace (- timedelta_days (days_since_sunday end_date))
          with ((- days_since_sunday end_date) * US_PER_DAY + 0)
          by (unfold timedelta_days, timedelta, US_PER_DAY, US_PER_SECOND; ring).
        rewrite add_days; unfold replace_tzinfo; cbn [fields ordinal usec_of_day utcoffset].
        + repeat f_equal; ring.
        + lia.
        + unfold sunday_ordinal in Hpos. lia. }
    rewrite Hsun. cbn [bind]. unfold replace_time. cbn [fields ordinal usec_of_day utcoffset].
    change (timedelta 0 0 0 0 0 0) with 0.
    assert (Hcase : sunday_ordinal end_date - 7 * (num_weeks - 1) <= 0
                    \/ MAXORDINAL < sunday_ordinal end_date + 6)
      by (unfold representable in Hrep; lia).
    destruct Hcase as [Hlow|Hhigh].
    + apply mapM_fails with (a := num_weeks - 1); [apply range_In; lia|].
      unfold week_pair, sub.
      replace (- timedelta_weeks (num_weeks - 1))
        with ((- (7 * (num_weeks - 1))) * US_PER_DAY + 0)
        by (unfold timedelta_weeks, timedelta, US_PER_DAY, US_PER_SECOND; ring).
      rewrite add_overflow; [reflexivity| |]; cbn [fields ordinal usec_of_day].
      * unfold US_PER_DAY, US_PER_SECOND; lia.
      * left. lia.
    + apply mapM_fails with (a := 0); [apply range_In; lia|].
      unfold week_pair, sub.
      replace (- timedelta_weeks 0) with (0 * US_PER_DAY + 0) by reflexivity.
      rewrite add_days by (cbn [fields ordinal usec_of_day];
                           unfold sunday_ordinal in *; unfold US_PER_DAY, US_PER_SECOND; lia).
      cbn [bind fields ordinal usec_of_day utcoffset].
      replace (timedelta 0 6 23 59 59 999999) with (6 * US_PER_DAY + (US_PER_DAY - 1))
        by reflexivity.
      rewrite add_overflow; [reflexivity| |]; cbn [fields ordinal usec_of_day].
      * unfold US_PER_DAY, US_PER_SECOND; lia.
      * right. lia.
  - destruct (Z.eqb_spec (days_since_sunday end_date) 0) as [E|E].
    + unfold sunday_ordinal in Hneg. lia.
    + unfold sub.
      replace (- timedelta_days (days_since_sunday end_date))
        with ((- days_since_sunday end_date) * US_PER_DAY + 0)
        by (unfold timedelta_days, timedelta, US_PER_DAY, US_PER_SECOND; ring).
      rewrite add_overflow; [reflexivity| |];
        unfold replace_tzinfo; cbn [fields ordinal usec_of_day].
      * lia.
      * left. unfold sunday_ordinal in Hneg. lia.
Qed.

Lemma get_week_boundaries_returns (end_date : naive) (num_weeks : Z) ws :
  valid_naive end_date -> 1 <= num_weeks ->
  get_week_boundaries tz end_date num_weeks = Some ws ->
  representable end_date num_weeks
  /\ ws = map (window (sunday_ordinal end_date) (attached_utcoffset tz)) (range num_weeks).
Proof.
  intros Hv Hn Hws.
  assert (Hrep : representable end_date num_weeks).
  { unfold representable.
    destruct (Z_lt_le_dec 0 (sunday_ordinal end_date - 7 * (num_weeks - 1)));
      destruct (Z_le_gt_dec (sunday_ordinal end_date + 6) MAXORDINAL); try (split; assumption);
      rewrite get_week_boundaries_overflow in Hws
        by (try assumption; unfold representable; lia); discriminate. }
  split; [assumption|].
  rewrite get_week_boundaries_closed in Hws by assumption. now inversion Hws.
Qed.

Lemma window_nth (sunday : Z) (num_weeks : Z) (i : nat) (p : aware * aware) :
  nth_error (map (window sunday (attached_utcoffset tz)) (range num_weeks)) i = Some p ->
  0 <= Z.of_nat i < num_weeks /\ p = window sunday (attached_utcoffset tz) (Z.of_nat i).
Proof.
  intros Hp.
  assert (Hi : (i < Z.to_nat num_weeks)%nat).
  { rewrite <- range_length, <- (length_map (window sunday (attached_utcoffset tz))).
    apply nth_error_Some. congruence. }
  rewrite nth_error_map, range_nth_error in Hp by assumption.
  simpl in Hp. split; [lia | congruence].
Qed.

Lemma window_In (sunday : Z) (num_weeks : Z) (p : aware * aware) :
  In p (map (window sunday (attached_utcoffset tz)) (range num_weeks)) ->
  exists i, 0 <= i < num_weeks /\ p = window sunday (attached_utcoffset tz) i.
Proof.
  intros Hp. apply in_map_iff in Hp. destruct Hp as [i [<- Hi]].
  apply range_In in Hi. now exists i.
Qed.

Lemma instant_window_start (sunday off i : Z) :
  instant (fst (window sunday off i))
  = (sunday - EPOCH_ORDINAL) * US_PER_DAY - off * US_PER_SECOND - 7 * i * US_PER_DAY.
Proof. unfold window, instant. cbn [fst fields ordinal usec_of_day utcoffset]. ring. Qed.

Lemma instant_window_end (sunday off i : Z) :
  instant (snd (window sunday off i))
  = instant (fst (window sunday off i)) + 7 * US_PER_DAY - 1.
Proof. unfold window, instant. cbn [fst snd fields ordinal usec_of_day utcoffset]. ring. Qed.

End Zone.
End WindowerFacts.

(* ===================================================================== *)
(** * Facts about the reductions of a series                              *)
(* ===================================================================== *)

Module SeriesFacts.
Import PyFloat PyDatetime Aggregator.

(** ** Minimum and maximum *)

Lemma fold_min_spec (xs : list Q) (acc : Q) :
  let r := fold_left (fun m y => if Qle_bool y m then y else m) xs acc in
  (r = acc \/ In r xs) /\ (r <= acc)%Q /\ Forall (fun y => (r <= y)%Q) xs.
Proof.
  revert acc. induction xs as [|y xs IH]; intros acc; cbn [fold_left].
  - split; [now left|]. split; [apply Qle_refl | constructor].
  - destruct (IH (if Qle_bool y acc then y else acc)) as [Hin [Hle Hall]].
    destruct (Qle_bool y acc) eqn:E.
    + apply Qle_bool_iff in E.
      split; [right; destruct Hin as [->|Hin]; [now left | now right]|].
      split; [eapply Qle_trans; eassumption|].
      constructor; assumption.
    + assert (Hlt : (acc < y)%Q).
      { apply Qnot_le_lt. intros Hc. apply Qle_bool_iff in Hc. congruence. }
      split; [destruct Hin as [->|Hin]; [now left | right; now right]|].
      split; [assumption|].
      constructor; [|assumption].
      apply Qlt_le_weak. eapply Qle_lt_trans; eassumption.
Qed.

Lemma fold_max_spec (xs : list Q) (acc : Q) :
  let r := fold_left (fun m y => if Qle_bool m y then y else m) xs acc in
  (r = acc \/ In r xs) /\ (acc <= r)%Q /\ Forall (fun y => (y <= r)%Q) xs.
Proof.
  revert acc. induction xs as [|y xs IH]; intros acc; cbn [fold_left].
  - split; [now left|]. split; [apply Qle_refl | constructor].
  - destruct (IH (if Qle_bool acc y then y else acc)) as [Hin [Hle Hall]].
    destruct (Qle_bool acc y) eqn:E.
    + apply Qle_bool_iff in E.
      split; [right; destruct Hin as [->|Hin]; [now left | now right]|].
      split; [eapply Qle_trans; eassumption|].
      constructor; assumption.
    + assert (Hlt : (y < acc)%Q).
      { apply Qnot_le_lt. intros Hc. apply Qle_bool_iff in Hc. congruence. }
      split; [destruct Hin as [->|Hin]; [now left | right; now right]|].
      split; [assumption|].
      constructor; [|assumption].
      apply Qlt_le_weak. eapply Qlt_le_trans; eassumption.
Qed.

Lemma series_min_spec (xs : list Q) :
  xs <> [] -> In (series_min xs) xs /\ Forall (fun y => (series_min xs <= y)%Q) xs.
Proof.
  destruct xs as [|x xs]; [congruence|]. intros _. unfold series_min.
  destruct (fold_min_spec xs x) as [Hin [Hle Hall]]. cbv zeta in *.
  split; [destruct Hin as [->|Hin]; [now left | now right]|].
  constructor; assumption.
Qed.

Lemma series_max_spec (xs : list Q) :
  xs <> [] -> In (series_max xs) xs /\ Forall (fun y => (y <= series_max xs)%Q) xs.
Proof.
  destruct xs as [|x xs]; [congruence|]. intros _. unfold series_max.
  destruct (fold_max_spec xs x) as [Hin [Hle Hall]]. cbv zeta in *.
  split; [destruct Hin as [->|Hin]; [now left | now right]|].
  constructor; assumption.
Qed.

(** ** A row more in the frame *)

Section Routines.
Context `{Routines : SeriesRoutines}.

(** A row in the window is one more row in the statistics. *)
Lemma chart_with_row_in (r : row) (df : DataFrame) (s e : aware) (k : Z) (a m : bool) :
  in_week s e r = true ->
  exists st,
    create_weekly_chart (r :: df) s e k a m = Some st
    /\ total_points st = S (List.length (filter (in_week s e) df))
    /\ (min_price st <= Price r <= max_price st)%Q.
Proof.
  intros Hin. unfold create_weekly_chart. cbn [filter]. rewrite Hin.
  cbn [List.length Nat.eqb]. eexists. split; [reflexivity|].
  cbn [total_points min_price max_price]. split; [reflexivity|].
  assert (Hne : map Price (r :: filter (in_week s e) df) <> []) by discriminate.
  destruct (series_min_spec _ Hne) as [_ Hmin].
  destruct (series_max_spec _ Hne) as [_ Hmax].
  rewrite Forall_forall in Hmin, Hmax.
  split; [apply Hmin | apply Hmax]; now left.
Qed.

(** A row outside the window changes nothing. *)
Lemma chart_with_row_out (r : row) (df : DataFrame) (s e : aware) (k : Z) (a m : bool) :
  in_week s e r = false ->
  create_weekly_chart (r :: df) s e k a m = create_weekly_chart df s e k a m.
Proof. intros Hout. unfold create_weekly_chart. cbn [filter]. now rewrite Hout. Qed.

(** The statistics of a row that is in the frame and in the window. *)
Lemma chart_of_member (r : row) (df : DataFrame) (s e : aware) (k : Z) (a m : bool) :
  In r df -> in_week s e r = true ->
  exists st,
    create_weekly_chart df s e k a m = Some st
    /\ total_points st = List.length (filter (in_week s e) df)
    /\ (1 <= total_points st)%nat
    /\ (min_price st <= Price r <= max_price st)%Q.
Proof.
  intros Hr Hin.
  assert (Hf : In r (filter (in_week s e) df)) by (apply filter_In; now split).
  unfold create_weekly_chart.
  destruct (filter (in_week s e) df) as [|x l] eqn:E; [contradiction|].
  cbn [List.length Nat.eqb]. eexists. split; [reflexivity|].
  cbn [total_points min_price max_price]. split; [reflexivity|]. split; [lia|].
  assert (Hne : map Price (x :: l) <> []) by discriminate.
  destruct (series_min_spec _ Hne) as [_ Hmin].
  destruct (series_max_spec _ Hne) as [_ Hmax].
  rewrite Forall_forall in Hmin, Hmax.
  split; [apply Hmin | apply Hmax]; now apply in_map.
Qed.

(** The statistics of a single row in the window. *)
Lemma chart_of_single_row (r : row) (s e : aware) (k : Z) (a m : bool) :
  in_week s e r = true ->
  create_weekly_chart [r] s e k a m
  = Some {| avg_price := series_mean [Price r]; median_price := Finite (Price r);
            min_price := Price r; max_price := Price r; total_points := 1 |}.
Proof. intros Hin. unfold create_weekly_chart. cbn [filter]. rewrite Hin. reflexivity. Qed.

End Routines.

End SeriesFacts.

Module WindowerProperties.
Import Calendar PyFloat PyDatetime Pytz Windower WindowerSpec Aggregator DatetimeFacts WindowerFacts.
Import SeriesFacts.

Ltac window_at H :=
  let Hi := fresh "Hi" in
  apply window_nth in H; destruct H as [Hi H];
  unfold window in H; apply pair_equal_spec in H; destruct H as [-> ->].

Section Zone.
Context `{Routines : SeriesRoutines}.
Variable tz : tzinfo.

(** C2, as amended. For every instant [now] and every [N >= 1] whose
    windows are dates that [datetime] can hold (years 1 to 9999), the
    windower returns exactly [N] windows, most recent first; each ends
    6 days 23:59:59.999999 after its start, that is one microsecond
    short of 7 days; each window ends one microsecond before the start
    of the window listed before it, so the windows are contiguous,
    disjoint and descending; window [i] (counted from 0) starts exactly
    [7 * i] days before the first; and the first window starts at
    00:00:00 of a Sunday. *)
Theorem week_windows_shape (now : naive) (N : Z) :
  valid_naive now -> 1 <= N -> representable now N ->
  exists ws,
    get_week_boundaries tz now N = Some ws
    /\ Z.of_nat (List.length ws) = N
    /\ (forall i s e, nth_error ws i = Some (s, e) ->
          add s (timedelta 0 6 23 59 59 999999) = Some e
          /\ instant e + 1 = instant s + timedelta_days 7)
    /\ (forall i s e s' e',
          nth_error ws i = Some (s, e) -> nth_error ws (S i) = Some (s', e') ->
          instant e' + 1 = instant s /\ instant s' < instant s)
    /\ (forall i s0 e0 s e,
          nth_error ws 0 = Some (s0, e0) -> nth_error ws i = Some (s, e) ->
          sub s0 (timedelta_days (7 * Z.of_nat i)) = Some s
          /\ instant s = instant s0 - timedelta_days (7 * Z.of_nat i))
    /\ (forall s0 e0, nth_error ws 0 = Some (s0, e0) ->
          weekday s0 = SUNDAY /\ usec_of_day (fields s0) = 0).
Proof.
  intros Hv HN Hrep.
  rewrite (get_week_boundaries_closed tz now N Hv HN Hrep).
  destruct Hrep as [Hlo Hhi].
  eexists. split; [reflexivity|].
  split; [rewrite length_map, range_length; lia|].
  split; [|split; [|split]].
  - intros i s e H. window_at H.
    split.
    + replace (timedelta 0 6 23 59 59 999999) with (6 * US_PER_DAY + (US_PER_DAY - 1))
        by reflexivity.
      rewrite add_days by (cbn [fields ordinal usec_of_day];
                           unfold US_PER_DAY, US_PER_SECOND; lia).
      cbn [fields ordinal usec_of_day utcoffset]. reflexivity.
    + unfold instant, timedelta_days, timedelta, US_PER_DAY, US_PER_SECOND.
      cbn [fields ordinal usec_of_day utcoffset]. ring.
  - intros i s e s' e' H H'. window_at H. window_at H'.
    unfold instant, US_PER_DAY, US_PER_SECOND.
    cbn [fields ordinal usec_of_day utcoffset]. lia.
  - intros i s0 e0 s e H0 H. window_at H0. window_at H.
    split.
    + unfold sub.
      replace (- timedelta_days (7 * Z.of_nat i))
        with ((- (7 * Z.of_nat i)) * US_PER_DAY + 0)
        by (unfold timedelta_days, timedelta, US_PER_DAY, US_PER_SECOND; ring).
      rewrite add_days by (cbn [fields ordinal usec_of_day];
                           unfold US_PER_DAY, US_PER_SECOND; lia).
      cbn [fields ordinal usec_of_day utcoffset].
      change (Z.of_nat 0) with 0. do 3 f_equal; lia.
    + change (Z.of_nat 0) with 0.
      unfold instant, timedelta_days, timedelta, US_PER_DAY, US_PER_SECOND.
      cbn [fields ordinal usec_of_day utcoffset]. lia.
  - intros s0 e0 H0. window_at H0.
    split; [|reflexivity].
    unfold weekday. cbn [fields ordinal].
    change (Z.of_nat 0) with 0. rewrite Z.mul_0_r, Z.sub_0_r.
    apply sunday_ordinal_weekday.
Qed.

(** C9. For every [now] and every [N >= 1], every boundary the windower
    returns carries one and the same UTC offset, the one that
    [replace(tzinfo=chicago_tz)] attached to [now]: the starts of
    consecutive windows are exactly 7 x 24 hours apart in absolute time
    and each window spans exactly 6 days 23:59:59.999999 of absolute
    time. The offsets that the zone's table gives to the dates in
    between ([utcoffset_at], arbitrary here) play no part, so a
    daylight-saving transition inside the range changes nothing. The
    windows are returned whenever [datetime] can hold their dates. *)
Theorem week_windows_fixed_offset (now : naive) (N : Z) :
  valid_naive now -> 1 <= N ->
  (representable now N -> exists ws, get_week_boundaries tz now N = Some ws)
  /\ (forall ws, get_week_boundaries tz now N = Some ws ->
        (forall s e, In (s, e) ws ->
           utcoffset s = utcoffset (replace_tzinfo now tz)
           /\ utcoffset e = utcoffset (replace_tzinfo now tz))
        /\ (forall i s e s' e',
              nth_error ws i = Some (s, e) -> nth_error ws (S i) = Some (s', e') ->
              instant s - instant s' = 7 * 24 * 3600 * US_PER_SECOND)
        /\ (forall s e, In (s, e) ws ->
              instant e - instant s = timedelta 0 6 23 59 59 999999)).
Proof.
  intros Hv HN. split.
  { intros Hrep. eexists. apply get_week_boundaries_closed; assumption. }
  intros ws Hws.
  destruct (get_week_boundaries_returns tz now N ws Hv HN Hws) as [_ ->].
  split; [|split].
  - intros s e H. apply window_In in H. destruct H as [i [_ H]].
    unfold window in H. apply pair_equal_spec in H. destruct H as [-> ->].
    split; reflexivity.
  - intros i s e s' e' H H'. window_at H. window_at H'.
    unfold instant, US_PER_DAY, US_PER_SECOND.
    cbn [fields ordinal usec_of_day utcoffset]. lia.
  - intros s e H. apply window_In in H. destruct H as [i [_ H]].
    unfold window in H. apply pair_equal_spec in H. destruct H as [-> ->].
    unfold instant, timedelta, US_PER_DAY, US_PER_SECOND.
    cbn [fields ordinal usec_of_day utcoffset]. lia.
Qed.

(** C6. Membership in a window, the filter of [create_weekly_chart], is
    inclusive at both bounds, and what passes the filter is what the
    chart summarises. A row whose instant is the window's end
    (Saturday 23:59:59.999999) is in the aggregate of that window: it
    adds one to the count, its price lies between the minimum and the
    maximum returned, and alone in the frame it is the minimum, the
    maximum and the median, with the count 1. A row one microsecond
    later is in the aggregate of the window listed just before (the
    more recent one) in the same way, and leaves the aggregate of this
    window as it is. Every instant from the start of the oldest window
    to the end of the most recent one belongs to exactly one window.
    The windows are returned whenever [datetime] can hold their
    dates. *)
Theorem window_membership (now : naive) (N : Z) :
  valid_naive now -> 1 <= N ->
  (representable now N -> exists ws, get_week_boundaries tz now N = Some ws)
  /\ (forall ws, get_week_boundaries tz now N = Some ws ->
        (forall i s e r, nth_error ws i = Some (s, e) ->
           instant (Time r) = instant s \/ instant (Time r) = instant e ->
           in_week s e r = true)
        /\ (forall i s e r df k a m, nth_error ws i = Some (s, e) ->
              In r df -> instant (Time r) = instant e ->
              In r (filter (in_week s e) df)
              /\ exists st,
                   create_weekly_chart df s e k a m = Some st
                   /\ total_points st = List.length (filter (in_week s e) df)
                   /\ (1 <= total_points st)%nat
                   /\ (min_price st <= Price r <= max_price st)%Q)
        /\ (forall i s e r df k a m, nth_error ws i = Some (s, e) ->
              instant (Time r) = instant e ->
              (exists st,
                 create_weekly_chart (r :: df) s e k a m = Some st
                 /\ total_points st = S (List.length (filter (in_week s e) df))
                 /\ (min_price st <= Price r <= max_price st)%Q)
              /\ create_weekly_chart [r] s e k a m
                 = Some {| avg_price := series_mean [Price r];
                           median_price := Finite (Price r);
                           min_price := Price r; max_price := Price r;
                           total_points := 1 |})
        /\ (forall i s e s' e' r,
              nth_error ws i = Some (s', e') -> nth_error ws (S i) = Some (s, e) ->
              instant (Time r) = instant e + 1 ->
              in_week s' e' r = true /\ in_week s e r = false
              /\ (forall df k a m,
                    create_weekly_chart (r :: df) s e k a m
                    = create_weekly_chart df s e k a m)
              /\ (forall df k a m,
                    exists st,
                      create_weekly_chart (r :: df) s' e' k a m = Some st
                      /\ total_points st
                         = S (List.length (filter (in_week s' e') df))
                      /\ (min_price st <= Price r <= max_price st)%Q))
        /\ (forall r s0 e0 sN eN,
              nth_error ws 0 = Some (s0, e0) ->
              nth_error ws (Z.to_nat (N - 1)) = Some (sN, eN) ->
              instant sN <= instant (Time r) <= instant e0 ->
              exists i,
                (exists s e, nth_error ws i = Some (s, e) /\ in_week s e r = true)
                /\ (forall j s' e', nth_error ws j = Some (s', e') ->
                       in_week s' e' r = true -> j = i))).
Proof.
  intros Hv HN. split.
  { intros Hrep. eexists. apply get_week_boundaries_closed; assumption. }
  intros ws Hws.
  destruct (get_week_boundaries_returns tz now N ws Hv HN Hws) as [_ ->].
  assert (Hend : forall i s e r,
             nth_error (map (window (sunday_ordinal now) (attached_utcoffset tz))
                            (range N)) i = Some (s, e) ->
             instant (Time r) = instant s \/ instant (Time r) = instant e ->
             in_week s e r = true).
  { intros i s e r H Ht. window_at H.
    unfold in_week, leb. apply andb_true_iff. rewrite !Z.leb_le.
    revert Ht. unfold instant, US_PER_DAY, US_PER_SECOND.
    cbn [fields ordinal usec_of_day utcoffset]. lia. }
  split; [exact Hend|]. split; [|split; [|split]].
  - intros i s e r df k a m H Hin Ht.
    assert (Hw : in_week s e r = true) by (eapply Hend; eauto).
    split; [apply filter_In; now split|].
    now apply chart_of_member.
  - intros i s e r df k a m H Ht.
    assert (Hw : in_week s e r = true) by (eapply Hend; eauto).
    split; [now apply chart_with_row_in | now apply chart_of_single_row].
  - intros i s e s' e' r H' H Ht. window_at H'. window_at H.
    match goal with
    | |- in_week ?s' ?e' r = true /\ in_week ?s ?e r = false /\ _ =>
        assert (Hw : in_week s' e' r = true /\ in_week s e r = false)
    end.
    { unfold in_week, leb. rewrite andb_true_iff, andb_false_iff, !Z.leb_le, !Z.leb_gt.
      revert Ht. unfold instant, US_PER_DAY, US_PER_SECOND.
      cbn [fields ordinal usec_of_day utcoffset]. lia. }
    destruct Hw as [Hin Hout].
    split; [exact Hin|]. split; [exact Hout|]. split.
    + intros df k a m. now apply chart_with_row_out.
    + intros df k a m. now apply chart_with_row_in.
  - intros r s0 e0 sN eN H0 HlastN Ht. window_at H0. window_at HlastN.
    change (Z.of_nat 0) with 0 in Ht.
    rewrite Z2Nat.id in Ht by lia.
    set (t := instant (Time r)) in *.
    set (B := (sunday_ordinal now - EPOCH_ORDINAL) * US_PER_DAY
              - attached_utcoffset tz * US_PER_SECOND).
    assert (Ht' : B - 7 * (N - 1) * US_PER_DAY <= t <= B + 7 * US_PER_DAY - 1).
    { revert Ht. subst B. unfold instant, US_PER_DAY, US_PER_SECOND.
      cbn [fields ordinal usec_of_day utcoffset]. lia. }
    clear Ht.
    pose (q := (B + 7 * US_PER_DAY - 1 - t) / (7 * US_PER_DAY)).
    assert (Hq : 7 * US_PER_DAY * q <= B + 7 * US_PER_DAY - 1 - t
                 < 7 * US_PER_DAY * q + 7 * US_PER_DAY).
    { subst q. unfold US_PER_DAY, US_PER_SECOND.
      pose proof (Z.div_mod (B + 7 * (86400 * 1000000) - 1 - t) (7 * (86400 * 1000000))
                    ltac:(lia)).
      pose proof (Z.mod_pos_bound (B + 7 * (86400 * 1000000) - 1 - t)
                    (7 * (86400 * 1000000)) ltac:(lia)).
      lia. }
    assert (Hq0 : 0 <= q < N) by (unfold US_PER_DAY, US_PER_SECOND in *; lia).
    assert (Hin : forall j,
               in_week (fst (window (sunday_ordinal now) (attached_utcoffset tz) j))
                       (snd (window (sunday_ordinal now) (attached_utcoffset tz) j)) r = true
               <-> B - 7 * j * US_PER_DAY <= t <= B - 7 * j * US_PER_DAY + 7 * US_PER_DAY - 1).
    { intros j. unfold in_week, leb. rewrite andb_true_iff, !Z.leb_le.
      rewrite instant_window_end, instant_window_start. fold t. subst B. lia. }
    exists (Z.to_nat q). split.
    + eexists _, _. split.
      * rewrite nth_error_map, range_nth_error by lia. cbn [option_map].
        unfold window. reflexivity.
      * apply (Hin (Z.of_nat (Z.to_nat q))). rewrite Z2Nat.id by lia.
        unfold US_PER_DAY, US_PER_SECOND in *. lia.
    + intros j s' e' Hj Hjin. window_at Hj.
      apply (Hin (Z.of_nat j)) in Hjin.
      unfold US_PER_DAY, US_PER_SECOND in *. lia.
Qed.

End Zone.
End WindowerProperties.

(* ===================================================================== *)
(** * Facts about the timestamp normaliser                                *)
(* ===================================================================== *)

Module Binary64Facts.
Import Binary64.

(** ** Rounding to the nearest integer *)

Lemma rne_bounds (num den : Z) :
  0 < den -> - den <= 2 * (num - rne num den * den) <= den.
Proof.
  intros Hden. unfold rne.
  pose proof (Z.div_mod num den ltac:(lia)) as Hdm.
  pose proof (Z.mod_pos_bound num den Hden) as Hr.
  destruct (Z.ltb_spec (2 * (num mod den)) den);
    [|destruct (Z.ltb_spec den (2 * (num mod den))); [|destruct (Z.even (num / den))]];
    nia.
Qed.

Lemma rne_unique (num den z : Z) :
  0 < den -> - den < 2 * (num - z * den) < den -> rne num den = z.
Proof.
  intros Hden Hz. unfold rne.
  pose proof (Z.div_mod num den ltac:(lia)) as Hdm.
  pose proof (Z.mod_pos_bound num den Hden) as Hr.
  assert (Hq : num / den = z \/ num / den = z - 1) by nia.
  destruct (Z.ltb_spec (2 * (num mod den)) den);
    [|destruct (Z.ltb_spec den (2 * (num mod den))); [|destruct (Z.even (num / den))]];
    nia.
Qed.

Lemma rne_exact (den z : Z) : 0 < den -> rne (z * den) den = z.
Proof. intros Hden. apply rne_unique; lia. Qed.

Lemma rne_nonneg (num den : Z) : 0 <= num -> 0 < den -> 0 <= rne num den.
Proof.
  intros Hnum Hden. unfold rne.
  pose proof (Z.div_pos num den Hnum Hden).
  destruct (_ <? _); [|destruct (_ <? _); [|destruct (Z.even _)]]; lia.
Qed.

(** ** The exponent *)

Lemma ilog2_ratio_lt (num den k : Z) :
  0 < num -> 0 < den -> -1100 < k -> num < 2 ^ k * den ->
  ilog2_ratio num den < k.
Proof.
  intros Hnum Hden Hk Hlt. unfold ilog2_ratio.
  assert (Hk0 : 0 <= k).
  { destruct (Z_lt_le_dec k 0) as [Hneg|]; [|assumption].
    rewrite (Z.pow_neg_r 2 k Hneg) in Hlt. lia. }
  assert (HP : 0 < 2 ^ 1100) by (apply Z.pow_pos_nonneg; lia).
  assert (Hq : num * 2 ^ 1100 / den < 2 ^ (k + 1100)).
  { apply Z.div_lt_upper_bound; [assumption|].
    rewrite Z.pow_add_r by lia.
    replace (den * (2 ^ k * 2 ^ 1100)) with (2 ^ k * den * 2 ^ 1100) by ring.
    apply Z.mul_lt_mono_pos_r; assumption. }
  assert (H0 : 0 <= num * 2 ^ 1100 / den).
  { apply Z.div_pos; [|assumption]. apply Z.mul_nonneg_nonneg; lia. }
  generalize dependent (num * 2 ^ 1100 / den). intros q Hq H0.
  destruct (Z.eq_dec q 0) as [E|E].
  - rewrite E. change (Z.log2 0) with 0. lia.
  - apply Z.log2_lt_pow2 in Hq; lia.
Qed.

(** A positive ratio below [2 ^ k] rounds with a unit in the last place
    [2 ^ - s], [s > 52 - k]. *)
Lemma round_ratio_pos (num den k : Z) :
  0 < num -> 0 < den -> -1100 < k <= 52 -> num < 2 ^ k * den ->
  exists s, 52 - k < s
            /\ round_ratio num den = {| mant := rne (num * 2 ^ s) den; expo := - s |}.
Proof.
  intros Hnum Hden Hk Hlt.
  pose proof (ilog2_ratio_lt num den k Hnum Hden ltac:(lia) Hlt) as He.
  exists (52 - ilog2_ratio num den). split; [lia|].
  unfold round_ratio.
  replace (num =? 0) with false by (symmetry; apply Z.eqb_neq; lia).
  cbv zeta.
  replace (0 <=? 52 - ilog2_ratio num den) with true by (symmetry; apply Z.leb_le; lia).
  reflexivity.
Qed.

(** The margin that keeps a value within half a unit of its target after
    two roundings: [A] and [B] are the inverse units in the last place of
    the quotient and of its product by [1e6]. *)
Lemma half_unit_margin (A B D : Z) :
  2 ^ 20 <= A -> 2 ^ 33 <= B ->
  - (A + 1000000 * B) <= 2 * (A * D) <= A + 1000000 * B ->
  - B < 2 * D < B.
Proof.
  intros HA HB HD. change (2 ^ 20) with 1048576 in HA. change (2 ^ 33) with 8589934592 in HB.
  assert (Hmargin : A < (A - 1000000) * B) by nia.
  split.
  - destruct (Z_lt_le_dec (- B) (2 * D)) as [|Hc]; [assumption|exfalso].
    assert (2 * (A * D) <= - (A * B)) by nia. nia.
  - destruct (Z_lt_le_dec (2 * D) B) as [|Hc]; [assumption|exfalso].
    assert (A * B <= 2 * (A * D)) by nia. nia.
Qed.

Lemma one_unit_margin (A B M T u : Z) :
  2 ^ 19 <= A -> 2 ^ 33 <= B ->
  - (A + 1000000 * B) <= 2 * (A * (M - T * B)) <= A + 1000000 * B ->
  - B <= 2 * (M - u * B) <= B ->
  -1 <= u - T <= 1.
Proof.
  intros HA HB HD Hu. change (2 ^ 19) with 524288 in HA. change (2 ^ 33) with 8589934592 in HB.
  assert (Hmargin : A < (3 * A - 1000000) * B) by nia.
  assert (HAu : - (A * B) <= 2 * (A * (M - u * B)) <= A * B) by nia.
  assert (Hsum : - (2 * (A * B) + A + 1000000 * B) <= 2 * (A * B) * (u - T)
                 <= 2 * (A * B) + A + 1000000 * B) by nia.
  assert (HAB : 0 < A * B) by nia.
  split.
  - destruct (Z_le_gt_dec (-1) (u - T)); [assumption|exfalso].
    assert (2 * (A * B) * (u - T) <= - (4 * (A * B))) by nia. nia.
  - destruct (Z_le_gt_dec (u - T) 1); [assumption|exfalso].
    assert (4 * (A * B) <= 2 * (A * B) * (u - T)) by nia. nia.
Qed.

(** The model computes what IEEE 754 binary64 division and multiplication
    compute, on a sample of millisecond counts. *)
Lemma binary64_agrees_on_samples :
  forallb Binary64Spec.agrees_with_ieee Binary64Spec.sample_millis = true.
Proof. vm_compute. reflexivity. Qed.

End Binary64Facts.

(* ===================================================================== *)
(** * Facts about float arithmetic                                        *)
(* ===================================================================== *)

Module Float64Facts.
Import Binary64 PyFloat Float64 Float64Spec Binary64Facts.

(** ** Rounding to the nearest integer, again *)

Lemma rne_le_int (N D K : Z) : 0 < D -> N <= K * D -> rne N D <= K.
Proof.
  intros HD HN. unfold rne.
  pose proof (Z.div_mod N D ltac:(lia)) as Hdm.
  pose proof (Z.mod_pos_bound N D HD) as Hr.
  assert (Hq : N / D <= K) by nia.
  destruct (Z.ltb_spec (2 * (N mod D)) D);
    [|destruct (Z.ltb_spec D (2 * (N mod D))); [|destruct (Z.even (N / D))]];
    nia.
Qed.

Lemma rne_ge_int (N D K : Z) : 0 < D -> K * D <= N -> K <= rne N D.
Proof.
  intros HD HN. unfold rne.
  pose proof (Z.div_mod N D ltac:(lia)) as Hdm.
  pose proof (Z.mod_pos_bound N D HD) as Hr.
  assert (Hq : K <= N / D) by nia.
  destruct (Z.ltb_spec (2 * (N mod D)) D);
    [|destruct (Z.ltb_spec D (2 * (N mod D))); [|destruct (Z.even (N / D))]];
    nia.
Qed.

Lemma rne_scale (c N D : Z) : 0 < c -> 0 < D -> rne (c * N) (c * D) = rne N D.
Proof.
  intros Hc HD. unfold rne.
  rewrite Z.div_mul_cancel_l, Z.mul_mod_distr_l by lia.
  pose proof (Z.mod_pos_bound N D HD) as Hr.
  destruct (Z.ltb_spec (2 * (c * (N mod D))) (c * D));
    destruct (Z.ltb_spec (2 * (N mod D)) D); try nia; try reflexivity.
  destruct (Z.ltb_spec (c * D) (2 * (c * (N mod D))));
    destruct (Z.ltb_spec D (2 * (N mod D))); try nia; reflexivity.
Qed.

Lemma pow2_pos (k : Z) : 0 <= k -> 0 < 2 ^ k.
Proof. intros. apply Z.pow_pos_nonneg; lia. Qed.

Lemma ilog2_ratio_min (n d : Z) : -1100 <= ilog2_ratio n d.
Proof. unfold ilog2_ratio. pose proof (Z.log2_nonneg (n * 2 ^ 1100 / d)). lia. Qed.

Lemma ilog2_lower (n d : Z) :
  0 < n -> 0 < d -> -1100 < ilog2_ratio n d ->
  2 ^ (ilog2_ratio n d + 1100) * d <= n * 2 ^ 1100.
Proof.
  intros Hn Hd HL. unfold ilog2_ratio in *.
  set (q := n * 2 ^ 1100 / d) in *.
  replace (Z.log2 q - 1100 + 1100) with (Z.log2 q) by lia.
  assert (Hq : 0 < q).
  { destruct (Z_lt_le_dec 0 q) as [|Hle]; [assumption|].
    rewrite (Z.log2_nonpos q Hle) in HL. lia. }
  pose proof (Z.log2_spec q Hq) as [Hlo _].
  pose proof (Z.mul_div_le (n * 2 ^ 1100) d Hd) as Hmul. fold q in Hmul.
  apply Z.le_trans with (q * d); [|lia].
  apply Z.mul_le_mono_nonneg_r; lia.
Qed.


Lemma last_place_min (n d : Z) : -1074 <= last_place n d.
Proof. unfold last_place. lia. Qed.

Lemma mantissa_units (n d e : Z) :
  0 < d -> -1074 <= e ->
  mantissa n d e = rne (n * 2 ^ 1074) (d * 2 ^ (e + 1074)).
Proof.
  intros Hd He. unfold mantissa.
  destruct (Z.leb_spec 0 e) as [H0|H0].
  - rewrite <- (rne_scale (2 ^ 1074) n (d * 2 ^ e)).
    + f_equal; [ring|]. rewrite Z.pow_add_r by lia. ring.
    + apply pow2_pos; lia.
    + pose proof (pow2_pos e H0). nia.
  - rewrite <- (rne_scale (2 ^ (e + 1074)) (n * 2 ^ (- e)) d).
    + f_equal; [|ring].
      replace 1074 with (- e + (e + 1074)) at 2 by lia.
      rewrite (Z.pow_add_r 2 (- e) (e + 1074)) by lia. ring.
    + apply pow2_pos; lia.
    + assumption.
Qed.

(** The rounded value of a positive ratio, in units of [2 ^ -1074]. *)
Lemma round_units_upper (n d M G : Z) :
  0 < n -> 0 < d -> 0 <= G -> 0 < M < 2 ^ 53 ->
  n * 2 ^ 1074 <= M * 2 ^ G * d ->
  mantissa n d (last_place n d) * 2 ^ (last_place n d + 1074) <= M * 2 ^ G.
Proof.
  intros Hn Hd HG HM Hle.
  pose proof (last_place_min n d) as He.
  rewrite mantissa_units by assumption.
  set (g := last_place n d + 1074) in *.
  assert (Hg : 0 <= g) by (unfold g; lia).
  pose proof (pow2_pos g Hg) as Hpg. pose proof (pow2_pos G HG) as HpG.
  destruct (Z_le_gt_dec g G) as [HgG|HgG].
  - assert (EG : 2 ^ G = 2 ^ (G - g) * 2 ^ g).
    { rewrite <- Z.pow_add_r by lia. f_equal. lia. }
    pose proof (pow2_pos (G - g) ltac:(lia)) as Hpd.
    assert (Hm : rne (n * 2 ^ 1074) (d * 2 ^ g) <= M * 2 ^ (G - g)).
    { apply rne_le_int; [nia|]. rewrite EG in Hle. nia. }
    rewrite EG. nia.
  - exfalso.
    assert (EL : last_place n d = ilog2_ratio n d - 52).
    { clear - HgG HG. subst g. unfold last_place in *. lia. }
    assert (HL : -1100 < ilog2_ratio n d) by (clear - HgG HG EL; subst g; lia).
    pose proof (ilog2_lower n d Hn Hd HL) as Hlow.
    assert (Hlow' : 2 ^ (g + 78) * d <= n * (2 ^ 1074 * 2 ^ 26)).
    { replace (g + 78) with (ilog2_ratio n d + 1100) by (subst g; lia).
      replace (2 ^ 1074 * 2 ^ 26) with (2 ^ 1100)
        by (rewrite <- Z.pow_add_r by lia; f_equal).
      exact Hlow. }
    clear Hlow. rename Hlow' into Hlow.
    assert (E1 : 2 ^ (g + 78) = 2 ^ (g - G - 1) * (2 ^ 53 * 2 ^ G * 2 ^ 26)).
    { rewrite <- !Z.pow_add_r by lia. f_equal. lia. }
    pose proof (pow2_pos (g - G - 1) ltac:(lia)) as Hp1.
    pose proof (pow2_pos 26 ltac:(lia)) as Hp26.
    pose proof (pow2_pos 1074 ltac:(lia)) as Hp1074.
    rewrite E1 in Hlow.
    assert (H2 : n * (2 ^ 1074 * 2 ^ 26) < 2 ^ 53 * 2 ^ G * 2 ^ 26 * d).
    { assert (M * 2 ^ G * d < 2 ^ 53 * 2 ^ G * d) by nia. nia. }
    assert (H3 : 2 ^ 53 * 2 ^ G * 2 ^ 26 * d <= 2 ^ (g - G - 1) * (2 ^ 53 * 2 ^ G * 2 ^ 26) * d).
    { assert (0 < 2 ^ 53 * 2 ^ G * 2 ^ 26 * d) by nia. nia. }
    lia.
Qed.

Lemma round_units_lower (n d M G : Z) :
  0 < n -> 0 < d -> 0 <= G -> 0 < M < 2 ^ 53 ->
  M * 2 ^ G * d <= n * 2 ^ 1074 ->
  M * 2 ^ G <= mantissa n d (last_place n d) * 2 ^ (last_place n d + 1074).
Proof.
  intros Hn Hd HG HM Hle.
  pose proof (last_place_min n d) as He.
  rewrite mantissa_units by assumption.
  set (g := last_place n d + 1074) in *.
  assert (Hg : 0 <= g) by (unfold g; lia).
  pose proof (pow2_pos g Hg) as Hpg. pose proof (pow2_pos G HG) as HpG.
  destruct (Z_le_gt_dec g G) as [HgG|HgG].
  - assert (EG : 2 ^ G = 2 ^ (G - g) * 2 ^ g).
    { rewrite <- Z.pow_add_r by lia. f_equal. lia. }
    pose proof (pow2_pos (G - g) ltac:(lia)) as Hpd.
    assert (Hm : M * 2 ^ (G - g) <= rne (n * 2 ^ 1074) (d * 2 ^ g)).
    { apply rne_ge_int; [nia|]. rewrite EG in Hle. nia. }
    rewrite EG. nia.
  - assert (EL : last_place n d = ilog2_ratio n d - 52).
    { clear - HgG HG. subst g. unfold last_place in *. lia. }
    assert (HL : -1100 < ilog2_ratio n d) by (clear - HgG HG EL; subst g; lia).
    pose proof (ilog2_lower n d Hn Hd HL) as Hlow.
    assert (Hlow' : 2 ^ (g + 78) * d <= n * (2 ^ 1074 * 2 ^ 26)).
    { replace (g + 78) with (ilog2_ratio n d + 1100) by (subst g; lia).
      replace (2 ^ 1074 * 2 ^ 26) with (2 ^ 1100)
        by (rewrite <- Z.pow_add_r by lia; f_equal).
      exact Hlow. }
    clear Hlow. rename Hlow' into Hlow.
    assert (E1 : 2 ^ (g + 78) = 2 ^ 52 * 2 ^ g * 2 ^ 26).
    { rewrite <- !Z.pow_add_r by lia. f_equal. lia. }
    pose proof (pow2_pos 26 ltac:(lia)) as Hp26.
    rewrite E1 in Hlow.
    assert (Hm : 2 ^ 52 <= rne (n * 2 ^ 1074) (d * 2 ^ g)).
    { apply rne_ge_int; [nia|]. nia. }
    assert (E2 : 2 ^ g = 2 ^ (g - G - 1) * (2 * 2 ^ G)).
    { replace (2 * 2 ^ G) with (2 ^ (1 + G)) by (rewrite Z.pow_add_r by lia; reflexivity).
      rewrite <- Z.pow_add_r by lia. f_equal. lia. }
    pose proof (pow2_pos (g - G - 1) ltac:(lia)) as Hp1.
    rewrite E2. change (2 ^ 53) with (2 * 2 ^ 52) in HM.
    assert (M * 2 ^ G <= 2 ^ 52 * (2 * 2 ^ G)) by nia.
    assert (2 ^ 52 * (2 * 2 ^ G) <= rne (n * 2 ^ 1074) (d * (2 ^ (g - G - 1) * (2 * 2 ^ G))) * (2 ^ (g - G - 1) * (2 * 2 ^ G))).
    { rewrite <- E2.
      assert (0 < 2 ^ 52) by (apply pow2_pos; lia).
      assert (2 * 2 ^ G <= 2 ^ g) by (rewrite E2; nia).
      nia. }
    lia.
Qed.

(** ** Values in units of [2 ^ -1074] *)

Lemma unit_den : Z.pos (Z.to_pos (2 ^ 1074)) = 2 ^ 1074.
Proof. apply Z2Pos.id. apply pow2_pos. lia. Qed.

Lemma scaled_units (m e : Z) :
  -1074 <= e -> (scaled m e == units (m * 2 ^ (e + 1074)))%Q.
Proof.
  intros He. unfold scaled, units, Qeq.
  destruct (Z.leb_spec 0 e) as [H0|H0]; cbn [Qnum Qden inject_Z].
  - rewrite unit_den, Z.pow_add_r by lia. ring.
  - rewrite unit_den, Z2Pos.id by (apply pow2_pos; lia).
    replace 1074 with (e + 1074 + - e) at 1 by lia.
    rewrite (Z.pow_add_r 2 (e + 1074) (- e)) by lia. ring.
Qed.

Lemma Qle_units_r (x : Q) (k : Z) :
  (x <= units k)%Q <-> Qnum x * 2 ^ 1074 <= k * Z.pos (Qden x).
Proof. unfold Qle, units. cbn [Qnum Qden]. now rewrite unit_den. Qed.

Lemma Qle_units_l (x : Q) (k : Z) :
  (units k <= x)%Q <-> k * Z.pos (Qden x) <= Qnum x * 2 ^ 1074.
Proof. unfold Qle, units. cbn [Qnum Qden]. now rewrite unit_den. Qed.

Lemma units_le (j k : Z) : (units j <= units k)%Q <-> j <= k.
Proof.
  rewrite Qle_units_r. unfold units. cbn [Qnum Qden]. rewrite unit_den.
  pose proof (pow2_pos 1074 ltac:(lia)). split; nia.
Qed.

(** A binary64 value is a whole number of units, below [2 ^ 53] times a
    power of two. *)
Lemma binary64_units (top : Z) (q : Q) :
  binary64_below top q ->
  exists M G : Z, Z.abs M < 2 ^ 53 /\ 0 <= G <= top + 1021 /\ (q == units (M * 2 ^ G))%Q.
Proof.
  intros [m [e [Hm [He Hq]]]]. exists m, (e + 1074).
  split; [assumption|]. split; [lia|].
  rewrite Hq. apply scaled_units. lia.
Qed.

Lemma mantissa_nonneg (n d e : Z) : 0 <= n -> 0 < d -> 0 <= mantissa n d e.
Proof.
  intros Hn Hd. unfold mantissa. destruct (Z.leb_spec 0 e).
  - apply rne_nonneg; [assumption|]. pose proof (pow2_pos e ltac:(lia)). nia.
  - apply rne_nonneg; [|assumption]. pose proof (pow2_pos (- e) ltac:(lia)). nia.
Qed.

(** No overflow below a finite float. *)
Lemma no_overflow (m e M G : Z) :
  -1074 <= e -> 0 <= m -> M < 2 ^ 53 -> 0 <= G <= 2045 ->
  m * 2 ^ (e + 1074) <= M * 2 ^ G ->
  (0 <=? e) && (2 ^ 1024 <=? m * 2 ^ e) = false.
Proof.
  intros He Hm HM HG Hle.
  destruct (Z.leb_spec 0 e) as [H0|H0]; [|reflexivity]. cbn [andb].
  apply Z.leb_gt.
  assert (E : 2 ^ (e + 1074) = 2 ^ e * 2 ^ 1074) by (apply Z.pow_add_r; lia).
  pose proof (pow2_pos 1074 ltac:(lia)) as HP. pose proof (pow2_pos e H0) as Hpe.
  pose proof (pow2_pos G ltac:(lia)) as HpG.
  assert (HG' : 2 ^ G <= 2 ^ 2045) by (apply Z.pow_le_mono_r; lia).
  assert (E2 : 2 ^ 53 * 2 ^ 2045 = 2 ^ 1024 * 2 ^ 1074).
  { rewrite <- !Z.pow_add_r by lia. f_equal. }
  destruct (Z_lt_le_dec (m * 2 ^ e) (2 ^ 1024)) as [|Hc]; [assumption|exfalso].
  assert (H1 : 2 ^ 1024 * 2 ^ 1074 <= m * 2 ^ e * 2 ^ 1074) by nia.
  assert (H2 : M * 2 ^ G < 2 ^ 53 * 2 ^ 2045).
  { destruct (Z_le_gt_dec M 0).
    - assert (0 < 2 ^ 53 * 2 ^ 2045) by nia. nia.
    - assert (M * 2 ^ G <= M * 2 ^ 2045) by nia.
      assert (0 < 2 ^ 2045) by lia. nia. }
  rewrite E in Hle. nia.
Qed.

Lemma round_zero (x : Q) : Qnum x = 0 -> round x = Finite 0.
Proof. intros H. unfold round. now rewrite H. Qed.


(** Rounding keeps a value between two floats that bound it. *)
Lemma round_between (lo hi x : Q) :
  binary64 lo -> binary64 hi -> (lo <= x <= hi)%Q ->
  exists y, round x = Finite y /\ (lo <= y <= hi)%Q.
Proof.
  intros Hlo Hhi [Hl Hh].
  destruct (binary64_units _ _ Hlo) as [Ml [Gl [HMl [HGl Elo]]]].
  destruct (binary64_units _ _ Hhi) as [Mh [Gh [HMh [HGh Ehi]]]].
  rewrite Elo in Hl. rewrite Ehi in Hh.
  apply (proj1 (Qle_units_l _ _)) in Hl. apply (proj1 (Qle_units_r _ _)) in Hh.
  pose proof (pow2_pos Gl ltac:(lia)) as HpGl.
  pose proof (pow2_pos Gh ltac:(lia)) as HpGh.
  pose proof (pow2_pos 1074 ltac:(lia)) as HP.
  assert (Hd : 0 < Z.pos (Qden x)) by reflexivity.
  destruct (Z.lt_trichotomy (Qnum x) 0) as [Hneg|[Hzero|Hpos]].
  - (* negative *)
    set (n := Z.abs (Qnum x)). set (d := Z.pos (Qden x)) in *.
    assert (Hn : 0 < n) by (unfold n; lia).
    assert (HMl0 : Ml < 0).
    { destruct (Z_lt_le_dec Ml 0); [assumption|].
      assert (0 <= Ml * 2 ^ Gl) by (apply Z.mul_nonneg_nonneg; lia). assert (0 <= Ml * 2 ^ Gl * d) by (apply Z.mul_nonneg_nonneg; lia).
      assert (Qnum x * 2 ^ 1074 < 0) by (apply Z.mul_neg_pos; assumption). lia. }
    assert (HMl' : 0 < - Ml < 2 ^ 53) by lia.
    assert (Hup : mantissa n d (last_place n d) * 2 ^ (last_place n d + 1074)
                  <= - Ml * 2 ^ Gl).
    { apply round_units_upper; try assumption; try lia; try (unfold n; nia). }
    pose proof (last_place_min n d) as He.
    pose proof (mantissa_nonneg n d (last_place n d) ltac:(lia) Hd) as Hm0.
    exists (scaled (Z.sgn (Qnum x) * mantissa n d (last_place n d)) (last_place n d)).
    split.
    + unfold round. replace (Qnum x =? 0) with false by (symmetry; apply Z.eqb_neq; lia).
      cbv zeta. fold n d.
      now rewrite (no_overflow _ _ (- Ml) Gl He Hm0 ltac:(lia) ltac:(lia) Hup).
    + rewrite Elo, Ehi, scaled_units by assumption.
      rewrite !units_le. rewrite (Z.sgn_neg _ Hneg).
      split; [lia|].
      destruct (Z_le_gt_dec 0 Mh) as [HMh0|HMh0]; [nia|].
      assert (Hlow : - Mh * 2 ^ Gh
                     <= mantissa n d (last_place n d) * 2 ^ (last_place n d + 1074)).
      { apply round_units_lower; try assumption; try lia; try (unfold n; nia). }
      lia.
  - exists 0%Q. split; [now apply round_zero|].
    rewrite Hzero in Hl, Hh. rewrite Elo, Ehi.
    assert (E0 : (0 == units 0)%Q) by (unfold Qeq, units; cbn [Qnum Qden]; lia).
    rewrite E0, !units_le. split; nia.
  - set (n := Z.abs (Qnum x)). set (d := Z.pos (Qden x)) in *.
    assert (En : n = Qnum x) by (unfold n; lia).
    assert (Hn : 0 < n) by lia.
    assert (HMh0 : 0 < Mh).
    { destruct (Z_lt_le_dec 0 Mh); [assumption|].
      assert (Mh * 2 ^ Gh <= 0) by (apply Z.mul_nonpos_nonneg; lia). assert (Mh * 2 ^ Gh * d <= 0) by (apply Z.mul_nonpos_nonneg; lia).
      assert (0 < Qnum x * 2 ^ 1074) by (apply Z.mul_pos_pos; assumption). lia. }
    assert (HMh' : 0 < Mh < 2 ^ 53) by lia.
    assert (Hup : mantissa n d (last_place n d) * 2 ^ (last_place n d + 1074)
                  <= Mh * 2 ^ Gh).
    { apply round_units_upper; try assumption; try lia. }
    pose proof (last_place_min n d) as He.
    pose proof (mantissa_nonneg n d (last_place n d) ltac:(lia) Hd) as Hm0.
    exists (scaled (Z.sgn (Qnum x) * mantissa n d (last_place n d)) (last_place n d)).
    split.
    + unfold round. replace (Qnum x =? 0) with false by (symmetry; apply Z.eqb_neq; lia).
      cbv zeta. fold n d.
      now rewrite (no_overflow _ _ Mh Gh He Hm0 ltac:(lia) ltac:(lia) Hup).
    + rewrite Elo, Ehi, scaled_units by assumption.
      rewrite !units_le. rewrite (Z.sgn_pos _ Hpos).
      split; [|lia].
      destruct (Z_le_gt_dec Ml 0) as [HMl0|HMl0].
      { pose proof (pow2_pos (last_place n d + 1074) ltac:(lia)). nia. }
      assert (Hlow : Ml * 2 ^ Gl
                     <= mantissa n d (last_place n d) * 2 ^ (last_place n d + 1074)).
      { apply round_units_lower; try assumption; try lia. }
      lia.
Qed.


(** ** Rounding depends on the value only *)

Lemma ilog2_ratio_proper (n d n' d' : Z) :
  0 < d -> 0 < d' -> n * d' = n' * d -> ilog2_ratio n d = ilog2_ratio n' d'.
Proof.
  intros Hd Hd' E. unfold ilog2_ratio. do 2 f_equal.
  rewrite <- (Z.div_mul_cancel_r (n * 2 ^ 1100) d d') by lia.
  rewrite <- (Z.div_mul_cancel_r (n' * 2 ^ 1100) d' d) by lia.
  f_equal; [|ring].
  replace (n * 2 ^ 1100 * d') with (n * d' * 2 ^ 1100) by ring.
  rewrite E. ring.
Qed.

Lemma rne_proper (N D N' D' : Z) :
  0 < D -> 0 < D' -> N * D' = N' * D -> rne N D = rne N' D'.
Proof.
  intros HD HD' E.
  rewrite <- (rne_scale D' N D), <- (rne_scale D N' D') by assumption.
  f_equal; lia.
Qed.

Lemma mantissa_proper (n d n' d' e : Z) :
  0 < d -> 0 < d' -> n * d' = n' * d -> mantissa n d e = mantissa n' d' e.
Proof.
  intros Hd Hd' E. unfold mantissa. destruct (Z.leb_spec 0 e).
  - pose proof (pow2_pos e ltac:(lia)). apply rne_proper; nia.
  - pose proof (pow2_pos (- e) ltac:(lia)). apply rne_proper; nia.
Qed.

Lemma round_proper (x x' : Q) : (x == x')%Q -> round x = round x'.
Proof.
  unfold Qeq. intros E.
  assert (Hd : 0 < Z.pos (Qden x)) by reflexivity.
  assert (Hd' : 0 < Z.pos (Qden x')) by reflexivity.
  unfold round.
  assert (Esgn : Z.sgn (Qnum x) = Z.sgn (Qnum x')) by nia.
  assert (Eabs : Z.abs (Qnum x) * Z.pos (Qden x') = Z.abs (Qnum x') * Z.pos (Qden x)) by nia.
  assert (Ez : (Qnum x =? 0) = (Qnum x' =? 0)).
  { destruct (Z.eqb_spec (Qnum x) 0), (Z.eqb_spec (Qnum x') 0); try reflexivity; nia. }
  assert (Ep : (0 <? Qnum x) = (0 <? Qnum x')).
  { destruct (Z.ltb_spec 0 (Qnum x)), (Z.ltb_spec 0 (Qnum x')); try reflexivity; nia. }
  rewrite Ez, Ep, Esgn. cbv zeta. unfold last_place.
  rewrite (ilog2_ratio_proper _ _ _ _ Hd Hd' Eabs).
  rewrite (mantissa_proper _ _ _ _ _ Hd Hd' Eabs).
  reflexivity.
Qed.

(** ** Floats *)

Lemma units_double (k : Z) : (units (2 * k) == 2 * units k)%Q.
Proof. unfold Qeq, units. cbn [Qnum Qden Qmult]. rewrite Pos.mul_1_l. ring. Qed.

Lemma binary64_weaken (top top' : Z) (q : Q) :
  top <= top' -> binary64_below top q -> binary64_below top' q.
Proof.
  intros Ht [m [e [Hm [He Hq]]]]. exists m, e.
  split; [assumption|]. split; [lia | assumption].
Qed.

Lemma binary64_double (q : Q) : binary64_below 1023 q -> binary64 (2 * q).
Proof.
  intros [m [e [Hm [He Hq]]]]. exists m, (e + 1). split; [assumption|]. split; [lia|].
  rewrite Hq, !scaled_units by lia.
  rewrite <- units_double. f_equal.
  replace (e + 1 + 1074) with (1 + (e + 1074)) by lia.
  rewrite (Z.pow_add_r 2 1 (e + 1074)) by lia. change (2 ^ 1) with 2.
  replace (m * (2 * 2 ^ (e + 1074))) with (2 * (m * 2 ^ (e + 1074))) by ring.
  reflexivity.
Qed.

Lemma binary64_int (top z : Z) : 53 <= top -> Z.abs z < 2 ^ 53 -> binary64_below top (inject_Z z).
Proof.
  intros Ht Hz. exists z, 0. split; [assumption|]. split; [lia|].
  unfold scaled. cbn [Z.leb]. change (2 ^ 0) with 1. now rewrite Z.mul_1_r.
Qed.

(** ** The mean of two floats *)

Lemma mean_of_two_between (lo hi a b : Q) :
  binary64 lo -> binary64 hi -> binary64 (2 * lo) -> binary64 (2 * hi) ->
  (lo <= a <= hi)%Q -> (lo <= b <= hi)%Q ->
  exists m, fdiv (fadd a b) 2 = Finite m /\ (lo <= m <= hi)%Q.
Proof.
  intros Hlo Hhi Hlo2 Hhi2 Ha Hb.
  destruct (round_between (2 * lo) (2 * hi) (a + b) Hlo2 Hhi2) as [s [Hs Hsb]]; [lra|].
  unfold fadd. rewrite Hs. cbn [fdiv].
  apply round_between; try assumption.
  change (inject_Z 2) with 2%Q. split.
  - apply Qle_shift_div_l; lra.
  - apply Qle_shift_div_r; lra.
Qed.


Lemma float_eq_refl (x : pyfloat) : float_eq x x.
Proof. destruct x; cbn; auto. apply Qeq_refl. Qed.










Lemma binary64_proper (top : Z) (q q' : Q) :
  (q == q')%Q -> binary64_below top q -> binary64_below top q'.
Proof.
  intros E [m [e [Hm [He Hq]]]]. exists m, e.
  split; [assumption|]. split; [assumption|]. now rewrite <- E.
Qed.









(** The model computes what IEEE 754 binary64 addition and division by 2
    compute, on a sample of pairs of floats. *)
Lemma float64_agrees_on_samples :
  forallb mean_agrees_with_ieee sample_pairs = true.
Proof. vm_compute. reflexivity. Qed.

End Float64Facts.

Module TimestampFacts.
Import Calendar PyDatetime Pytz Binary64 PyText Normalizer Binary64Facts.

(** The microseconds that [utcfromtimestamp] reads off the fraction of the
    binary64 quotient [ms / 1000], whose unit in the last place is
    [2 ^ - s]. *)
Lemma quotient_split (ms s : Z) :
  0 < ms -> 19 <= s ->
  let m := rne (ms * 2 ^ s) 1000 in
  m / 2 ^ s = ms / 1000
  /\ - 500 <= 1000 * (m mod 2 ^ s) - (ms mod 1000) * 2 ^ s <= 500.
Proof.
  intros Hms Hs m.
  assert (HA : 2 ^ 19 <= 2 ^ s) by (apply Z.pow_le_mono_r; lia).
  change (2 ^ 19) with 524288 in HA.
  pose proof (rne_bounds (ms * 2 ^ s) 1000 ltac:(lia)) as Hm. fold m in Hm.
  pose proof (Z.div_mod ms 1000 ltac:(lia)) as Hdm.
  pose proof (Z.mod_pos_bound ms 1000 ltac:(lia)) as Hk.
  set (A := 2 ^ s) in *. set (n := ms / 1000) in *. set (k := ms mod 1000) in *.
  assert (Hprod : ms * A = 1000 * (n * A) + k * A) by (rewrite Hdm; ring).
  assert (Hrange : n * A <= m < n * A + A).
  { destruct (Z.eq_dec k 0) as [E|E].
    - assert (Hex : m = n * A).
      { subst m. replace (ms * A) with (n * A * 1000) by (rewrite Hprod, E; ring).
        apply rne_exact. lia. }
      lia.
    - assert (A <= k * A <= 999 * A) by nia. lia. }
  assert (Hdiv : m / A = n).
  { symmetry. apply (Z.div_unique m A n (m - n * A)); [lia | ring]. }
  assert (Hmod : m mod A = m - n * A).
  { symmetry. apply (Z.mod_unique m A n (m - n * A)); [lia | ring]. }
  split; [exact Hdiv|]. rewrite Hmod. lia.
Qed.

Lemma fraction_micros (f k s : Z) :
  19 <= s -> 0 <= f < 2 ^ s -> 0 <= k < 1000 ->
  - 500 <= 1000 * f - k * 2 ^ s <= 500 ->
  let us := round_half_even (fmul {| mant := f; expo := - s |} f1e6) in
  0 <= us /\ -1 <= us - 1000 * k <= 1 /\ (20 <= s -> us = 1000 * k)
  /\ (k = 0 -> us = 0).
Proof.
  intros Hs Hf Hk Hd us. subst us.
  assert (HA : 2 ^ s = 64 * 2 ^ (s - 6)).
  { replace s with (6 + (s - 6)) at 1 by ring. rewrite Z.pow_add_r by lia. reflexivity. }
  assert (HC : 2 ^ 13 <= 2 ^ (s - 6)) by (apply Z.pow_le_mono_r; lia).
  change (2 ^ 13) with 8192 in HC.
  unfold fmul, f1e6, round_dyadic. cbn [mant expo].
  replace (0 <=? - s + 6) with false by (symmetry; apply Z.leb_gt; lia).
  replace (- (- s + 6)) with (s - 6) by ring.
  destruct (Z.eq_dec f 0) as [E|E]; [|assert (Hkf : k <> 0) by nia].
  - subst f. assert (Hk0 : k = 0) by nia. subst k.
    unfold round_ratio, round_half_even. cbn. lia.

  - destruct (round_ratio_pos (f * 15625) (2 ^ (s - 6)) 20) as [s' [Hs' ->]];
      [lia | lia | lia | change (2 ^ 20) with 1048576; lia |].
    unfold round_half_even. cbn [mant expo].
    replace (0 <=? - s') with false by (symmetry; apply Z.leb_gt; lia).
    replace (- - s') with s' by ring.
    assert (HB : 2 ^ 33 <= 2 ^ s') by (apply Z.pow_le_mono_r; lia).
    assert (HBpos : 0 < 2 ^ s') by (change (2 ^ 33) with 8589934592 in HB; lia).
    pose proof (rne_bounds (f * 15625 * 2 ^ s') (2 ^ (s - 6)) ltac:(lia)) as HM.
    pose proof (rne_bounds (rne (f * 15625 * 2 ^ s') (2 ^ (s - 6))) (2 ^ s') HBpos) as Hu.
    assert (HMpos : 0 <= rne (f * 15625 * 2 ^ s') (2 ^ (s - 6))).
    { apply rne_nonneg; [|lia]. apply Z.mul_nonneg_nonneg; lia. }
    pose proof (rne_nonneg (rne (f * 15625 * 2 ^ s') (2 ^ (s - 6))) (2 ^ s') HMpos HBpos) as Hupos.
    set (M := rne (f * 15625 * 2 ^ s') (2 ^ (s - 6))) in *.
    set (u := rne M (2 ^ s')) in *.
    set (B := 2 ^ s') in *. set (C := 2 ^ (s - 6)) in *.
    rewrite HA in Hd, Hf.
    assert (Hid : 64 * C * (M - 1000 * k * B)
                  = 1000 * (B * (1000 * f - k * (64 * C))) - 64 * (f * 15625 * B - M * C))
      by ring.
    assert (HBd : - (500 * B) <= B * (1000 * f - k * (64 * C)) <= 500 * B) by nia.
    assert (Hwin : - (64 * C + 1000000 * B) <= 2 * (64 * C * (M - 1000 * k * B))
                   <= 64 * C + 1000000 * B) by lia.
    split; [exact Hupos|]. split; [|split; [|lia]].
    + apply (one_unit_margin (64 * C) B M (1000 * k) u);
        [change (2 ^ 19) with 524288; lia | exact HB | exact Hwin | lia].
    + intros Hs20.
      assert (HC20 : 2 ^ 14 <= C) by (apply Z.pow_le_mono_r; lia).
      change (2 ^ 14) with 16384 in HC20.
      apply rne_unique; [exact HBpos|].
      apply (half_unit_margin (64 * C) B (M - 1000 * k * B));
        [change (2 ^ 20) with 1048576; lia | exact HB | exact Hwin].
Qed.

End TimestampFacts.

Module NormalizerFacts.
Import Calendar PyDatetime Pytz Binary64 PyText Normalizer Binary64Facts TimestampFacts.

(** [utcfromtimestamp(ms / 1000)] for a millisecond count of 13 digits at
    most. *)
Lemma utcfromtimestamp_millis (ms : Z) :
  0 <= ms < 10 ^ 13 ->
  exists us,
    utcfromtimestamp (truediv ms 1000)
    = Some {| ordinal := EPOCH_ORDINAL + ms / 1000 / 86400;
              usec_of_day := (ms / 1000) mod 86400 * US_PER_SECOND + us |}
    /\ 0 <= us < 1000000
    /\ -1 <= us - 1000 * (ms mod 1000) <= 1
    /\ (ms < 2 ^ 33 * 1000 -> us = 1000 * (ms mod 1000))
    /\ (ms mod 1000 = 0 -> us = 0).
Proof.
  intros Hms. change (10 ^ 13) with 10000000000000 in Hms.
  pose proof (Z.mod_pos_bound ms 1000 ltac:(lia)) as Hk.
  assert (Hsec : 0 <= ms / 1000 < 10000000000).
  { split; [apply Z.div_pos; lia | apply Z.div_lt_upper_bound; lia]. }
  assert (Hday : 0 <= ms / 1000 / 86400 <= 115740).
  { split; [apply Z.div_pos; lia|].
    apply Z.lt_succ_r, Z.div_lt_upper_bound; lia. }
  assert (Hfinish : forall us,
             0 <= us < 1000000 ->
             (let '(sec, us0) :=
                if 1000000 <=? us then (ms / 1000 + 1, us - 1000000) else (ms / 1000, us) in
              let ord := EPOCH_ORDINAL + sec / 86400 in
              if ord <=? MAXORDINAL
              then Some {| ordinal := ord;
                           usec_of_day := sec mod 86400 * US_PER_SECOND + us0 |}
              else None)
             = Some {| ordinal := EPOCH_ORDINAL + ms / 1000 / 86400;
                       usec_of_day := (ms / 1000) mod 86400 * US_PER_SECOND + us |}).
  { intros us Hus.
    replace (1000000 <=? us) with false by (symmetry; apply Z.leb_gt; lia).
    cbv zeta.
    replace (EPOCH_ORDINAL + ms / 1000 / 86400 <=? MAXORDINAL) with true; [reflexivity|].
    symmetry. apply Z.leb_le. unfold EPOCH_ORDINAL, MAXORDINAL. lia. }
  destruct (Z.eq_dec ms 0) as [E|E].
  - subst ms. exists 0. split; [reflexivity|]. split; [lia|]. split; [cbn; lia|].
    split; reflexivity.
  - pose proof (ilog2_ratio_lt ms 1000 34 ltac:(lia) ltac:(lia) ltac:(lia)
                  ltac:(change (2 ^ 34) with 17179869184; lia)) as He.
    set (s := 52 - ilog2_ratio ms 1000).
    assert (Hs : 19 <= s) by (subst s; lia).
    assert (Ht : truediv ms 1000 = {| mant := rne (ms * 2 ^ s) 1000; expo := - s |}).
    { unfold truediv, round_ratio.
      replace (ms =? 0) with false by (symmetry; apply Z.eqb_neq; lia).
      cbv zeta. fold s.
      replace (0 <=? s) with true by (symmetry; apply Z.leb_le; lia). reflexivity. }
    assert (HA : 0 < 2 ^ s) by (apply Z.pow_pos_nonneg; lia).
    destruct (quotient_split ms s ltac:(lia) Hs) as [Hq Hd].
    pose proof (Z.mod_pos_bound (rne (ms * 2 ^ s) 1000) (2 ^ s) HA) as Hf.
    pose proof (fraction_micros (rne (ms * 2 ^ s) 1000 mod 2 ^ s) (ms mod 1000) s
                  Hs Hf Hk Hd) as Hus.
    cbv zeta in Hus. destruct Hus as [Hus0 [Hus1 [Hus20 Husk]]].
    set (us := round_half_even
                 (fmul {| mant := rne (ms * 2 ^ s) 1000 mod 2 ^ s; expo := - s |} f1e6)) in *.
    exists us.
    assert (Hrange : 0 <= us < 1000000) by lia.
    split; [|split; [exact Hrange|split; [exact Hus1|split; [|exact Husk]]]].
    + unfold utcfromtimestamp. rewrite Ht. unfold modf. cbn [mant expo].
      replace (0 <=? - s) with false by (symmetry; apply Z.leb_gt; lia).
      replace (- - s) with s by ring.
      fold us. rewrite Hq. apply Hfinish. exact Hrange.
    + intros Hsmall. apply Hus20.
      pose proof (ilog2_ratio_lt ms 1000 33 ltac:(lia) ltac:(lia) ltac:(lia) Hsmall).
      subst s. lia.
Qed.

(** ** Digits *)

Lemma digit_value (c : ascii) :
  is_ascii_digit c = true -> 0 <= Z.of_nat (nat_of_ascii c) - 48 <= 9.
Proof.
  unfold is_ascii_digit. rewrite andb_true_iff, !Nat.leb_le. lia.
Qed.

Lemma fold_digits_bounds (l : list ascii) (acc : Z) :
  forallb is_ascii_digit l = true -> 0 <= acc ->
  acc * 10 ^ Z.of_nat (List.length l)
  <= fold_left (fun a c => 10 * a + (Z.of_nat (nat_of_ascii c) - 48)) l acc
  < (acc + 1) * 10 ^ Z.of_nat (List.length l).
Proof.
  revert acc. induction l as [|c l IH]; intros acc Hd Hacc.
  - cbn. lia.
  - cbn [forallb] in Hd. apply andb_true_iff in Hd. destruct Hd as [Hc Hl].
    pose proof (digit_value c Hc) as Hv.
    cbn [fold_left List.length]. rewrite Nat2Z.inj_succ, Z.pow_succ_r by lia.
    specialize (IH (10 * acc + (Z.of_nat (nat_of_ascii c) - 48)) Hl ltac:(lia)).
    assert (Hp : 0 < 10 ^ Z.of_nat (List.length l)) by (apply Z.pow_pos_nonneg; lia).
    nia.
Qed.

Lemma length_list_ascii (s : string) :
  List.length (list_ascii_of_string s) = String.length s.
Proof. induction s as [|c s IH]; simpl; congruence. Qed.

Lemma int_of_digits_bounds (s : string) :
  isdigit s = true -> 0 <= int_of_digits s < 10 ^ len s.
Proof.
  intros Hd. unfold int_of_digits, len.
  assert (Hall : forallb is_ascii_digit (list_ascii_of_string s) = true)
    by (destruct s; [discriminate | exact Hd]).
  pose proof (fold_digits_bounds (list_ascii_of_string s) 0 Hall ltac:(lia)) as H.
  rewrite length_list_ascii in H. lia.
Qed.

(** ** Zone conversion *)

Lemma naive_add_wall (d d' : naive) (delta : Z) :
  naive_add d delta = Some d' ->
  wall_us d' = wall_us d + delta /\ 0 < ordinal d' <= MAXORDINAL
  /\ 0 <= usec_of_day d' < US_PER_DAY.
Proof.
  unfold naive_add.
  destruct (Z.ltb_spec 0 ((wall_us d + delta) / US_PER_DAY)); cbn [andb]; [|discriminate].
  destruct (Z.leb_spec ((wall_us d + delta) / US_PER_DAY) MAXORDINAL); [|discriminate].
  intros [= <-]. unfold wall_us at 1. cbn [ordinal usec_of_day].
  pose proof (Z.div_mod (wall_us d + delta) US_PER_DAY ltac:(unfold US_PER_DAY, US_PER_SECOND; lia)).
  pose proof (Z.mod_pos_bound (wall_us d + delta) US_PER_DAY ltac:(reflexivity)).
  split; [|split]; lia.
Qed.

Lemma instant_wall (d : aware) :
  instant d = wall_us (fields d) - EPOCH_ORDINAL * US_PER_DAY - utcoffset d * US_PER_SECOND.
Proof. unfold instant, wall_us. ring. Qed.

(** [astimezone] keeps the instant and attaches the offset in force. *)
Lemma astimezone_instant (d d' : aware) (tz : tzinfo) :
  astimezone d tz = Some d' ->
  instant d' = instant d /\ utcoffset d' = utcoffset_at tz (instant d)
  /\ valid_naive (fields d').
Proof.
  unfold astimezone.
  destruct (naive_add (fields d) (- (utcoffset d * US_PER_SECOND))) as [u|] eqn:Eu;
    cbn [bind]; [|discriminate].
  destruct (naive_add u _) as [l|] eqn:El; cbn [bind]; [|discriminate].
  intros [= <-].
  apply naive_add_wall in Eu. apply naive_add_wall in El.
  assert (Hu : instant (utc_localize u) = instant d).
  { rewrite !instant_wall. unfold utc_localize. cbn [fields utcoffset]. lia. }
  rewrite Hu in *. split; [|split; [reflexivity|]].
  - destruct El as [El _]. destruct Eu as [Eu _].
    generalize dependent (utcoffset_at tz (instant d)). intros off El.
    rewrite !instant_wall. cbn [fields utcoffset]. lia.
  - cbn [fields]. unfold valid_naive. lia.
Qed.

Lemma astimezone_total (d : naive) (tz : tzinfo) :
  1 < ordinal d < MAXORDINAL -> 0 <= usec_of_day d < US_PER_DAY ->
  -86400 < utcoffset_at tz (instant (utc_localize d)) < 86400 ->
  exists d', astimezone (utc_localize d) tz = Some d'.
Proof.
  intros Ho Hu Hoff. unfold astimezone, utc_localize. cbn [fields utcoffset].
  destruct d as [o u]. cbn [ordinal usec_of_day] in *.
  replace (- (0 * US_PER_SECOND)) with (0 * US_PER_DAY + 0) by ring.
  rewrite DatetimeFacts.naive_add_days by lia.
  cbn [bind]. rewrite !Z.add_0_r.
  set (off := utcoffset_at tz _) in *.
  unfold naive_add, wall_us. cbn [ordinal usec_of_day].
  assert (Hq : o - 1 <= (o * US_PER_DAY + u + off * US_PER_SECOND) / US_PER_DAY <= o + 1).
  { unfold US_PER_DAY, US_PER_SECOND in *. split.
    - apply Z.div_le_lower_bound; lia.
    - apply Z.lt_succ_r, Z.div_lt_upper_bound; lia. }
  replace (0 <? _) with true by (symmetry; apply Z.ltb_lt; lia).
  replace (_ <=? MAXORDINAL) with true by (symmetry; apply Z.leb_le; lia).
  cbn [andb bind]. eexists. reflexivity.
Qed.

Lemma chicago_offset_cases (t : Z) :
  0 <= t -> chicago_utcoffset_at t = CST \/ chicago_utcoffset_at t = CDT.
Proof.
  intros Ht. unfold chicago_utcoffset_at.
  replace (t <? 0) with false by (symmetry; apply Z.ltb_ge; assumption).
  unfold chicago_utcoffset_since_1970.
  destruct (ord2ymd _) as [[year month] day].
  destruct (dst_start_day year); [|now left].
  destruct (_ && _); [now right | now left].
Qed.

Lemma offset_in_table_In (table : list (Z * Z)) (before t : Z) :
  In (offset_in_table table before t) (before :: map snd table).
Proof.
  revert before. induction table as [|[second offset] rest IH]; intros before.
  - now left.
  - cbn [offset_in_table map snd]. destruct (_ <=? _); [|now left].
    right. apply IH.
Qed.

(** Before 1970 the zone was on local mean time, on standard time or
    5 hours west of Greenwich. *)
Lemma chicago_history_cases (t : Z) :
  t < 0 ->
  chicago_utcoffset_at t = LMT \/ chicago_utcoffset_at t = CST
  \/ chicago_utcoffset_at t = CDT.
Proof.
  intros Ht. unfold chicago_utcoffset_at.
  replace (t <? 0) with true by (symmetry; apply Z.ltb_lt; assumption).
  pose proof (offset_in_table_In chicago_history LMT t) as Hin.
  assert (Hall : forallb (fun o => (o =? LMT) || (o =? CST) || (o =? CDT))
                         (LMT :: map snd chicago_history) = true)
    by (vm_compute; reflexivity).
  rewrite forallb_forall in Hall. specialize (Hall _ Hin).
  apply orb_true_iff in Hall. destruct Hall as [Hall|Hall].
  - apply orb_true_iff in Hall. destruct Hall as [Hall|Hall]; apply Z.eqb_eq in Hall; auto.
  - apply Z.eqb_eq in Hall. auto.
Qed.

Lemma chicago_offset_range (t : Z) : -86400 < chicago_utcoffset_at t < 86400.
Proof.
  destruct (Z_lt_le_dec t 0) as [Ht|Ht].
  - destruct (chicago_history_cases t Ht) as [-> | [-> | ->]]; unfold LMT, CST, CDT; lia.
  - destruct (chicago_offset_cases t Ht) as [-> | ->]; unfold CST, CDT; lia.
Qed.

(** The transitions of 2025 and of 2037, and the end of the table: 08:00
    UTC on the second Sunday of March, 07:00 UTC on the first Sunday of
    November, standard time throughout from 2038 on. *)
Lemma chicago_transitions :
  map chicago_utcoffset_at
    [ 1741507199999999; 1741507200000000; 1762066799999999; 1762066800000000;
      2120111999999999; 2120112000000000; 2140671599999999; 2140671600000000;
      2161598400000000 ]
  = [ CST; CDT; CDT; CST; CST; CDT; CDT; CST; CST ].
Proof. vm_compute. reflexivity. Qed.

(** The zone's history before 1970: local mean time until standard time
    came on 1883-11-18 at 18:00 UTC; daylight time on 1 July 1965, none on
    1 January 1965; Eastern standard time in the summer of 1936; war time
    on 1 January 1943. *)
Lemma chicago_history_samples :
  map chicago_utcoffset_at
    [ -2717647200000001; -2717647200000000; -142128000000000; -157766400000000;
      -1059868800000000; -852076800000000; -1 ]
  = [ LMT; CST; CDT; CST; CDT; CDT; CST ].
Proof. vm_compute. reflexivity. Qed.

End NormalizerFacts.

Module NormalizerProperties.
Import Calendar PyDatetime Pytz Binary64 PyText Normalizer NormalizerFacts.

(** C4, as amended. For every string of 13 digits, read as a count [ms] of
    milliseconds since the epoch, the normaliser returns an instant within
    one microsecond of [ms / 1000] seconds, the fraction kept: exactly [ms]
    milliseconds when [ms < 2 ^ 33 * 1000] (dates before 2242-03-16), and
    [floor (ms / 1000)] seconds only when [ms] is a multiple of 1000. The
    instant carries the offset of America/Chicago in force at that
    instant, standard or daylight, and its calendar fields, a date and a
    time of day, read the instant at that offset. *)
Theorem epoch_millis_normalized `{TextRoutines} (s : string) :
  isdigit s = true -> len s = 13 ->
  exists d : aware,
    convert_to_chicago_time America_Chicago s = Some d
    /\ -1 <= instant d - 1000 * int_of_digits s <= 1
    /\ (int_of_digits s < 2 ^ 33 * 1000 -> instant d = 1000 * int_of_digits s)
    /\ (int_of_digits s mod 1000 = 0 -> instant d = int_of_digits s / 1000 * US_PER_SECOND)
    /\ utcoffset d = utcoffset_at America_Chicago (instant d)
    /\ (utcoffset d = CST \/ utcoffset d = CDT)
    /\ valid_naive (fields d).
Proof.
  intros Hd Hl.
  pose proof (int_of_digits_bounds s Hd) as Hms. rewrite Hl in Hms.
  set (ms := int_of_digits s) in *.
  destruct (utcfromtimestamp_millis ms Hms) as [us [Hu [Hus [Hnear [Hsmall Hzero]]]]].
  unfold convert_to_chicago_time, parse_timestamp.
  rewrite Hd, Hl. cbn [andb Z.eqb Pos.eqb bind]. fold ms. rewrite Hu. cbn [bind].
  set (u := {| ordinal := EPOCH_ORDINAL + ms / 1000 / 86400;
               usec_of_day := (ms / 1000) mod 86400 * US_PER_SECOND + us |}).
  change (replace_tzinfo u utc) with (utc_localize u).
  change (10 ^ 13) with 10000000000000 in Hms.
  pose proof (Z.mod_pos_bound (ms / 1000) 86400 ltac:(lia)) as Hsod.
  assert (Hsec : 0 <= ms / 1000 < 10000000000).
  { split; [apply Z.div_pos; lia | apply Z.div_lt_upper_bound; lia]. }
  assert (Hday : 0 <= ms / 1000 / 86400 <= 115740).
  { split; [apply Z.div_pos; lia|]. apply Z.lt_succ_r, Z.div_lt_upper_bound; lia. }
  assert (Hinst : instant (utc_localize u) = ms / 1000 * US_PER_SECOND + us).
  { unfold instant, utc_localize, u. cbn [fields utcoffset ordinal usec_of_day].
    pose proof (Z.div_mod (ms / 1000) 86400 ltac:(lia)).
    unfold US_PER_DAY, US_PER_SECOND. lia. }
  destruct (astimezone_total u America_Chicago) as [d Hconv].
  - unfold u, EPOCH_ORDINAL, MAXORDINAL. cbn [ordinal]. lia.
  - unfold u, US_PER_DAY, US_PER_SECOND. cbn [usec_of_day]. lia.
  - cbn [utcoffset_at America_Chicago]. apply chicago_offset_range.
  - exists d. split; [exact Hconv|].
    destruct (astimezone_instant _ _ _ Hconv) as [Hi [Ho Hvalid]].
    pose proof (Z.div_mod ms 1000 ltac:(lia)) as Hdm.
    rewrite Hi, Hinst. unfold US_PER_SECOND.
    split; [lia|]. split; [intros Hlt; specialize (Hsmall Hlt); lia|].
    split; [intros Hz; specialize (Hzero Hz); lia|].
    split; [rewrite Ho, Hinst; reflexivity|].
    split; [|exact Hvalid].
    rewrite Ho. apply chicago_offset_cases. rewrite Hinst. unfold US_PER_SECOND. lia.
Qed.

(** The milliseconds are not floored away: 1700000000123 ms gives the
    instant 1700000000.123 s, not 1700000000 s. *)
Lemma epoch_millis_not_floored :
  exists d : aware,
    (forall L : TextRoutines,
       convert_to_chicago_time America_Chicago "1700000000123" = Some d)
    /\ instant d = 1700000000123000
    /\ int_of_digits "1700000000123" / 1000 * US_PER_SECOND = 1700000000000000
    /\ instant d <> int_of_digits "1700000000123" / 1000 * US_PER_SECOND.
Proof.
  exists {| fields := {| ordinal := 738838; usec_of_day := 58400123000 |}; utcoffset := CST |}.
  split; [intros L; vm_compute; reflexivity|].
  split; [reflexivity|]. split; [reflexivity|].
  vm_compute. discriminate.
Qed.

Lemma epoch_millis_normalized_witness :
  isdigit "1700000000123" = true /\ len "1700000000123" = 13
  /\ (forall L : TextRoutines,
        exists d : aware,
          convert_to_chicago_time America_Chicago "1700000000123" = Some d
          /\ instant d = 1000 * 1700000000123).
Proof.
  split; [reflexivity|]. split; [reflexivity|]. intros L.
  destruct (epoch_millis_normalized "1700000000123" eq_refl eq_refl)
    as [d [Hd [_ [Hsmall _]]]].
  exists d. split; [exact Hd|]. apply Hsmall. reflexivity.
Defined.

(** 1700000000000 ms is 2023-11-14 22:13:20 UTC: 16:13:20 in Chicago,
    standard time. *)
Lemma standard_time_instant `{TextRoutines} :
  convert_to_chicago_time America_Chicago "1700000000000"
  = Some {| fields := mk_datetime 2023 11 14 16 13 20 0; utcoffset := CST |}.
Proof. vm_compute. reflexivity. Qed.

(** 1753743600000 ms is 2025-07-28 23:00:00 UTC: 18:00:00 in Chicago,
    daylight time. *)
Lemma daylight_time_instant `{TextRoutines} :
  convert_to_chicago_time America_Chicago "1753743600000"
  = Some {| fields := mk_datetime 2025 7 28 18 0 0 0; utcoffset := CDT |}.
Proof. vm_compute. reflexivity. Qed.

(** Past 2 ^ 33 seconds the quotient is a microsecond short:
    9000000000001 ms gives 9000000000.000999 s. *)
Lemma late_millis_rounded `{TextRoutines} :
  convert_to_chicago_time America_Chicago "9000000000001"
  = Some {| fields := mk_datetime 2255 3 14 10 0 0 999; utcoffset := CST |}
  /\ instant {| fields := mk_datetime 2255 3 14 10 0 0 999; utcoffset := CST |}
     = 1000 * 9000000000001 - 1.
Proof. split; vm_compute; reflexivity. Qed.

End NormalizerProperties.

(* ===================================================================== *)
(** * Facts about the feed parser                                         *)
(* ===================================================================== *)

Module ParserFacts.
Import PyDatetime Pytz PyFloat Json PyText Normalizer Parser ParserSpec.

(** ** The stable sort *)

Lemma row_ltb_true (a b : row) : row_ltb a b = true -> instant_le a b.
Proof.
  unfold row_ltb, instant_le, PyDatetime.ltb.
  destruct (Z.eqb_spec (instant (fst a)) (instant (fst b))) as [E|E]; cbn [negb].
  - intros _. lia.
  - intros Hlt. apply Z.ltb_lt in Hlt. lia.
Qed.

Lemma row_ltb_false (a b : row) : row_ltb a b = false -> instant_le b a.
Proof.
  unfold row_ltb, instant_le, PyDatetime.ltb.
  destruct (Z.eqb_spec (instant (fst a)) (instant (fst b))) as [E|E]; cbn [negb].
  - intros _. lia.
  - intros Hlt. apply Z.ltb_ge in Hlt. lia.
Qed.

Lemma insert_perm (x : row) (l : list row) : Permutation (x :: l) (insert x l).
Proof.
  induction l as [|y l IH]; simpl.
  - apply Permutation_refl.
  - destruct (row_ltb y x).
    + eapply perm_trans; [apply perm_swap|]. now apply perm_skip.
    + apply Permutation_refl.
Qed.

Lemma sorted_perm (l : list row) : Permutation l (sorted l).
Proof.
  induction l as [|x l IH]; simpl.
  - apply perm_nil.
  - eapply perm_trans; [apply perm_skip, IH | apply insert_perm].
Qed.

Lemma insert_sorted (x : row) (l : list row) :
  StronglySorted instant_le l -> StronglySorted instant_le (insert x l).
Proof.
  induction 1 as [|y l Hl IH Hy]; simpl.
  - constructor; constructor.
  - destruct (row_ltb y x) eqn:E.
    + constructor; [assumption|].
      apply (Permutation_Forall (insert_perm x l)).
      constructor; [now apply row_ltb_true | assumption].
    + apply row_ltb_false in E.
      constructor; [now constructor|].
      constructor; [assumption|].
      eapply Forall_impl; [|exact Hy].
      intros z Hz. unfold instant_le in *. lia.
Qed.

Lemma sorted_sorted (l : list row) : StronglySorted instant_le (sorted l).
Proof.
  induction l as [|x l IH]; simpl.
  - constructor.
  - now apply insert_sorted.
Qed.

(** Whatever algorithm sorts the rows, a list in which no row is [<] a row
    before it is in ascending order of instant. *)
Lemma ascending_of_no_inversion (rows : list row) :
  StronglySorted (fun a b => row_ltb b a = false) rows ->
  StronglySorted instant_le rows.
Proof.
  induction 1 as [|a l Hl IH Ha]; constructor; [assumption|].
  eapply Forall_impl; [|exact Ha]. intros b Hb. now apply row_ltb_false in Hb.
Qed.

(** ** The price filter *)

Lemma range_test (p : pyfloat) :
  PyFloat.leb (of_Z 0) p && PyFloat.leb p (of_Z 1000) = true ->
  exists q : Q, p = Finite q /\ (0 <= q <= 1000)%Q.
Proof.
  destruct p as [q| | |]; cbn; try discriminate.
  - rewrite andb_true_iff, !Qle_bool_iff. intros [H0 H1]. exists q.
    split; [reflexivity|]. split; assumption.
Qed.

Lemma range_test_false (p : pyfloat) (q : Q) :
  p = Finite q -> ~ (0 <= q <= 1000)%Q ->
  PyFloat.leb (of_Z 0) p && PyFloat.leb p (of_Z 1000) = false.
Proof.
  intros -> Hq. apply not_true_is_false. intros H.
  apply range_test in H. destruct H as [q' [E H]]. injection E as <-. tauto.
Qed.

Section Zone.
Context `{TextRoutines}.
Variable tz : tzinfo.

Lemma extract_in_range (item : json) (r : row) :
  extract tz item = Some (Some r) -> price_in_range r.
Proof.
  unfold extract. destruct item; try discriminate.
  destruct (find_price price_fields d) as [[p|]|]; cbn [bind]; try discriminate.
  destruct (Json.truthy _); try discriminate.
  destruct (convert_to_chicago_time _ _); try discriminate.
  destruct (PyFloat.leb (of_Z 0) p && PyFloat.leb p (of_Z 1000)) eqn:E; try discriminate.
  intros [= <-]. now apply range_test.
Qed.

Lemma collect_in_range (items : list json) (rows : list row) :
  collect tz items = Some rows -> Forall price_in_range rows.
Proof.
  revert rows. induction items as [|item items IH]; simpl; intros rows.
  - intros [= <-]. constructor.
  - destruct (extract tz item) as [r|] eqn:E; cbn [bind]; [|discriminate].
    destruct (collect tz items) as [rs|]; cbn [bind]; [|discriminate].
    intros [= <-]. destruct r as [r|].
    + constructor; [eapply extract_in_range; eassumption | now apply IH].
    + now apply IH.
Qed.

(** What [process_data_for_plotting] returns when it returns rows. *)
Lemma process_parsed (data : json) (rows : list row) (n : nat) :
  process_data_for_plotting tz data = Some (Parsed rows n) ->
  exists items emitted,
    items_of data = Some items /\ collect tz items = Some emitted
    /\ emitted <> [] /\ rows = sorted emitted /\ n = List.length items.
Proof.
  unfold process_data_for_plotting.
  destruct (negb (Json.truthy data)); [discriminate|].
  destruct (items_of data) as [items|]; [|discriminate].
  destruct (collect tz items) as [emitted|] eqn:Ec; cbn [bind]; [|discriminate].
  destruct emitted as [|r rs]; [discriminate|].
  intros [= <- <-]. exists items, (r :: rs).
  split; [reflexivity|]. split; [exact Ec|]. split; [discriminate|].
  split; reflexivity.
Qed.

End Zone.
End ParserFacts.

Module ParserProperties.
Import PyDatetime Pytz PyFloat Json PyText Normalizer Parser ParserSpec Samples ParserFacts.

Section Zone.
Context `{TextRoutines}.
Variable tz : tzinfo.

Lemma find_list_none (keys : list string) (d : list (string * json)) :
  (forall key l, In key keys -> lookup key d <> Some (JList l)) ->
  find_list keys d = [].
Proof.
  induction keys as [|key keys IH]; intros Hno; simpl.
  - reflexivity.
  - destruct (lookup key d) as [[| | | | |l|]|] eqn:E;
      try (apply IH; intros k l' Hk; apply Hno; now right).
    exfalso. apply (Hno key l); [now left | assumption].
Qed.

(** C1, as amended. A non-empty dict payload that holds no list under any
    of the known container keys is taken as a one-item list, the dict
    itself being the item: the call returns what it returns on the list
    [[data]]. If the dict is a usable record, its observation is the only
    row, with the item count 1; if it is not (the item yields no
    observation, as [{"foo": 1}]), the parser returns the degraded-data
    message "No valid data points found. Processed 1 items."; and if
    [float()] overflows on one of its price fields, which is the one way
    for the item to raise, the error leaves the function. In none of
    these cases is a format error returned: "Unexpected data format" is
    returned only for a non-empty payload that is neither a list nor a
    dict. *)
Theorem dict_without_list_is_one_item (d : list (string * json)) :
  d <> [] ->
  (forall key l, In key container_keys -> lookup key d <> Some (JList l)) ->
  items_of (JDict d) = Some [JDict d]
  /\ process_data_for_plotting tz (JDict d) = process_data_for_plotting tz (JList [JDict d])
  /\ process_data_for_plotting tz (JDict d)
     = match extract tz (JDict d) with
       | Some (Some r) => Some (Parsed [r] 1)
       | Some None => Some (Failed (NoValidPoints 1))
       | None => None
       end
  /\ (extract tz (JDict d) = None <-> find_price price_fields d = None)
  /\ (forall t, process_data_for_plotting tz (JDict d) <> Some (Failed (UnexpectedFormat t)))
  /\ (forall data t,
        process_data_for_plotting tz data = Some (Failed (UnexpectedFormat t)) ->
        Json.truthy data = true /\ t = type_of data
        /\ (forall l, data <> JList l) /\ (forall d', data <> JDict d')).
Proof.
  intros Hd Hno.
  assert (Hitems : items_of (JDict d) = Some [JDict d]).
  { unfold items_of. now rewrite (find_list_none _ _ Hno). }
  assert (Hcases : process_data_for_plotting tz (JDict d)
                   = match extract tz (JDict d) with
                     | Some (Some r) => Some (Parsed [r] 1)
                     | Some None => Some (Failed (NoValidPoints 1))
                     | None => None
                     end).
  { unfold process_data_for_plotting.
    replace (Json.truthy (JDict d)) with true by (destruct d; [congruence | reflexivity]).
    cbn [negb]. rewrite Hitems. cbn [collect].
    destruct (extract tz (JDict d)) as [[r|]|]; reflexivity. }
  split; [exact Hitems|]. split; [|split; [exact Hcases|split; [|split]]].
  - rewrite Hcases. unfold process_data_for_plotting.
    cbn [Json.truthy negb items_of collect].
    destruct (extract tz (JDict d)) as [[r|]|]; reflexivity.
  - unfold extract. destruct (find_price price_fields d) as [[p|]|]; cbn [bind].
    + split; [|discriminate].
      destruct (Json.truthy _); [|discriminate].
      destruct (convert_to_chicago_time _ _); [|discriminate].
      destruct (_ && _); discriminate.
    + split; discriminate.
    + split; reflexivity.
  - intros t. rewrite Hcases. destruct (extract tz (JDict d)) as [[r|]|]; discriminate.
  - intros data t. unfold process_data_for_plotting.
    destruct (Json.truthy data); cbn [negb]; [|discriminate].
    destruct (items_of data) as [items|] eqn:Ei.
    + destruct (collect tz items) as [[|r rs]|]; cbn [bind]; discriminate.
    + intros [= <-]. split; [reflexivity|]. split; [reflexivity|].
      split; intros x Hx; subst data; unfold items_of in Ei.
      * discriminate Ei.
      * destruct (find_list container_keys x); discriminate Ei.
Qed.

Lemma extract_out_of_range (d : list (string * json)) (p : pyfloat) :
  find_price price_fields d = Some (Some p) ->
  PyFloat.leb (of_Z 0) p && PyFloat.leb p (of_Z 1000) = false ->
  extract tz (JDict d) = Some None.
Proof.
  intros Hp Hr. unfold extract. rewrite Hp. cbn [bind]. rewrite Hr.
  destruct (Json.truthy _); [|reflexivity].
  destruct (convert_to_chicago_time _ _); reflexivity.
Qed.

(** C5. For every payload, the rows that the parser returns all have a
    price between 0 and 1000, they are in ascending order of instant, and
    they are the rows collected from the items, in whatever order these
    came, rearranged; an item whose price fails the range test adds no
    row. *)
Theorem parsed_rows_in_range_and_sorted (data : json) (rows : list row) (n : nat) :
  process_data_for_plotting tz data = Some (Parsed rows n) ->
  Forall price_in_range rows
  /\ StronglySorted instant_le rows
  /\ (exists items emitted,
        items_of data = Some items /\ collect tz items = Some emitted
        /\ Permutation emitted rows)
  /\ (forall d p,
        find_price price_fields d = Some (Some p) ->
        PyFloat.leb (of_Z 0) p && PyFloat.leb p (of_Z 1000) = false ->
        forall items, collect tz (JDict d :: items) = collect tz items).
Proof.
  intros Hp.
  destruct (process_parsed tz data rows n Hp) as [items [emitted [Hi [Hc [_ [-> _]]]]]].
  split; [|split; [|split]].
  - apply (Permutation_Forall (sorted_perm emitted)).
    eapply collect_in_range; eassumption.
  - apply sorted_sorted.
  - exists items, emitted. split; [assumption|]. split; [assumption|]. apply sorted_perm.
  - intros d p Hfp Hr items'. cbn [collect].
    rewrite (extract_out_of_range d p Hfp Hr). cbn [bind].
    destruct (collect tz items'); reflexivity.
Qed.

(** C10. An item whose located timestamp value is falsy (the number 0, the
    empty string, ...) is skipped without an error although a numeric
    price was found, whatever the price: the guard [if timestamp and price
    is not None] tests the truth value of the timestamp. In particular
    [{"millisUTC": 0, "price": 3.5}] yields no observation, and a feed
    made of it alone is reported as holding no valid data point. *)
Theorem falsy_timestamp_skipped (d : list (string * json)) (p : pyfloat) :
  Json.truthy (find_timestamp ts_fields d) = false ->
  find_price price_fields d = Some (Some p) ->
  extract tz (JDict d) = Some None
  /\ (forall items, collect tz (JDict d :: items) = collect tz items)
  /\ extract tz zero_millis_item = Some None
  /\ process_data_for_plotting tz (JList [zero_millis_item]) = Some (Failed (NoValidPoints 1)).
Proof.
  intros Hts Hp.
  assert (He : extract tz (JDict d) = Some None).
  { unfold extract. rewrite Hp. cbn [bind]. rewrite Hts. reflexivity. }
  split; [exact He|]. split.
  - intros items. cbn [collect]. rewrite He. cbn [bind].
    destruct (collect tz items); reflexivity.
  - split; reflexivity.
Qed.

End Zone.

(** [{"foo": 1}] is answered with "No valid data points found. Processed 1
    items.", whatever the text routines and the zone: not with a format
    error. *)
Lemma foo_payload_no_valid_points :
  exists out : outcome,
    (forall (L : TextRoutines) (tz : tzinfo),
       process_data_for_plotting tz foo_payload = Some out)
    /\ out = Failed (NoValidPoints 1)
    /\ (forall t, out <> Failed (UnexpectedFormat t)).
Proof.
  exists (Failed (NoValidPoints 1)). split; [|split].
  - intros L tz. reflexivity.
  - reflexivity.
  - intros t. discriminate.
Qed.

Lemma dict_without_list_is_one_item_witness :
  [("foo"%string, JInt 1)] <> []
  /\ (forall key l, In key container_keys ->
        lookup key [("foo"%string, JInt 1)] <> Some (JList l))
  /\ (forall (L : TextRoutines) (tz : tzinfo),
        items_of foo_payload = Some [foo_payload]
        /\ extract tz foo_payload = Some None
        /\ process_data_for_plotting tz foo_payload = Some (Failed (NoValidPoints 1))).
Proof.
  assert (H1 : [("foo"%string, JInt 1)] <> []) by discriminate.
  assert (H2 : forall key l, In key container_keys ->
                 lookup key [("foo"%string, JInt 1)] <> Some (JList l)).
  { intros key l Hk. cbn in Hk.
    destruct Hk as [<-|[<-|[<-|[<-|[<-|[]]]]]]; discriminate. }
  split; [exact H1|]. split; [exact H2|].
  intros L tz.
  pose proof (dict_without_list_is_one_item tz _ H1 H2) as [Hitems [_ [Hcases _]]].
  split; [exact Hitems|]. split; [reflexivity|]. exact Hcases.
Defined.

(** The three cases at sample payloads: a usable record is the one row of
    the result, [{"foo": 1}] is reported as holding no valid data point,
    and a record whose price is the integer [2 ** 1024] makes the call
    raise. *)
Lemma dict_payload_cases :
  exists r : row,
    instant (fst r) = 1700000000000000 /\ snd r = Finite (7 # 2)
    /\ (forall L : TextRoutines,
          process_data_for_plotting America_Chicago usable_record = Some (Parsed [r] 1)
          /\ process_data_for_plotting America_Chicago foo_payload
             = Some (Failed (NoValidPoints 1))
          /\ process_data_for_plotting America_Chicago overflowing_record = None).
Proof.
  exists ({| fields := {| ordinal := 738838; usec_of_day := 58400000000 |};
            utcoffset := CST |}, Finite (7 # 2)).
  split; [reflexivity|]. split; [reflexivity|].
  intros L. split; [vm_compute; reflexivity|]. split; reflexivity.
Qed.

End ParserProperties.

(* ===================================================================== *)
(** * Facts about the aggregator                                          *)
(* ===================================================================== *)

Module AggregatorFacts.
Import PyFloat Float64 PyDatetime Aggregator AggregatorSpec Float64Spec Float64Facts.

Lemma insert_value_perm (x : Q) (l : list Q) : Permutation (x :: l) (insert_value x l).
Proof.
  induction l as [|y l IH]; simpl.
  - apply Permutation_refl.
  - destruct (Qle_bool x y).
    + apply Permutation_refl.
    + eapply perm_trans; [apply perm_swap|]. now apply perm_skip.
Qed.

Lemma sort_values_perm (l : list Q) : Permutation l (sort_values l).
Proof.
  induction l as [|x l IH]; simpl.
  - apply perm_nil.
  - eapply perm_trans; [apply perm_skip, IH | apply insert_value_perm].
Qed.

Lemma insert_value_ascending (x : Q) (l : list Q) :
  ascending l -> ascending (insert_value x l).
Proof.
  induction 1 as [|y l Hl IH Hy]; simpl.
  - constructor; constructor.
  - destruct (Qle_bool x y) eqn:E.
    + apply Qle_bool_iff in E.
      constructor; [now constructor|].
      constructor; [assumption|].
      eapply Forall_impl; [|exact Hy]. intros z Hz. eapply Qle_trans; eassumption.
    + assert (Hyx : (y <= x)%Q).
      { destruct (Qlt_le_dec y x) as [Hlt|Hle]; [now apply Qlt_le_weak|].
        apply Qle_bool_iff in Hle. congruence. }
      constructor; [assumption|].
      apply (Permutation_Forall (insert_value_perm x l)).
      constructor; assumption.
Qed.

Lemma sort_values_ascending (l : list Q) : ascending (sort_values l).
Proof.
  induction l as [|x l IH]; simpl.
  - constructor.
  - now apply insert_value_ascending.
Qed.

Lemma count_lt_perm (x : Q) (l l' : list Q) :
  Permutation l l' -> count_lt x l = count_lt x l'.
Proof.
  intros Hp. unfold count_lt. apply Permutation_length.
  induction Hp; simpl.
  - constructor.
  - destruct (negb _); [now constructor | assumption].
  - destruct (negb (Qle_bool x y)), (negb (Qle_bool x x0)); try apply Permutation_refl.
    apply perm_swap.
  - eapply perm_trans; eassumption.
Qed.

Lemma count_le_perm (x : Q) (l l' : list Q) :
  Permutation l l' -> count_le x l = count_le x l'.
Proof.
  intros Hp. unfold count_le. apply Permutation_length.
  induction Hp; simpl.
  - constructor.
  - destruct (Qle_bool _ _); [now constructor | assumption].
  - destruct (Qle_bool y x), (Qle_bool x0 x); try apply Permutation_refl.
    apply perm_swap.
  - eapply perm_trans; eassumption.
Qed.

Lemma kth_smallest_perm (l l' : list Q) (k : nat) (x : Q) :
  Permutation l l' -> kth_smallest l k x -> kth_smallest l' k x.
Proof.
  intros Hp [Hin Hc]. split.
  - eapply Permutation_in; eassumption.
  - now rewrite <- (count_lt_perm x l l' Hp), <- (count_le_perm x l l' Hp).
Qed.

(** In an ascending list the value at index [k] is the [k]-th smallest. *)
Lemma ascending_nth (s : list Q) :
  ascending s -> forall k, (k < List.length s)%nat -> kth_smallest s k (nth k s 0%Q).
Proof.
  induction 1 as [|y s Hs IH Hy]; intros k Hk.
  - simpl in Hk. lia.
  - destruct k as [|k].
    + cbn [nth]. split; [now left|].
      unfold count_lt, count_le. cbn [filter].
      replace (Qle_bool y y) with true by (symmetry; apply Qle_bool_iff, Qle_refl).
      cbn [negb List.length]. split; [|lia].
      replace (filter (fun z => negb (Qle_bool y z)) s) with (@nil Q); [simpl; lia|].
      symmetry. clear -Hy. induction Hy as [|z s Hz _ IHs]; [reflexivity|].
      cbn [filter]. apply Qle_bool_iff in Hz. rewrite Hz. exact IHs.
    + cbn [nth]. cbn [List.length] in Hk.
      destruct (IH k ltac:(lia)) as [Hin [Hlt Hle]].
      split; [now right|].
      assert (Hyx : (y <= nth k s 0)%Q).
      { rewrite Forall_forall in Hy. now apply Hy. }
      unfold count_lt, count_le in *. cbn [filter].
      apply Qle_bool_iff in Hyx. rewrite Hyx. cbn [List.length].
      destruct (negb (Qle_bool (nth k s 0%Q) y)); cbn [List.length]; lia.
Qed.

Lemma sort_values_length (l : list Q) : List.length (sort_values l) = List.length l.
Proof. symmetry. apply Permutation_length, sort_values_perm. Qed.

Lemma sort_values_nth (l : list Q) (k : nat) :
  (k < List.length l)%nat -> kth_smallest l k (nth k (sort_values l) 0%Q).
Proof.
  intros Hk. apply (kth_smallest_perm (sort_values l) l).
  - apply Permutation_sym, sort_values_perm.
  - apply ascending_nth; [apply sort_values_ascending | now rewrite sort_values_length].
Qed.

Lemma filter_length_mono {A : Type} (p q : A -> bool) (l : list A) :
  (forall x, p x = true -> q x = true) ->
  (List.length (filter p l) <= List.length (filter q l))%nat.
Proof.
  intros Hpq. induction l as [|x l IH]; cbn [filter]; [lia|].
  destruct (p x) eqn:E.
  - rewrite (Hpq x E). cbn [List.length]. lia.
  - destruct (q x); cbn [List.length]; lia.
Qed.

(** Two values at the same position of the ordered values are equal. *)
Lemma kth_smallest_unique (l : list Q) (k : nat) (x y : Q) :
  kth_smallest l k x -> kth_smallest l k y -> (x == y)%Q.
Proof.
  assert (Hlt : forall a b, kth_smallest l k a -> kth_smallest l k b -> ~ (a < b)%Q).
  { intros a b [_ [_ Ha]] [_ [Hb _]] Hab.
    assert (Hc : (count_le a l <= count_lt b l)%nat).
    { apply filter_length_mono. intros z Hz. apply Qle_bool_iff in Hz.
      apply negb_true_iff, not_true_is_false. intros Hc. apply Qle_bool_iff in Hc.
      apply (Qlt_irrefl a). eapply Qlt_le_trans; [exact Hab|].
      eapply Qle_trans; eassumption. }
    lia. }
  intros Hx Hy. apply Qle_antisym; apply Qnot_lt_le; auto.
Qed.


Lemma is_median_perm (l l' : list Q) (m : Q) :
  Permutation l l' -> is_median l m -> is_median l' m.
Proof.
  intros Hp. unfold is_median. rewrite <- (Permutation_length Hp).
  destruct (Nat.even (List.length l)).
  - intros [a [b [Ha [Hb Hm]]]]. exists a, b.
    split; [eapply kth_smallest_perm; eassumption|].
    split; [eapply kth_smallest_perm; eassumption | assumption].
  - intros [a [Ha Hm]]. exists a. split; [eapply kth_smallest_perm; eassumption | assumption].
Qed.



(** ** [Series.median()] *)

Lemma series_median_cases (xs : list Q) :
  xs <> [] ->
  series_median xs
  = if Nat.even (List.length xs)
    then fdiv (fadd (nth (List.length xs / 2 - 1) (sort_values xs) 0%Q)
                    (nth (List.length xs / 2) (sort_values xs) 0%Q)) 2
    else Finite (nth (List.length xs / 2) (sort_values xs) 0%Q).
Proof.
  intros Hne. unfold series_median. rewrite sort_values_length.
  destruct xs; [congruence | reflexivity].
Qed.

Lemma middle_positions (xs : list Q) :
  xs <> [] ->
  (List.length xs / 2 < List.length xs)%nat
  /\ (Nat.even (List.length xs) = true -> (List.length xs / 2 - 1 < List.length xs)%nat).
Proof.
  intros Hne.
  assert (Hpos : (0 < List.length xs)%nat) by (destruct xs; [congruence | simpl; lia]).
  pose proof (Nat.div_lt (List.length xs) 2 Hpos ltac:(lia)). lia.
Qed.

Lemma series_median_is_float_median (xs : list Q) :
  xs <> [] -> is_float_median xs (series_median xs).
Proof.
  intros Hne. rewrite (series_median_cases xs Hne). unfold is_float_median.
  destruct (middle_positions xs Hne) as [Hmid Hlow].
  destruct (Nat.even (List.length xs)) eqn:E.
  - eexists _, _. split; [apply sort_values_nth; now apply Hlow|].
    split; [now apply sort_values_nth | reflexivity].
  - eexists. split; [now apply sort_values_nth | reflexivity].
Qed.

Lemma float_eq_trans (x y z : pyfloat) : float_eq x y -> float_eq y z -> float_eq x z.
Proof.
  destruct x, y, z; cbn; try tauto. intros H1 H2. now rewrite H1.
Qed.

Lemma float_eq_sym (x y : pyfloat) : float_eq x y -> float_eq y x.
Proof. destruct x, y; cbn; try tauto. intros H1. now symmetry. Qed.

Lemma mean_of_two_proper (a b a' b' : Q) :
  (a == a')%Q -> (b == b')%Q -> fdiv (fadd a b) 2 = fdiv (fadd a' b') 2.
Proof.
  intros Ea Eb. unfold fadd. now rewrite (round_proper (a + b) (a' + b')) by now rewrite Ea, Eb.
Qed.



(** Between two floats that bound the values, whose doubles are floats. *)
Lemma series_median_between (lo hi : Q) (xs : list Q) :
  xs <> [] ->
  binary64 lo -> binary64 hi -> binary64 (2 * lo) -> binary64 (2 * hi) ->
  Forall (fun y => (lo <= y <= hi)%Q) xs ->
  exists r, series_median xs = Finite r /\ (lo <= r <= hi)%Q.
Proof.
  intros Hne Hlo Hhi Hlo2 Hhi2 Hall. rewrite Forall_forall in Hall.
  rewrite (series_median_cases xs Hne).
  destruct (middle_positions xs Hne) as [Hmid Hlow].
  assert (Hin : forall k, (k < List.length xs)%nat ->
                  (lo <= nth k (sort_values xs) 0 <= hi)%Q).
  { intros k Hk. apply Hall.
    apply (Permutation_in _ (Permutation_sym (sort_values_perm xs))).
    apply nth_In. now rewrite sort_values_length. }
  destruct (Nat.even (List.length xs)) eqn:E.
  - apply mean_of_two_between; try assumption; apply Hin; [now apply Hlow | assumption].
  - eexists. split; [reflexivity|]. now apply Hin.
Qed.

(** The order of the values does not matter. *)
Lemma series_median_perm (l l' : list Q) :
  l <> [] -> Permutation l l' -> float_eq (series_median l) (series_median l').
Proof.
  intros Hne Hp.
  assert (Hne' : l' <> []).
  { intros ->. apply Permutation_sym, Permutation_nil in Hp. congruence. }
  pose proof (series_median_is_float_median l Hne) as H1.
  pose proof (series_median_is_float_median l' Hne') as H2.
  unfold is_float_median in *. rewrite <- (Permutation_length Hp) in H2.
  destruct (Nat.even (List.length l)).
  - destruct H1 as [a [b [Ha [Hb ->]]]]. destruct H2 as [a' [b' [Ha' [Hb' ->]]]].
    apply (kth_smallest_perm l l' _ _ Hp) in Ha, Hb.
    rewrite (mean_of_two_proper a b a' b'
               (kth_smallest_unique _ _ _ _ Ha Ha') (kth_smallest_unique _ _ _ _ Hb Hb')).
    apply float_eq_refl.
  - destruct H1 as [a [Ha ->]]. destruct H2 as [a' [Ha' ->]].
    apply (kth_smallest_perm l l' _ _ Hp) in Ha.
    exact (kth_smallest_unique _ _ _ _ Ha Ha').
Qed.

End AggregatorFacts.

Module AggregatorProperties.
Import PyFloat Float64 PyDatetime Aggregator AggregatorSpec Float64Spec Samples.
Import Float64Facts AggregatorFacts.

(** C7. For every data frame and window, [create_weekly_chart] returns the
    empty marker [(None, None)] exactly when no row falls in the window;
    being a total function it raises nothing, and no mean of an empty
    series is ever taken. *)
Theorem empty_week_gives_no_stats `{SeriesRoutines} (df : DataFrame) (week_start week_end : aware)
    (week_number : Z) (show_average show_median : bool) :
  create_weekly_chart df week_start week_end week_number show_average show_median = None
  <-> filter (in_week week_start week_end) df = [].
Proof.
  unfold create_weekly_chart.
  destruct (filter (in_week week_start week_end) df) as [|r l]; cbn [List.length Nat.eqb].
  - split; reflexivity.
  - split; discriminate.
Qed.




End AggregatorProperties.

(* ===================================================================== *)
(** * The functions at sample inputs                                      *)
(* ===================================================================== *)

Module WindowerExamples.
Import Calendar PyDatetime Pytz Windower WindowerSpec Aggregator Samples DatetimeFacts WindowerFacts WindowerProperties.

Lemma mid_january_valid : valid_naive mid_january.
Proof. repeat split; vm_compute; easy. Defined.

Lemma mid_january_representable : representable mid_january 5.
Proof. split; vm_compute; easy. Defined.

(** C3, at the failing input [get_week_boundaries(datetime(2025, 1, 15,
    12, 0), 1)]. Window 1 starts at the fields 2025-01-12 00:00:00, a
    Sunday, but with the offset -5:51 of the bare zone object, while
    standard time, -6:00, is in force in Chicago at that instant: converted
    to Chicago time the way [convert_to_chicago_time] converts, the start
    reads Saturday 2025-01-11 23:51:00, nine minutes before the local
    midnight of Sunday. An observation of Saturday 23:55:00, Chicago time
    (1736661300000 ms), is thereby counted in the week that starts on
    Sunday the 12th. *)
Theorem window1_start_is_chicago_saturday `{PyText.TextRoutines} :
  exists s e : aware,
    get_week_boundaries America_Chicago mid_january 1 = Some [(s, e)]
    /\ fields s = mk_datetime 2025 1 12 0 0 0 0
    /\ utcoffset s = LMT
    /\ utcoffset_at America_Chicago (instant s) = CST
    /\ astimezone s America_Chicago
       = Some {| fields := mk_datetime 2025 1 11 23 51 0 0; utcoffset := CST |}
    /\ weekday_of_ordinal (ymd2ord 2025 1 11) = 5
    /\ instant s
       = instant {| fields := mk_datetime 2025 1 12 0 0 0 0; utcoffset := CST |}
         - timedelta 0 0 0 9 0 0
    /\ Normalizer.convert_to_chicago_time America_Chicago "1736661300000"
       = Some {| fields := mk_datetime 2025 1 11 23 55 0 0; utcoffset := CST |}
    /\ in_week s e
         (mkRow {| fields := mk_datetime 2025 1 11 23 55 0 0; utcoffset := CST |} 3)
       = true.
Proof.
  exists {| fields := mk_datetime 2025 1 12 0 0 0 0; utcoffset := LMT |},
         {| fields := mk_datetime 2025 1 18 23 59 59 999999; utcoffset := LMT |}.
  repeat split; vm_compute; reflexivity.
Qed.

(** In summer the same start is 51 minutes after the local midnight: from
    Wednesday 2025-07-30, window 1 starts at 2025-07-27 00:51:00, daylight
    time. *)
Lemma window1_start_in_summer :
  get_week_boundaries America_Chicago (mk_datetime 2025 7 30 12 0 0 0) 1
  = Some [({| fields := mk_datetime 2025 7 27 0 0 0 0; utcoffset := LMT |},
           {| fields := mk_datetime 2025 8 2 23 59 59 999999; utcoffset := LMT |})]
  /\ astimezone {| fields := mk_datetime 2025 7 27 0 0 0 0; utcoffset := LMT |} America_Chicago
     = Some {| fields := mk_datetime 2025 7 27 0 51 0 0; utcoffset := CDT |}.
Proof. split; vm_compute; reflexivity. Qed.

Lemma week_windows_shape_witness :
  valid_naive mid_january /\ 1 <= 5 /\ representable mid_january 5
  /\ exists ws, get_week_boundaries America_Chicago mid_january 5 = Some ws
                /\ Z.of_nat (List.length ws) = 5.
Proof.
  split; [exact mid_january_valid|]. split; [lia|].
  split; [exact mid_january_representable|].
  destruct (week_windows_shape America_Chicago mid_january 5
              mid_january_valid ltac:(lia) mid_january_representable)
    as [ws [Hws [Hlen _]]].
  exists ws. split; assumption.
Defined.

Lemma five_weeks_returned :
  get_week_boundaries America_Chicago mid_january 5 = Some five_weeks.
Proof. vm_compute. reflexivity. Defined.

Lemma week_windows_fixed_offset_witness :
  valid_naive mid_january /\ 1 <= 5
  /\ get_week_boundaries America_Chicago mid_january 5 = Some five_weeks
  /\ (forall s e, In (s, e) five_weeks ->
        instant e - instant s = timedelta 0 6 23 59 59 999999).
Proof.
  split; [exact mid_january_valid|]. split; [lia|].
  split; [exact five_weeks_returned|].
  exact (proj2 (proj2 (proj2 (week_windows_fixed_offset America_Chicago mid_january 5
                                mid_january_valid ltac:(lia))
                             five_weeks five_weeks_returned))).
Defined.

Lemma window_membership_witness :
  valid_naive mid_january /\ 1 <= 5
  /\ get_week_boundaries America_Chicago mid_january 5 = Some five_weeks
  /\ nth_error five_weeks 0 = Some (window (sunday_ordinal mid_january) LMT 0)
  /\ instant (Time last_instant_row)
     = instant (snd (window (sunday_ordinal mid_january) LMT 0))
  /\ (forall R : SeriesRoutines,
        (forall i s e r, nth_error five_weeks i = Some (s, e) ->
           instant (Time r) = instant s \/ instant (Time r) = instant e ->
           in_week s e r = true)
        /\ create_weekly_chart [last_instant_row]
             (fst (window (sunday_ordinal mid_january) LMT 0))
             (snd (window (sunday_ordinal mid_january) LMT 0)) 1 true false
           = Some {| avg_price := series_mean [7%Q]; median_price := PyFloat.Finite 7;
                     min_price := 7; max_price := 7; total_points := 1 |}).
Proof.
  split; [exact mid_january_valid|]. split; [lia|].
  split; [exact five_weeks_returned|].
  split; [reflexivity|]. split; [reflexivity|].
  intros R.
  pose proof (proj2 (window_membership America_Chicago mid_january 5
                       mid_january_valid ltac:(lia))
                    five_weeks five_weeks_returned) as [Hends [_ [Hrow _]]].
  split; [exact Hends|].
  exact (proj2 (Hrow 0%nat _ _ last_instant_row [] 1 true false eq_refl eq_refl)).
Defined.

(** Monday 0001-01-01: the Sunday before it is no date of [datetime]. And
    200000 weeks back from January 2025 lead before year 1. In both cases
    the function raises instead of returning windows. *)
Lemma first_monday_overflows :
  valid_naive (mk_datetime 1 1 1 12 0 0 0)
  /\ get_week_boundaries America_Chicago (mk_datetime 1 1 1 12 0 0 0) 1 = None
  /\ get_week_boundaries America_Chicago mid_january 200000 = None.
Proof.
  split; [repeat split; vm_compute; easy|].
  split; [vm_compute; reflexivity|].
  apply get_week_boundaries_overflow; [exact mid_january_valid | lia |].
  intros [Hlow _]. vm_compute in Hlow. discriminate Hlow.
Qed.

End WindowerExamples.

Module ParserExamples.
Import PyDatetime Pytz PyFloat Json PyText Normalizer Parser ParserSpec Samples ParserFacts ParserProperties.

Lemma unordered_feed_parsed `{TextRoutines} :
  process_data_for_plotting America_Chicago unordered_feed
  = Some (Parsed unordered_feed_rows 3).
Proof. vm_compute. reflexivity. Defined.

Lemma parsed_rows_in_range_and_sorted_witness :
  exists rows : list row,
    rows = unordered_feed_rows
    /\ (forall L : TextRoutines,
          process_data_for_plotting America_Chicago unordered_feed = Some (Parsed rows 3)
          /\ Forall price_in_range rows
          /\ StronglySorted instant_le rows).
Proof.
  exists unordered_feed_rows. split; [reflexivity|]. intros L.
  split; [exact unordered_feed_parsed|].
  pose proof (parsed_rows_in_range_and_sorted America_Chicago unordered_feed
                unordered_feed_rows 3 unordered_feed_parsed) as [Hr [Hs _]].
  split; assumption.
Defined.

Lemma falsy_timestamp_skipped_witness :
  Json.truthy (find_timestamp ts_fields
                 [("millisUTC"%string, JInt 0); ("price"%string, JFloat (Finite (7 # 2)))])
  = false
  /\ (forall (L : TextRoutines) (tz : tzinfo),
        find_price price_fields
          [("millisUTC"%string, JInt 0); ("price"%string, JFloat (Finite (7 # 2)))]
        = Some (Some (Finite (7 # 2)))
        /\ extract tz zero_millis_item = Some None).
Proof.
  split; [reflexivity|]. intros L tz. split; [reflexivity|].
  exact (proj1 (falsy_timestamp_skipped tz
                  [("millisUTC"%string, JInt 0); ("price"%string, JFloat (Finite (7 # 2)))]
                  (Finite (7 # 2)) eq_refl eq_refl)).
Defined.

End ParserExamples.

(* ===================================================================== *)
(** * More on the week windower                                           *)
(* ===================================================================== *)

Module WindowerMore.
Import Calendar PyDatetime Pytz Windower WindowerSpec Aggregator DatetimeFacts WindowerFacts.

Section Zone.
Variable tz : tzinfo.

(** The function in two steps: the Sunday, then the loop. *)
Lemma get_week_boundaries_by_sunday (end_date : naive) (num_weeks : Z) :
  valid_naive end_date ->
  get_week_boundaries tz end_date num_weeks
  = if 0 <? sunday_ordinal end_date
    then mapM (week_pair {| fields := {| ordinal := sunday_ordinal end_date;
                                         usec_of_day := 0 |};
                            utcoffset := attached_utcoffset tz |})
              (range num_weeks)
    else None.
Proof.
  intros [Hord Hus].
  pose proof (days_since_sunday_range end_date) as Hd.
  unfold get_week_boundaries.
  change (weekday (replace_tzinfo end_date tz) - 6)
    with (weekday_of_ordinal (ordinal end_date) - 6).
  fold (days_since_sunday end_date).
  destruct (Z.ltb_spec 0 (sunday_ordinal end_date)) as [Hpos|Hneg];
    destruct (Z.eqb_spec (days_since_sunday end_date) 0) as [E|E].
  - cbn [bind]. unfold replace_time, replace_tzinfo, sunday_ordinal.
    cbn [fields ordinal usec_of_day utcoffset]. rewrite E, Z.sub_0_r. reflexivity.
  - unfold sub.
    replace (- timedelta_days (days_since_sunday end_date))
      with ((- days_since_sunday end_date) * US_PER_DAY + 0)
      by (unfold timedelta_days, timedelta, US_PER_DAY, US_PER_SECOND; ring).
    rewrite add_days; unfold replace_tzinfo; cbn [fields ordinal usec_of_day utcoffset].
    + cbn [bind]. unfold replace_time, sunday_ordinal.
      cbn [fields ordinal usec_of_day utcoffset]. reflexivity.
    + lia.
    + unfold sunday_ordinal in Hpos. lia.
  - unfold sunday_ordinal in Hneg. lia.
  - unfold sub.
    replace (- timedelta_days (days_since_sunday end_date))
      with ((- days_since_sunday end_date) * US_PER_DAY + 0)
      by (unfold timedelta_days, timedelta, US_PER_DAY, US_PER_SECOND; ring).
    rewrite add_overflow; [reflexivity| |];
      unfold replace_tzinfo; cbn [fields ordinal usec_of_day].
    + lia.
    + left. unfold sunday_ordinal in Hneg. lia.
Qed.

(** X1. The moment passed in, with the zone attached the way the function
    attaches it, lies in the first window returned, both bounds
    included: a row stamped with it is selected for window 1. *)
Theorem current_week_contains_now (now : naive) (N : Z) :
  valid_naive now -> 1 <= N -> representable now N ->
  exists ws s e,
    get_week_boundaries tz now N = Some ws
    /\ nth_error ws 0 = Some (s, e)
    /\ instant s <= instant (replace_tzinfo now tz) <= instant e
    /\ (forall price, in_week s e (mkRow (replace_tzinfo now tz) price) = true).
Proof.
  intros Hv HN Hrep.
  rewrite (get_week_boundaries_closed tz now N Hv HN Hrep).
  pose proof (days_since_sunday_range now) as Hd.
  destruct Hv as [Hord Hus].
  assert (Hin : instant (fst (window (sunday_ordinal now) (attached_utcoffset tz) 0))
                <= instant (replace_tzinfo now tz)
                <= instant (snd (window (sunday_ordinal now) (attached_utcoffset tz) 0))).
  { unfold window, instant, replace_tzinfo, sunday_ordinal, US_PER_DAY, US_PER_SECOND in *.
    cbn [fst snd fields ordinal usec_of_day utcoffset]. lia. }
  eexists _, _, _. split; [reflexivity|]. split.
  - rewrite nth_error_map, range_nth_error by lia. cbn [option_map].
    change (Z.of_nat 0) with 0. unfold window. reflexivity.
  - split; [exact Hin|]. intros price. unfold in_week, leb. cbn [Time].
    apply andb_true_iff. rewrite !Z.leb_le. exact Hin.
Qed.

(** X2. The windows depend on the week of [end_date] only: two moments
    whose most recent Sunday is the same day give the same result,
    whatever their time of day, and the same error when there is one. *)
Theorem same_week_same_windows (now now' : naive) (N : Z) :
  valid_naive now -> valid_naive now' ->
  sunday_ordinal now = sunday_ordinal now' ->
  get_week_boundaries tz now N = get_week_boundaries tz now' N.
Proof.
  intros Hv Hv' Hs.
  rewrite !get_week_boundaries_by_sunday by assumption. now rewrite Hs.
Qed.

Lemma representable_fewer (now : naive) (N M : Z) :
  N <= M -> representable now M -> representable now N.
Proof. unfold representable. lia. Qed.

Lemma range_firstn (N M : Z) :
  0 <= N <= M -> firstn (Z.to_nat N) (range M) = range N.
Proof.
  intros H. unfold range. rewrite firstn_map. f_equal.
  replace (Z.to_nat M) with (Z.to_nat N + (Z.to_nat M - Z.to_nat N))%nat by lia.
  rewrite seq_app, firstn_app, length_seq, Nat.sub_diag, firstn_0, app_nil_r.
  apply firstn_all2. rewrite length_seq. lia.
Qed.

(** X3. Asking for more weeks adds older windows and changes none: the
    result for [N] weeks is the first [N] pairs of the result for
    [M >= N] weeks. *)
Theorem more_weeks_extend_the_list (now : naive) (N M : Z) :
  valid_naive now -> 1 <= N <= M -> representable now M ->
  exists ws,
    get_week_boundaries tz now M = Some ws
    /\ get_week_boundaries tz now N = Some (firstn (Z.to_nat N) ws).
Proof.
  intros Hv HN Hrep.
  rewrite (get_week_boundaries_closed tz now M Hv ltac:(lia) Hrep).
  rewrite (get_week_boundaries_closed tz now N Hv ltac:(lia)
             (representable_fewer now N M ltac:(lia) Hrep)).
  eexists. split; [reflexivity|].
  rewrite firstn_map, range_firstn by lia. reflexivity.
Qed.

End Zone.
End WindowerMore.

Module WindowerMoreExamples.
Import Calendar PyDatetime Pytz Windower WindowerSpec Aggregator Samples DashboardSamples.
Import WindowerExamples WindowerMore.

Lemma monday_morning_valid : valid_naive monday_morning.
Proof. repeat split; vm_compute; easy. Defined.

Lemma current_week_contains_now_witness :
  valid_naive mid_january /\ 1 <= 5 /\ representable mid_january 5
  /\ exists ws s e,
       get_week_boundaries America_Chicago mid_january 5 = Some ws
       /\ nth_error ws 0 = Some (s, e)
       /\ instant s <= instant (replace_tzinfo mid_january America_Chicago) <= instant e.
Proof.
  split; [exact mid_january_valid|]. split; [lia|].
  split; [exact mid_january_representable|].
  destruct (current_week_contains_now America_Chicago mid_january 5
              mid_january_valid ltac:(lia) mid_january_representable)
    as [ws [s [e [Hws [Hnth [Hin _]]]]]].
  exists ws, s, e. split; [assumption|]. split; assumption.
Defined.

Lemma same_week_same_windows_witness :
  valid_naive mid_january /\ valid_naive monday_morning
  /\ sunday_ordinal mid_january = sunday_ordinal monday_morning
  /\ get_week_boundaries America_Chicago mid_january 5
     = get_week_boundaries America_Chicago monday_morning 5.
Proof.
  split; [exact mid_january_valid|]. split; [exact monday_morning_valid|].
  split; [reflexivity|].
  exact (same_week_same_windows America_Chicago mid_january monday_morning 5
           mid_january_valid monday_morning_valid eq_refl).
Defined.

Lemma more_weeks_extend_the_list_witness :
  valid_naive mid_january /\ 1 <= 2 <= 5 /\ representable mid_january 5
  /\ exists ws,
       get_week_boundaries America_Chicago mid_january 5 = Some ws
       /\ get_week_boundaries America_Chicago mid_january 2 = Some (firstn 2 ws).
Proof.
  split; [exact mid_january_valid|]. split; [lia|].
  split; [exact mid_january_representable|].
  exact (more_weeks_extend_the_list America_Chicago mid_january 2 5
           mid_january_valid ltac:(lia) mid_january_representable).
Defined.

End WindowerMoreExamples.

(* ===================================================================== *)
(** * More on the weekly statistics                                       *)
(* ===================================================================== *)

Module AggregatorOrder.
Import PyFloat Float64 PyDatetime Aggregator AggregatorSpec Float64Spec DashboardSpec.
Import Float64Facts SeriesFacts AggregatorFacts.

Section Routines.
Context `{Routines : SeriesRoutines}.

Lemma series_min_perm (l l' : list Q) :
  l <> [] -> Permutation l l' -> (series_min l == series_min l')%Q.
Proof.
  intros Hne Hp.
  assert (Hne' : l' <> []).
  { intros ->. apply Permutation_sym, Permutation_nil in Hp. congruence. }
  destruct (series_min_spec l Hne) as [Hin Hall].
  destruct (series_min_spec l' Hne') as [Hin' Hall'].
  rewrite Forall_forall in Hall, Hall'.
  apply Qle_antisym.
  - apply Hall. eapply Permutation_in; [apply Permutation_sym|]; eassumption.
  - apply Hall'. eapply Permutation_in; eassumption.
Qed.

Lemma series_max_perm (l l' : list Q) :
  l <> [] -> Permutation l l' -> (series_max l == series_max l')%Q.
Proof.
  intros Hne Hp.
  assert (Hne' : l' <> []).
  { intros ->. apply Permutation_sym, Permutation_nil in Hp. congruence. }
  destruct (series_max_spec l Hne) as [Hin Hall].
  destruct (series_max_spec l' Hne') as [Hin' Hall'].
  rewrite Forall_forall in Hall, Hall'.
  apply Qle_antisym.
  - apply Hall'. eapply Permutation_in; eassumption.
  - apply Hall. eapply Permutation_in; [apply Permutation_sym|]; eassumption.
Qed.

(** X4. The statistics returned for a week are those of its rows: the
    count is the number of rows in the window and is at least 1, the
    minimum and the maximum are prices of rows in the window, every price
    in the window lies between them, and so does the median when the
    prices are floats below [2 ^ 1023] in magnitude, the range in which
    the sum of two of them cannot overflow. *)
Theorem weekly_stats_bounds (df : DataFrame) (week_start week_end : aware)
    (week_number : Z) (show_average show_median : bool) (st : stats) :
  create_weekly_chart df week_start week_end week_number show_average show_median = Some st ->
  total_points st = List.length (filter (in_week week_start week_end) df)
  /\ (1 <= total_points st)%nat
  /\ (exists r, In r df /\ in_week week_start week_end r = true /\ Price r = min_price st)
  /\ (exists r, In r df /\ in_week week_start week_end r = true /\ Price r = max_price st)
  /\ (forall r, In r df -> in_week week_start week_end r = true ->
        (min_price st <= Price r <= max_price st)%Q)
  /\ (Forall (binary64_below 1023) (map Price (filter (in_week week_start week_end) df)) ->
      exists m, median_price st = Finite m /\ (min_price st <= m <= max_price st)%Q).
Proof.
  unfold create_weekly_chart.
  set (week_data := filter (in_week week_start week_end) df).
  destruct (Nat.eqb_spec (List.length week_data) 0) as [E|E]; [discriminate|].
  intros [= <-]. cbn [total_points min_price max_price avg_price median_price].
  assert (Hne : map Price week_data <> []).
  { destruct week_data; [contradiction | discriminate]. }
  destruct (series_min_spec _ Hne) as [Hmin_in Hmin].
  destruct (series_max_spec _ Hne) as [Hmax_in Hmax].
  assert (Hall : Forall (fun y => (series_min (map Price week_data) <= y
                                   <= series_max (map Price week_data))%Q)
                        (map Price week_data)).
  { rewrite Forall_forall in *. intros y Hy. split; [now apply Hmin | now apply Hmax]. }
  split; [reflexivity|]. split; [lia|].
  split; [|split; [|split]].
  - apply in_map_iff in Hmin_in. destruct Hmin_in as [r [Hr Hin]].
    apply filter_In in Hin. exists r. tauto.
  - apply in_map_iff in Hmax_in. destruct Hmax_in as [r [Hr Hin]].
    apply filter_In in Hin. exists r. tauto.
  - intros r Hr Hw. rewrite Forall_forall in Hall. apply Hall.
    apply in_map. apply filter_In. tauto.
  - intros Hfl. rewrite Forall_forall in Hfl.
    pose proof (Hfl _ Hmin_in) as Hlo. pose proof (Hfl _ Hmax_in) as Hhi.
    apply series_median_between; try assumption;
      try (now apply binary64_double); now apply (binary64_weaken 1023 1024).
Qed.

(** X5. The order of the rows does not matter, nor do the week number and
    the two line flags: two frames with the same rows in the window, in
    any order, get the same count, minimum, maximum and median. *)
Theorem weekly_stats_order_free (df df' : DataFrame) (week_start week_end : aware)
    (week_number week_number' : Z) (show_average show_median show_average' show_median' : bool)
    (st : stats) :
  Permutation (filter (in_week week_start week_end) df)
              (filter (in_week week_start week_end) df') ->
  create_weekly_chart df week_start week_end week_number show_average show_median = Some st ->
  exists st',
    create_weekly_chart df' week_start week_end week_number' show_average' show_median'
    = Some st'
    /\ same_order_stats st st'.
Proof.
  intros Hp. unfold create_weekly_chart.
  pose proof (Permutation_length Hp) as Hlen.
  pose proof (Permutation_map Price Hp) as Hprices.
  destruct (Nat.eqb_spec (List.length (filter (in_week week_start week_end) df)) 0) as [E|E];
    [discriminate|].
  intros [= <-].
  destruct (Nat.eqb_spec (List.length (filter (in_week week_start week_end) df')) 0) as [E'|E'];
    [lia|].
  eexists. split; [reflexivity|].
  assert (Hne : map Price (filter (in_week week_start week_end) df) <> []).
  { destruct (filter (in_week week_start week_end) df); [contradiction | discriminate]. }
  unfold same_order_stats. cbn [total_points min_price max_price median_price].
  split; [now apply series_median_perm|].
  split; [now apply series_min_perm|].
  split; [now apply series_max_perm | exact Hlen].
Qed.

End Routines.

End AggregatorOrder.

Module AggregatorMoreExamples.
Import PyFloat PyDatetime Aggregator AggregatorSpec Float64Spec DashboardSpec.
Import Samples DashboardSamples Float64Facts AggregatorOrder.

Lemma even_frame_prices_are_floats :
  Forall (binary64_below 1023)
         (map Price (filter (in_week (at_second 0) (at_second 9)) even_frame)).
Proof.
  repeat constructor; apply (binary64_int 1023); try lia; vm_compute; reflexivity.
Qed.

(** Two prices of 2^1023 are floats, and their sum is not: the median of
    the pair is [inf], above the maximum. *)
Lemma huge_prices_median_overflows :
  series_median [inject_Z (2 ^ 1023); inject_Z (2 ^ 1023)] = PosInf
  /\ series_max [inject_Z (2 ^ 1023); inject_Z (2 ^ 1023)] = inject_Z (2 ^ 1023).
Proof. split; vm_compute; reflexivity. Qed.

Lemma weekly_stats_bounds_witness :
  Forall (binary64_below 1023)
         (map Price (filter (in_week (at_second 0) (at_second 9)) even_frame))
  /\ (forall R : SeriesRoutines,
        exists st,
          create_weekly_chart even_frame (at_second 0) (at_second 9) 1 true false = Some st
          /\ total_points st = 4%nat
          /\ exists m, median_price st = Finite m /\ (min_price st <= m <= max_price st)%Q).
Proof.
  split; [exact even_frame_prices_are_floats|]. intros R.
  eexists. split; [reflexivity|].
  pose proof (weekly_stats_bounds even_frame (at_second 0) (at_second 9) 1 true false
                _ eq_refl) as [Hn [_ [_ [_ [_ Hmed]]]]].
  split; [exact Hn | exact (Hmed even_frame_prices_are_floats)].
Defined.

Lemma weekly_stats_order_free_witness :
  Permutation (filter (in_week (at_second 0) (at_second 9)) even_frame)
              (filter (in_week (at_second 0) (at_second 9)) swapped_frame)
  /\ (forall R : SeriesRoutines,
        exists st st',
          create_weekly_chart even_frame (at_second 0) (at_second 9) 1 true false = Some st
          /\ create_weekly_chart swapped_frame (at_second 0) (at_second 9) 2 false true
             = Some st'
          /\ same_order_stats st st').
Proof.
  assert (Hp : Permutation (filter (in_week (at_second 0) (at_second 9)) even_frame)
                           (filter (in_week (at_second 0) (at_second 9)) swapped_frame))
    by apply perm_swap.
  split; [exact Hp|]. intros R.
  destruct (weekly_stats_order_free even_frame swapped_frame (at_second 0) (at_second 9)
              1 2 true false false true _ Hp eq_refl) as [st' [Hst' Hsame]].
  eexists _, st'. split; [reflexivity|]. split; [exact Hst' | exact Hsame].
Defined.

End AggregatorMoreExamples.

(* ===================================================================== *)
(** * The weekly comparison of [main]                                     *)
(* ===================================================================== *)

Module WeeklyFacts.
Import Calendar PyDatetime Pytz Windower WindowerSpec Aggregator DashboardSpec DatetimeFacts WindowerFacts.

Lemma sum_nat_cons (x : nat) (l : list nat) : sum_nat (x :: l) = (x + sum_nat l)%nat.
Proof. reflexivity. Qed.

Lemma data_points_sum `{SeriesRoutines} (i : nat) (df : DataFrame) (ws : list (aware * aware)) :
  sum_nat (map Dashboard.data_points (Dashboard.weekly_stats_from i df ws))
  = sum_nat (map (fun w => List.length (filter (in_week (fst w) (snd w)) df)) ws).
Proof.
  revert i. induction ws as [|[s e] ws IH]; intros i; cbn [Dashboard.weekly_stats_from map].
  - reflexivity.
  - rewrite sum_nat_cons. cbn [fst snd]. rewrite <- (IH (S i)).
    destruct (Nat.ltb_spec 0 (List.length (filter (in_week s e) df))) as [Hpos|Hzero];
      cbn [app map]; [rewrite sum_nat_cons; cbn [Dashboard.data_points]|]; lia.
Qed.

Lemma entries_count `{SeriesRoutines} (i : nat) (df : DataFrame) (ws : list (aware * aware)) :
  (List.length (Dashboard.weekly_stats_from i df ws) <= List.length ws)%nat
  /\ Forall (fun w => (1 <= Dashboard.data_points w)%nat)
            (Dashboard.weekly_stats_from i df ws).
Proof.
  revert i. induction ws as [|[s e] ws IH]; intros i; cbn [Dashboard.weekly_stats_from].
  - split; [cbn; lia | constructor].
  - destruct (IH (S i)) as [Hlen Hall]. rewrite length_app.
    destruct (Nat.ltb_spec 0 (List.length (filter (in_week s e) df))) as [Hpos|Hzero];
      cbn [List.length app].
    + split; [lia|]. constructor; [cbn [Dashboard.data_points]; lia | assumption].
    + split; [lia | assumption].
Qed.

Lemma count_step (r : row) (df : DataFrame) (ws : list (aware * aware)) :
  sum_nat (map (fun w => List.length (filter (in_week (fst w) (snd w)) (r :: df))) ws)
  = (List.length (filter (in_pair r) ws)
     + sum_nat (map (fun w => List.length (filter (in_week (fst w) (snd w)) df)) ws))%nat.
Proof.
  induction ws as [|w ws IH]; [reflexivity|].
  rewrite !map_cons, !sum_nat_cons, IH. cbn [filter].
  change (in_pair r w) with (in_week (fst w) (snd w) r).
  destruct (in_week (fst w) (snd w) r); cbn [List.length]; lia.
Qed.

(** Counting the rows of each window is counting the windows of each row. *)
Lemma count_both_ways (df : DataFrame) (ws : list (aware * aware)) :
  sum_nat (map (fun w => List.length (filter (in_week (fst w) (snd w)) df)) ws)
  = sum_nat (map (fun r => List.length (filter (in_pair r) ws)) df).
Proof.
  induction df as [|r df IH].
  - induction ws as [|w ws IHw]; [reflexivity|].
    rewrite map_cons, sum_nat_cons, IHw. reflexivity.
  - rewrite count_step, map_cons, sum_nat_cons, IH. reflexivity.
Qed.

(** A row is in one window when it is in the range they cover, in none
    otherwise. *)
Lemma windows_containing (sunday off : Z) (r : row) (n : nat) :
  List.length (filter (in_pair r) (map (window sunday off) (map Z.of_nat (seq 0 n))))
  = if (1 <=? Z.of_nat n)
       && (instant (fst (window sunday off (Z.of_nat n - 1))) <=? instant (Time r))
       && (instant (Time r) <=? instant (snd (window sunday off 0)))
    then 1%nat else 0%nat.
Proof.
  induction n as [|n IH].
  - reflexivity.
  - rewrite seq_S, !map_app, filter_app, length_app, IH. clear IH.
    cbn [map filter Nat.add].
    change (in_pair r (window sunday off (Z.of_nat n)))
      with (in_week (fst (window sunday off (Z.of_nat n)))
                    (snd (window sunday off (Z.of_nat n))) r).
    unfold in_week, leb.
    rewrite !instant_window_end, !instant_window_start.
    replace (Z.of_nat (S n) - 1) with (Z.of_nat n) by lia.
    set (t := instant (Time r)).
    set (B := (sunday - EPOCH_ORDINAL) * US_PER_DAY - off * US_PER_SECOND).
    unfold US_PER_DAY, US_PER_SECOND.
    destruct (Z.leb_spec 1 (Z.of_nat n)); destruct (Z.leb_spec 1 (Z.of_nat (S n)));
      destruct (Z.leb_spec (B - 7 * (Z.of_nat n - 1) * (86400 * 1000000)) t);
      destruct (Z.leb_spec (B - 7 * Z.of_nat n * (86400 * 1000000)) t);
      destruct (Z.leb_spec t (B - 7 * 0 * (86400 * 1000000) + 7 * (86400 * 1000000) - 1));
      destruct (Z.leb_spec t (B - 7 * Z.of_nat n * (86400 * 1000000)
                              + 7 * (86400 * 1000000) - 1));
      cbn [andb List.length Nat.add]; lia.
Qed.

Lemma indicator_sum (p : row -> bool) (df : DataFrame) :
  sum_nat (map (fun r => if p r then 1%nat else 0%nat) df) = List.length (filter p df).
Proof.
  induction df as [|r df IH]; [reflexivity|].
  rewrite map_cons, sum_nat_cons, IH. cbn [filter].
  destruct (p r); cbn [List.length]; lia.
Qed.

End WeeklyFacts.

Module WeeklyProperties.
Import Calendar PyDatetime Pytz Windower WindowerSpec Aggregator DashboardSpec DatetimeFacts WindowerFacts WeeklyFacts.

Section Zone.
Context `{Routines : SeriesRoutines}.
Variable tz : tzinfo.

(** X6. In the weekly comparison built by [main] every row is counted in
    one week at most: the [data_points] of the entries add up to the
    number of rows between the start of the oldest window and the end of
    the newest one, which is at most the number of rows of the frame.
    There are at most [num_weeks] entries, and none has 0 points. *)
Theorem weekly_points_partition (now : naive) (N : Z) (df : DataFrame)
    (ws : list (aware * aware)) (s0 e0 sN eN : aware) :
  valid_naive now -> 1 <= N ->
  get_week_boundaries tz now N = Some ws ->
  nth_error ws 0 = Some (s0, e0) ->
  nth_error ws (Z.to_nat (N - 1)) = Some (sN, eN) ->
  sum_nat (map Dashboard.data_points (Dashboard.weekly_stats df ws))
  = List.length (filter (in_week sN e0) df)
  /\ (sum_nat (map Dashboard.data_points (Dashboard.weekly_stats df ws)) <= List.length df)%nat
  /\ (List.length (Dashboard.weekly_stats df ws) <= Z.to_nat N)%nat
  /\ Forall (fun w => (1 <= Dashboard.data_points w)%nat) (Dashboard.weekly_stats df ws).
Proof.
  intros Hv HN Hws H0 HlastN.
  destruct (get_week_boundaries_returns tz now N ws Hv HN Hws) as [_ ->].
  apply window_nth in H0. destruct H0 as [_ H0].
  apply window_nth in HlastN. destruct HlastN as [_ HlastN].
  rewrite Z2Nat.id in HlastN by lia. change (Z.of_nat 0) with 0 in H0.
  assert (Hsum : sum_nat (map Dashboard.data_points
                   (Dashboard.weekly_stats df
                      (map (window (sunday_ordinal now) (attached_utcoffset tz)) (range N))))
                 = List.length (filter (in_week sN e0) df)).
  { unfold Dashboard.weekly_stats. rewrite data_points_sum, count_both_ways.
    rewrite <- (indicator_sum (in_week sN e0) df). f_equal. apply map_ext. intros r.
    unfold range. rewrite windows_containing.
    rewrite Z2Nat.id by lia.
    replace (1 <=? N) with true by (symmetry; apply Z.leb_le; lia). cbn [andb].
    apply pair_equal_spec in H0. destruct H0 as [_ ->].
    apply pair_equal_spec in HlastN. destruct HlastN as [-> _].
    unfold in_week, leb. reflexivity. }
  split; [exact Hsum|]. split.
  - rewrite Hsum. apply filter_length_le.
  - destruct (entries_count 0 df
                (map (window (sunday_ordinal now) (attached_utcoffset tz)) (range N)))
      as [Hlen Hall].
    split; [|exact Hall].
    unfold Dashboard.weekly_stats. rewrite length_map, range_length in Hlen. exact Hlen.
Qed.

End Zone.
End WeeklyProperties.

Module WeeklyExamples.
Import Calendar PyDatetime Pytz Windower WindowerSpec Aggregator DashboardSpec.
Import Samples DashboardSamples WindowerExamples WeeklyProperties.

Lemma weekly_points_partition_witness :
  valid_naive mid_january /\ 1 <= 5
  /\ get_week_boundaries America_Chicago mid_january 5 = Some five_weeks
  /\ nth_error five_weeks 0 = Some (window (sunday_ordinal mid_january) LMT 0)
  /\ nth_error five_weeks 4 = Some (window (sunday_ordinal mid_january) LMT 4)
  /\ (forall R : SeriesRoutines,
        sum_nat (map Dashboard.data_points (Dashboard.weekly_stats january_frame five_weeks))
        = 3%nat
        /\ List.length (Dashboard.weekly_stats january_frame five_weeks) = 2%nat).
Proof.
  split; [exact mid_january_valid|]. split; [lia|].
  split; [exact five_weeks_returned|].
  split; [reflexivity|]. split; [reflexivity|].
  intros R. split; [|reflexivity].
  exact (eq_trans
           (proj1 (weekly_points_partition America_Chicago mid_january 5 january_frame
                     five_weeks
                     (fst (window (sunday_ordinal mid_january) LMT 0))
                     (snd (window (sunday_ordinal mid_january) LMT 0))
                     (fst (window (sunday_ordinal mid_january) LMT 4))
                     (snd (window (sunday_ordinal mid_january) LMT 4))
                     mid_january_valid ltac:(lia) five_weeks_returned eq_refl eq_refl))
           eq_refl).
Defined.

End WeeklyExamples.

(* ===================================================================== *)
(** * More on the feed parser                                             *)
(* ===================================================================== *)

Module ParserMore.
Import PyDatetime Pytz PyFloat Json PyText Normalizer Parser ParserSpec DashboardSpec ParserFacts.

(** ** The order of the tuples *)

Lemma row_ltb_true_le (a b : row) :
  price_in_range a -> price_in_range b -> row_ltb a b = true -> row_le a b.
Proof.
  intros [p [Ha _]] [q [Hb _]]. unfold row_ltb, row_le, PyDatetime.ltb.
  rewrite Ha, Hb.
  destruct (Z.eqb_spec (instant (fst a)) (instant (fst b))) as [E|E]; cbn [negb].
  - unfold PyFloat.ltb. cbn [PyFloat.eqb PyFloat.leb].
    destruct (Qeq_bool p q); cbn [negb]; [discriminate|].
    rewrite andb_true_r. intros Hle. apply Qle_bool_iff in Hle.
    right. split; [assumption|]. exists p, q. auto.
  - intros Hlt. apply Z.ltb_lt in Hlt. now left.
Qed.

Lemma row_ltb_false_le (a b : row) :
  price_in_range a -> price_in_range b -> row_ltb a b = false -> row_le b a.
Proof.
  intros [p [Ha _]] [q [Hb _]]. unfold row_ltb, row_le, PyDatetime.ltb.
  rewrite Ha, Hb.
  destruct (Z.eqb_spec (instant (fst a)) (instant (fst b))) as [E|E]; cbn [negb].
  - unfold PyFloat.ltb. cbn [PyFloat.eqb PyFloat.leb].
    intros Hlt. right. split; [congruence|]. exists q, p.
    split; [reflexivity|]. split; [reflexivity|].
    destruct (Qeq_bool p q) eqn:Eq; cbn [negb] in Hlt.
    + apply Qeq_bool_iff in Eq. rewrite Eq. apply Qle_refl.
    + rewrite andb_true_r in Hlt. apply Qlt_le_weak, Qnot_le_lt.
      intros Hc. apply Qle_bool_iff in Hc. congruence.
  - intros Hlt. apply Z.ltb_ge in Hlt. left. lia.
Qed.

Lemma row_le_trans (a b c : row) : row_le a b -> row_le b c -> row_le a c.
Proof.
  unfold row_le.
  intros [Hab|[Hab [p [q [Hp [Hq Hpq]]]]]] [Hbc|[Hbc [q' [r [Hq' [Hr Hqr]]]]]].
  - left. lia.
  - left. lia.
  - left. lia.
  - right. split; [lia|]. exists p, r. split; [assumption|]. split; [assumption|].
    rewrite Hq in Hq'. injection Hq' as <-. eapply Qle_trans; eassumption.
Qed.

Lemma insert_lex (x : row) (l : list row) :
  price_in_range x -> Forall price_in_range l ->
  StronglySorted row_le l -> StronglySorted row_le (insert x l).
Proof.
  intros Hx Hl Hs. induction Hs as [|y l Hs IH Hy]; cbn [insert].
  - constructor; constructor.
  - inversion Hl as [|? ? Hyr Hlr]; subst.
    destruct (row_ltb y x) eqn:E.
    + constructor; [now apply IH|].
      apply (Permutation_Forall (insert_perm x l)).
      constructor; [now apply row_ltb_true_le | assumption].
    + apply (row_ltb_false_le _ _ Hyr Hx) in E.
      constructor; [now constructor|].
      constructor; [assumption|].
      eapply Forall_impl; [|exact Hy].
      intros z Hz. eapply row_le_trans; eassumption.
Qed.

Lemma sorted_lex (l : list row) :
  Forall price_in_range l -> StronglySorted row_le (sorted l).
Proof.
  induction 1 as [|x l Hx Hl IH]; cbn [sorted].
  - constructor.
  - apply insert_lex; [assumption | | assumption].
    now apply (Permutation_Forall (sorted_perm l)).
Qed.

Section Zone.
Context `{TextRoutines}.
Variable tz : tzinfo.

Lemma collect_length (items : list json) (rows : list row) :
  collect tz items = Some rows -> (List.length rows <= List.length items)%nat.
Proof.
  revert rows. induction items as [|item items IH]; cbn [collect]; intros rows.
  - intros [= <-]. cbn. lia.
  - destruct (extract tz item) as [r|]; cbn [bind]; [|discriminate].
    destruct (collect tz items) as [rs|]; cbn [bind]; [|discriminate].
    specialize (IH rs eq_refl).
    intros [= <-]. destruct r; cbn [List.length]; lia.
Qed.

Lemma collect_fails (items : list json) (item : json) :
  In item items -> extract tz item = None -> collect tz items = None.
Proof.
  induction items as [|i items IH]; cbn [collect In]; [contradiction|].
  intros [->|Hin] He.
  - now rewrite He.
  - destruct (extract tz i); cbn [bind]; [|reflexivity].
    now rewrite (IH Hin He).
Qed.

Lemma collect_perm (items items' : list json) :
  Permutation items items' ->
  match collect tz items, collect tz items' with
  | Some rows, Some rows' => Permutation rows rows'
  | None, None => True
  | _, _ => False
  end.
Proof.
  induction 1 as [|x l l' _ IH|x y l|l l' l'' _ IH1 _ IH2].
  - cbn. constructor.
  - cbn [collect]. destruct (extract tz x) as [[r|]|]; cbn [bind];
      destruct (collect tz l), (collect tz l'); cbn [bind]; try exact IH; try exact I.
    now constructor.
  - cbn [collect].
    destruct (extract tz x) as [[rx|]|], (extract tz y) as [[ry|]|]; cbn [bind];
      destruct (collect tz l); cbn [bind]; try exact I; try apply Permutation_refl.
    apply perm_swap.
  - destruct (collect tz l), (collect tz l'), (collect tz l''); try contradiction; try exact I.
    eapply perm_trans; eassumption.
Qed.

End Zone.
End ParserMore.

Module ParserOutcomes.
Import PyDatetime Pytz PyFloat Json PyText Normalizer Parser ParserSpec DashboardSpec ParserFacts.
Import ParserMore.

Section Zone.
Context `{TextRoutines}.
Variable tz : tzinfo.

Lemma items_nonempty (data : json) (items : list json) :
  Json.truthy data = true -> items_of data = Some items -> (1 <= List.length items)%nat.
Proof.
  unfold items_of. destruct data; try discriminate.
  - intros Ht [= <-]. destruct l; [discriminate|cbn; lia].
  - intros _. destruct (find_list container_keys d); intros [= <-]; cbn; lia.
Qed.

(** X7. The item count returned next to the rows is never below the number
    of rows, and rows are returned only when there is at least one: after
    a successful call [times] is not empty, so the second test of [main],
    [if not times or not prices], never fires. The count reported in "No
    valid data points found" is at least 1. *)
Theorem outcome_counts (data : json) (o : outcome) :
  process_data_for_plotting tz data = Some o ->
  match o with
  | Parsed rows n => (1 <= List.length rows <= n)%nat
  | Failed (NoValidPoints n) => (1 <= n)%nat
  | Failed _ => True
  end.
Proof.
  unfold process_data_for_plotting.
  destruct (Json.truthy data) eqn:Ht; cbn [negb]; [|intros [= <-]; exact I].
  destruct (items_of data) as [items|] eqn:Hi; [|intros [= <-]; exact I].
  pose proof (items_nonempty data items Ht Hi) as Hn.
  destruct (collect tz items) as [rows|] eqn:Hc; cbn [bind]; [|discriminate].
  pose proof (collect_length tz items rows Hc) as Hl.
  destruct rows as [|r rows]; intros [= <-]; [assumption|].
  change (insert r (sorted rows)) with (sorted (r :: rows)).
  rewrite <- (Permutation_length (sorted_perm (r :: rows))).
  cbn [List.length] in *. lia.
Qed.

(** X8. One item whose [price] field is an integer too large for a float
    makes the whole call fail: [float()] raises [OverflowError], which
    the price loop does not catch, and no row of the other items is
    returned. *)
Theorem huge_price_aborts_batch (items : list json) (d : list (string * json)) (z : Z) :
  In (JDict d) items ->
  lookup "price" d = Some (JInt z) ->
  INT_TOO_LARGE <= Z.abs z ->
  process_data_for_plotting tz (JList items) = None.
Proof.
  intros Hin Hl Hz. unfold process_data_for_plotting.
  assert (He : extract tz (JDict d) = None).
  { unfold extract, price_fields. cbn [find_price]. rewrite Hl. cbn [float].
    apply Z.leb_le in Hz. rewrite Hz. reflexivity. }
  destruct items as [|i items]; [contradiction|].
  cbn [Json.truthy negb items_of].
  now rewrite (collect_fails tz (i :: items) _ Hin He).
Qed.

(** X9. The rows are returned in the order of the tuples [(time, price)]:
    ascending by instant, and among rows of the same instant ascending by
    price. *)
Theorem parsed_rows_lexicographic (data : json) (rows : list row) (n : nat) :
  process_data_for_plotting tz data = Some (Parsed rows n) ->
  StronglySorted row_le rows.
Proof.
  intros Hp.
  destruct (process_parsed tz data rows n Hp) as [items [emitted [Hi [Hc [_ [-> _]]]]]].
  apply sorted_lex. eapply collect_in_range; eassumption.
Qed.

(** X10. The order of the items in a list payload does not matter: two
    payloads with the same items in another order give the same rows up
    to the order of rows that compare equal, the same item count, the
    same message, or both raise. *)
Theorem feed_order_irrelevant (items items' : list json) :
  Permutation items items' ->
  match process_data_for_plotting tz (JList items),
        process_data_for_plotting tz (JList items') with
  | Some (Parsed rows n), Some (Parsed rows' n') => Permutation rows rows' /\ n = n'
  | Some (Failed e), Some (Failed e') => e = e'
  | None, None => True
  | _, _ => False
  end.
Proof.
  intros Hp. unfold process_data_for_plotting. cbn [Json.truthy items_of].
  pose proof (Permutation_length Hp) as Hlen.
  destruct items as [|i items].
  { apply Permutation_nil in Hp. subst. cbn. reflexivity. }
  destruct items' as [|i' items'].
  { apply Permutation_sym, Permutation_nil in Hp. discriminate. }
  cbn [negb].
  pose proof (collect_perm tz _ _ Hp) as Hc.
  destruct (collect tz (i :: items)) as [rows|], (collect tz (i' :: items')) as [rows'|];
    cbn [bind]; try contradiction; try exact I.
  destruct rows as [|r rows], rows' as [|r' rows'].
  - now rewrite Hlen.
  - apply Permutation_nil in Hc. discriminate.
  - apply Permutation_sym, Permutation_nil in Hc. discriminate.
  - split; [|assumption].
    eapply perm_trans; [apply Permutation_sym, sorted_perm|].
    eapply perm_trans; [exact Hc|]. apply sorted_perm.
Qed.

Lemma find_list_first (pre post : list string) (key : string)
    (d : list (string * json)) (l : list json) :
  (forall k l', In k pre -> lookup k d <> Some (JList l')) ->
  lookup key d = Some (JList l) ->
  find_list (pre ++ key :: post) d = l.
Proof.
  intros Hpre Hk. induction pre as [|k pre IH]; cbn [app find_list].
  - now rewrite Hk.
  - assert (IH' : find_list (pre ++ key :: post) d = l).
    { apply IH. intros k' l' Hin. apply Hpre. now right. }
    destruct (lookup k d) as [[| | | | |l'|]|] eqn:E; try exact IH'.
    exfalso. apply (Hpre k l'); [now left | assumption].
Qed.

(** X11. In a dict payload the first container key, in the order [data],
    [prices], [feed], [results], [items], that holds a list decides: its
    list gives the items, and when that list is empty the dict itself is
    taken as the only item, whatever the later keys hold. *)
Theorem first_container_key_wins (d : list (string * json)) (pre post : list string)
    (key : string) (l : list json) :
  container_keys = pre ++ key :: post ->
  (forall k l', In k pre -> lookup k d <> Some (JList l')) ->
  lookup key d = Some (JList l) ->
  items_of (JDict d) = Some (match l with [] => [JDict d] | _ => l end).
Proof.
  intros Hck Hpre Hk. unfold items_of. rewrite Hck.
  rewrite (find_list_first pre post key d l Hpre Hk).
  destruct l; reflexivity.
Qed.

End Zone.
End ParserOutcomes.

Module ParserMoreExamples.
Import PyDatetime Pytz PyFloat Json PyText Normalizer Parser ParserSpec DashboardSpec.
Import Samples DashboardSamples ParserExamples ParserOutcomes.

Lemma outcome_counts_witness :
  exists rows : list row,
    rows = unordered_feed_rows
    /\ (forall L : TextRoutines,
          process_data_for_plotting America_Chicago unordered_feed = Some (Parsed rows 3)
          /\ (1 <= List.length rows <= 3)%nat).
Proof.
  exists unordered_feed_rows. split; [reflexivity|]. intros L.
  split; [exact unordered_feed_parsed|].
  exact (outcome_counts America_Chicago unordered_feed (Parsed unordered_feed_rows 3)
           unordered_feed_parsed).
Defined.

Lemma huge_price_aborts_batch_witness :
  In (JDict huge_price_fields) (two_observations ++ [JDict huge_price_fields])
  /\ lookup "price" huge_price_fields = Some (JInt (2 ^ 1024))
  /\ INT_TOO_LARGE <= Z.abs (2 ^ 1024)
  /\ (forall (L : TextRoutines) (tz : tzinfo),
        process_data_for_plotting tz (JList (two_observations ++ [JDict huge_price_fields]))
        = None).
Proof.
  assert (H1 : In (JDict huge_price_fields) (two_observations ++ [JDict huge_price_fields])).
  { apply in_or_app. right. now left. }
  assert (H2 : INT_TOO_LARGE <= Z.abs (2 ^ 1024)) by (vm_compute; discriminate).
  split; [exact H1|]. split; [reflexivity|]. split; [exact H2|].
  intros L tz.
  exact (huge_price_aborts_batch tz (two_observations ++ [JDict huge_price_fields])
           huge_price_fields (2 ^ 1024) H1 eq_refl H2).
Defined.

Lemma parsed_rows_lexicographic_witness :
  exists rows : list row,
    rows = unordered_feed_rows
    /\ (forall L : TextRoutines,
          process_data_for_plotting America_Chicago unordered_feed = Some (Parsed rows 3)
          /\ StronglySorted row_le rows).
Proof.
  exists unordered_feed_rows. split; [reflexivity|]. intros L.
  split; [exact unordered_feed_parsed|].
  exact (parsed_rows_lexicographic America_Chicago unordered_feed unordered_feed_rows 3
           unordered_feed_parsed).
Defined.

Lemma feed_order_irrelevant_witness :
  Permutation two_observations two_observations_swapped
  /\ (forall L : TextRoutines,
        match process_data_for_plotting America_Chicago (JList two_observations),
              process_data_for_plotting America_Chicago (JList two_observations_swapped) with
        | Some (Parsed rows n), Some (Parsed rows' n') => Permutation rows rows' /\ n = n'
        | Some (Failed e), Some (Failed e') => e = e'
        | None, None => True
        | _, _ => False
        end).
Proof.
  assert (Hp : Permutation two_observations two_observations_swapped) by apply perm_swap.
  split; [exact Hp|]. intros L.
  pose proof (feed_order_irrelevant America_Chicago two_observations
                two_observations_swapped Hp) as Hsame.
  exact Hsame.
Defined.

Lemma first_container_key_wins_witness :
  container_keys = [] ++ "data"%string :: ["prices"; "feed"; "results"; "items"]%string
  /\ lookup "data" shadowed_fields = Some (JList [])
  /\ lookup "prices" shadowed_fields = Some (JList two_observations)
  /\ items_of (JDict shadowed_fields) = Some [JDict shadowed_fields].
Proof.
  split; [reflexivity|]. split; [reflexivity|]. split; [reflexivity|].
  exact (first_container_key_wins shadowed_fields [] _ "data" [] eq_refl
           (fun k l' (Hin : In k []) => False_ind _ Hin) eq_refl).
Defined.

End ParserMoreExamples.

(* ===================================================================== *)
(** * More on the timestamp normaliser                                    *)
(* ===================================================================== *)

Module NormalizerMore.
Import Calendar PyDatetime Pytz Binary64 PyText Normalizer NormalizerFacts.

(** A valid reading of the calendar is fixed by the instant and the offset. *)
Lemma aware_eq (d d' : aware) :
  valid_naive (fields d) -> valid_naive (fields d') ->
  instant d = instant d' -> utcoffset d = utcoffset d' -> d = d'.
Proof.
  destruct d as [[o u] off], d' as [[o' u'] off'].
  unfold valid_naive, instant. cbn [fields utcoffset ordinal usec_of_day].
  intros [_ Hu] [_ Hu'] Hi ->.
  assert (Hw : o * US_PER_DAY + u = o' * US_PER_DAY + u') by lia.
  assert (Ho : o = o').
  { unfold US_PER_DAY, US_PER_SECOND in *. nia. }
  subst o'. assert (u = u') by lia. now subst.
Qed.

Section Zone.
Context `{TextRoutines}.
Variable tz : tzinfo.

(** X12. Whatever the format of the text, a time returned by
    [convert_to_chicago_time] denotes the instant that was parsed, a text
    without a zone being read as UTC; it carries the offset the zone has
    at that instant, and its fields are a date and a time of day. *)
Theorem conversion_keeps_instant (s : string) (d : aware) :
  convert_to_chicago_time tz s = Some d ->
  exists dt,
    parse_timestamp s = Some dt
    /\ instant d = instant (match dt with Naive n => utc_localize n | Aware a => a end)
    /\ utcoffset d = utcoffset_at tz (instant d)
    /\ valid_naive (fields d).
Proof.
  unfold convert_to_chicago_time.
  destruct (parse_timestamp s) as [dt|]; cbn [bind]; [|discriminate].
  intros Ha. apply astimezone_instant in Ha. destruct Ha as [Hi [Ho Hv]].
  exists dt. split; [reflexivity|]. split; [exact Hi|]. split; [|exact Hv].
  now rewrite Hi.
Qed.

(** X13. Two texts that denote the same instant, in whatever formats, are
    converted to the same value, field by field: on the times the
    function returns, equality of instants, which is what [==] and the
    sort compare, is equality of the values. *)
Theorem chicago_time_fixed_by_instant (s s' : string) (d d' : aware) :
  convert_to_chicago_time tz s = Some d ->
  convert_to_chicago_time tz s' = Some d' ->
  instant d = instant d' ->
  d = d'.
Proof.
  unfold convert_to_chicago_time.
  destruct (parse_timestamp s) as [dt|]; cbn [bind]; [|discriminate].
  destruct (parse_timestamp s') as [dt'|]; cbn [bind]; [|discriminate].
  intros Ha Ha' Hi.
  apply astimezone_instant in Ha. destruct Ha as [Hd [Ho Hv]].
  apply astimezone_instant in Ha'. destruct Ha' as [Hd' [Ho' Hv']].
  apply aware_eq; try assumption.
  rewrite Ho, Ho', <- Hd, <- Hd', Hi. reflexivity.
Qed.

End Zone.
End NormalizerMore.

Module NormalizerMoreExamples.
Import Calendar PyDatetime Pytz PyText Normalizer Samples DashboardSamples NormalizerMore.

Lemma conversion_keeps_instant_witness :
  exists d : aware,
    d = {| fields := {| ordinal := 738838; usec_of_day := 58400123000 |}; utcoffset := CST |}
    /\ (forall L : TextRoutines,
          convert_to_chicago_time America_Chicago "1700000000123" = Some d
          /\ utcoffset d = utcoffset_at America_Chicago (instant d)
          /\ valid_naive (fields d)).
Proof.
  eexists. split; [reflexivity|]. intros L.
  assert (Hc : convert_to_chicago_time America_Chicago "1700000000123"
               = Some {| fields := {| ordinal := 738838; usec_of_day := 58400123000 |};
                         utcoffset := CST |})
    by (vm_compute; reflexivity).
  split; [exact Hc|].
  pose proof (conversion_keeps_instant America_Chicago "1700000000123" _ Hc)
    as [dt [_ [_ Hrest]]].
  exact Hrest.
Defined.

Lemma chicago_time_fixed_by_instant_witness :
  @convert_to_chicago_time one_stamp_routines America_Chicago "1700000000000"
  = Some mid_november
  /\ @convert_to_chicago_time one_stamp_routines America_Chicago "20231114221320"
     = Some {| fields := mk_datetime 2023 11 14 16 13 20 0; utcoffset := CST |}
  /\ instant mid_november
     = instant {| fields := mk_datetime 2023 11 14 16 13 20 0; utcoffset := CST |}
  /\ mid_november = {| fields := mk_datetime 2023 11 14 16 13 20 0; utcoffset := CST |}.
Proof.
  assert (H1 : @convert_to_chicago_time one_stamp_routines America_Chicago "1700000000000"
               = Some mid_november) by (vm_compute; reflexivity).
  assert (H2 : @convert_to_chicago_time one_stamp_routines America_Chicago "20231114221320"
               = Some {| fields := mk_datetime 2023 11 14 16 13 20 0; utcoffset := CST |})
    by (vm_compute; reflexivity).
  assert (H3 : instant mid_november
               = instant {| fields := mk_datetime 2023 11 14 16 13 20 0; utcoffset := CST |})
    by (vm_compute; reflexivity).
  split; [exact H1|]. split; [exact H2|]. split; [exact H3|].
  pose proof (@chicago_time_fixed_by_instant one_stamp_routines America_Chicago
                "1700000000000" "20231114221320" _ _ H1 H2 H3) as Heq.
  exact Heq.
Defined.

End NormalizerMoreExamples.

(* ===================================================================== *)
(** * The frame, the recent activity and the weekly charts of [main]      *)
(* ===================================================================== *)

Module DashboardFacts.
Import PyDatetime PyFloat Aggregator Dashboard DashboardSpec ParserSpec.

(** ** Sorted lists *)

Lemma sorted_app_cross {A : Type} (R : A -> A -> Prop) (l1 l2 : list A) :
  StronglySorted R (l1 ++ l2) ->
  forall a b, In a l1 -> In b l2 -> R a b.
Proof.
  induction l1 as [|x l1 IH]; cbn [app]; intros Hs a b Ha Hb; [contradiction|].
  inversion Hs as [|? ? Hs' Hx]; subst.
  destruct Ha as [<-|Ha].
  - rewrite Forall_forall in Hx. apply Hx. apply in_or_app. now right.
  - now apply IH.
Qed.

(** ** The insertion sort of the rows *)

Lemma insert_row_perm (asc : bool) (x : row) (l : DataFrame) :
  Permutation (x :: l) (insert_row asc x l).
Proof.
  induction l as [|y l IH]; cbn [insert_row]; [apply Permutation_refl|].
  destruct (before asc x y); [apply Permutation_refl|].
  eapply perm_trans; [apply perm_swap|]. now constructor.
Qed.

Lemma insertion_sort_perm (asc : bool) (df : DataFrame) :
  Permutation df (insertion_sort_values asc df).
Proof.
  induction df as [|x df IH]; cbn [insertion_sort_values]; [constructor|].
  eapply perm_trans; [|apply insert_row_perm]. now constructor.
Qed.

Lemma insert_row_sorted (asc : bool) (R : row -> row -> Prop) (x : row) (l : DataFrame) :
  (forall a b, before asc a b = true -> R a b) ->
  (forall a b, before asc a b = false -> R b a) ->
  (forall a b c, R a b -> R b c -> R a c) ->
  StronglySorted R l -> StronglySorted R (insert_row asc x l).
Proof.
  intros Ht Hf Htr Hs. induction Hs as [|y l Hs IH Hy]; cbn [insert_row].
  - constructor; constructor.
  - destruct (before asc x y) eqn:E.
    + apply Ht in E. constructor; [now constructor|].
      constructor; [assumption|].
      eapply Forall_impl; [|exact Hy]. intros z Hz. eapply Htr; eassumption.
    + apply Hf in E. constructor; [assumption|].
      apply (Permutation_Forall (insert_row_perm asc x l)).
      now constructor.
Qed.

Lemma insertion_sorts : sorts insertion_sort_values.
Proof.
  intros df. split; [apply insertion_sort_perm|].
  split; [|split; [apply insertion_sort_perm|]].
  - induction df as [|x df IH]; cbn [insertion_sort_values]; [constructor|].
    apply insert_row_sorted; try assumption.
    + intros a b. unfold before, PyDatetime.leb, time_le. apply Z.leb_le.
    + intros a b. unfold before, PyDatetime.leb, time_le. intros Hb.
      apply Z.leb_gt in Hb. lia.
    + unfold time_le. intros; lia.
  - induction df as [|x df IH]; cbn [insertion_sort_values]; [constructor|].
    apply insert_row_sorted; try assumption.
    + intros a b. unfold before, PyDatetime.leb, time_ge. apply Z.leb_le.
    + intros a b. unfold before, PyDatetime.leb, time_ge. intros Hb.
      apply Z.leb_gt in Hb. lia.
    + unfold time_ge. intros; lia.
Qed.

(** ** From the tuples of the parser to the frame *)

Lemma DataFrame_of_in_range (rows : list Parser.row) :
  Forall price_in_range rows ->
  exists df,
    DataFrame_of rows = Some df
    /\ Forall2 (fun r x => Time x = fst r /\ snd r = Finite (Price x)
                           /\ (0 <= Price x <= 1000)%Q) rows df.
Proof.
  unfold DataFrame_of.
  induction 1 as [|r rows [q [Hq Hr]] _ [df [Hdf Hall]]]; cbn [mapM].
  - exists []. split; [reflexivity | constructor].
  - unfold frame_row at 1. rewrite Hq. cbn [bind]. rewrite Hdf. cbn [bind].
    eexists. split; [reflexivity|].
    constructor; [|assumption]. cbn [Time Price]. auto.
Qed.

Lemma frame_sorted (rows : list Parser.row) (df : DataFrame) :
  Forall2 (fun r x => Time x = fst r /\ snd r = Finite (Price x)
                      /\ (0 <= Price x <= 1000)%Q) rows df ->
  StronglySorted instant_le rows -> StronglySorted time_le df.
Proof.
  induction 1 as [|r x rows df [Hx _] Hall IH]; intros Hs; [constructor|].
  inversion Hs as [|? ? Hs' Hr]; subst.
  constructor; [now apply IH|].
  clear IH Hs Hs'. induction Hall as [|r' x' rows df [Hx' _] _ IH]; [constructor|].
  inversion Hr; subst. constructor; [|now apply IH].
  unfold time_le, instant_le in *. now rewrite Hx, Hx'.
Qed.

End DashboardFacts.

Module DashboardProperties.
Import PyDatetime Pytz PyFloat PyText Aggregator Dashboard DashboardSpec Parser ParserSpec.
Import Float64Spec Float64Facts SeriesFacts AggregatorFacts DashboardFacts.

(** X14. The recent-activity chart of [main] shows the latest rows: with a
    [sort_values] that keeps the rows and orders them, [chart_data] has
    144 rows, or all of them when the frame has fewer, in ascending order
    of time, it holds the rows of [recent_data], the table, and no row
    left out is later than a row shown. *)
Theorem recent_rows_are_the_latest (sort_values : bool -> DataFrame -> DataFrame)
    (df : DataFrame) :
  sorts sort_values ->
  List.length (chart_data sort_values df) = Nat.min 144 (List.length df)
  /\ StronglySorted time_le (chart_data sort_values df)
  /\ Permutation (recent_data sort_values df) (chart_data sort_values df)
  /\ exists older,
       Permutation df (chart_data sort_values df ++ older)
       /\ forall a b, In a (chart_data sort_values df) -> In b older -> time_le b a.
Proof.
  intros Hs. unfold chart_data, recent_data.
  destruct (Hs df) as [_ [_ [Hperm Hdesc]]].
  destruct (Hs (firstn 144 (sort_values false df))) as [Hperm' [Hasc _]].
  split; [|split; [exact Hasc|split; [exact Hperm'|]]].
  - rewrite <- (Permutation_length Hperm'), length_firstn,
      <- (Permutation_length Hperm). reflexivity.
  - exists (skipn 144 (sort_values false df)). split.
    + eapply perm_trans; [exact Hperm|].
      rewrite <- (firstn_skipn 144 (sort_values false df)) at 1.
      apply Permutation_app_tail. exact Hperm'.
    + intros a b Ha Hb.
      rewrite <- (firstn_skipn 144 (sort_values false df)) in Hdesc.
      apply (sorted_app_cross _ _ _ Hdesc a b); [|assumption].
      eapply Permutation_in; [apply Permutation_sym|]; eassumption.
Qed.

Lemma entries_match_from `{SeriesRoutines} (i : nat) (df : DataFrame) (week_boundaries : list (aware * aware))
    (show_average show_median : bool) :
  map entry_numbers (weekly_stats_from i df week_boundaries)
  = map stats_numbers (weekly_charts_from i df week_boundaries show_average show_median).
Proof.
  revert i. induction week_boundaries as [|[s e] rest IH]; intros i; [reflexivity|].
  cbn [weekly_stats_from weekly_charts_from]. rewrite !map_app, IH. f_equal.
  unfold create_weekly_chart.
  destruct (filter (in_week s e) df); reflexivity.
Qed.

(** X15. The two weekly loops of [main] agree: the entries of
    [weekly_stats] and the charts drawn are for the same weeks, in the
    same order, with the same average, minimum, maximum and count, so
    [charts_created] is the number of entries; it is at most the number
    of windows. *)
Theorem weekly_entries_match_charts `{SeriesRoutines} (df : DataFrame) (week_boundaries : list (aware * aware))
    (show_average show_median : bool) :
  map entry_numbers (weekly_stats df week_boundaries)
  = map stats_numbers (weekly_charts df week_boundaries show_average show_median)
  /\ charts_created df week_boundaries show_average show_median
     = List.length (weekly_stats df week_boundaries)
  /\ (charts_created df week_boundaries show_average show_median
      <= List.length week_boundaries)%nat.
Proof.
  pose proof (entries_match_from 0 df week_boundaries show_average show_median) as Hm.
  split; [exact Hm|]. split.
  - unfold charts_created, weekly_charts, weekly_stats.
    rewrite <- (length_map stats_numbers), <- (length_map entry_numbers).
    now rewrite Hm.
  - clear Hm. unfold charts_created, weekly_charts. generalize 0%nat.
    induction week_boundaries as [|[s e] rest IH]; intros i; [cbn; lia|].
    cbn [weekly_charts_from]. rewrite length_app. specialize (IH (S i)).
    destruct (create_weekly_chart _ _ _ _ _ _); cbn [List.length] in *; lia.
Qed.

Section Zone.
Context `{Text : TextRoutines} `{Routines : SeriesRoutines}.
Variable tz : tzinfo.

(** X16. From the parser to the charts: the rows the parser returns always
    make a frame, with the times in the same ascending order, and for
    every window the weekly minimum, maximum and median of that frame lie
    between 0 and 1000 and the count is at most the number of items of
    the payload. *)
Theorem parsed_series_statistics_in_range (data : Json.json) (rows : list Parser.row)
    (n : nat) :
  process_data_for_plotting tz data = Some (Parsed rows n) ->
  exists df,
    DataFrame_of rows = Some df
    /\ map Time df = map fst rows
    /\ StronglySorted time_le df
    /\ forall week_start week_end week_number show_average show_median st,
         create_weekly_chart df week_start week_end week_number show_average show_median
         = Some st ->
         (0 <= Aggregator.min_price st)%Q /\ (Aggregator.max_price st <= 1000)%Q
         /\ (exists m, median_price st = Finite m /\ (0 <= m <= 1000)%Q)
         /\ (total_points st <= n)%nat.
Proof.
  intros Hp.
  destruct (ParserFacts.process_parsed tz data rows n Hp)
    as [items [emitted [Hi [Hc [_ [-> ->]]]]]].
  assert (Hrange : Forall price_in_range (sorted emitted)).
  { apply (Permutation_Forall (ParserFacts.sorted_perm emitted)).
    eapply ParserFacts.collect_in_range; eassumption. }
  destruct (DataFrame_of_in_range _ Hrange) as [df [Hdf Hall]].
  exists df. split; [exact Hdf|].
  assert (Htimes : map Time df = map fst (sorted emitted)).
  { clear -Hall. induction Hall as [|r x rows df [Hx _] _ IH]; [reflexivity|].
    cbn [map]. now rewrite Hx, IH. }
  split; [exact Htimes|].
  split; [exact (frame_sorted _ _ Hall (ParserFacts.sorted_sorted emitted))|].
  assert (Hprices : forall x, In x df -> (0 <= Price x <= 1000)%Q).
  { clear -Hall. induction Hall as [|r x rows df [_ [_ Hx]] _ IH]; [contradiction|].
    intros y [<-|Hy]; [exact Hx | now apply IH]. }
  assert (Hlen : (List.length df <= List.length items)%nat).
  { pose proof (f_equal (@List.length _) Htimes) as Hl.
    rewrite !length_map in Hl.
    pose proof (Permutation_length (ParserFacts.sorted_perm emitted)) as Hl'.
    pose proof (ParserMore.collect_length tz items emitted Hc).
    unfold row in *. lia. }
  intros week_start week_end week_number show_average show_median st.
  unfold create_weekly_chart.
  set (week_data := filter (in_week week_start week_end) df).
  destruct (Nat.eqb_spec (List.length week_data) 0) as [E|E]; [discriminate|].
  intros [= <-].
  cbn [total_points Aggregator.min_price Aggregator.max_price median_price].
  assert (Hne : map Price week_data <> []).
  { destruct week_data; [contradiction | discriminate]. }
  assert (Hin : Forall (fun y => (0 <= y <= 1000)%Q) (map Price week_data)).
  { rewrite Forall_forall. intros y Hy. apply in_map_iff in Hy.
    destruct Hy as [x [<- Hx]]. apply Hprices. apply filter_In in Hx. tauto. }
  destruct (series_min_spec _ Hne) as [Hmin _].
  destruct (series_max_spec _ Hne) as [Hmax _].
  rewrite Forall_forall in Hin.
  split; [apply (Hin _ Hmin)|]. split; [apply (Hin _ Hmax)|].
  split.
  { apply series_median_between; try assumption; try (now rewrite Forall_forall).
    - apply (binary64_int 1024 0); [lia | vm_compute; reflexivity].
    - apply (binary64_int 1024 1000); [lia | vm_compute; reflexivity].
    - apply (binary64_proper 1024 (inject_Z 0)); [reflexivity|].
      apply binary64_int; [lia | vm_compute; reflexivity].
    - apply (binary64_proper 1024 (inject_Z 2000)); [reflexivity|].
      apply binary64_int; [lia | vm_compute; reflexivity]. }
  pose proof (filter_length_le (in_week week_start week_end) df). unfold week_data. lia.
Qed.

End Zone.
End DashboardProperties.

Module DashboardExamples.
Import PyDatetime Pytz PyFloat PyText Aggregator Dashboard DashboardSpec Parser ParserSpec.
Import Samples DashboardSamples ParserExamples DashboardFacts DashboardProperties.

Lemma recent_rows_are_the_latest_witness :
  sorts insertion_sort_values
  /\ List.length long_frame = 150%nat
  /\ List.length (chart_data insertion_sort_values long_frame) = 144%nat
  /\ StronglySorted time_le (chart_data insertion_sort_values long_frame).
Proof.
  split; [exact insertion_sorts|]. split; [reflexivity|].
  pose proof (recent_rows_are_the_latest insertion_sort_values long_frame insertion_sorts)
    as [Hlen [Hasc _]].
  split; [exact (eq_trans Hlen eq_refl) | exact Hasc].
Defined.

Lemma parsed_series_statistics_in_range_witness :
  exists rows : list Parser.row,
    rows = unordered_feed_rows
    /\ (forall (L : TextRoutines) (R : SeriesRoutines),
          process_data_for_plotting America_Chicago unordered_feed = Some (Parsed rows 3)
          /\ exists df, DataFrame_of rows = Some df /\ StronglySorted time_le df).
Proof.
  exists unordered_feed_rows. split; [reflexivity|]. intros L R.
  split; [exact unordered_feed_parsed|].
  pose proof (parsed_series_statistics_in_range America_Chicago unordered_feed
                unordered_feed_rows 3 unordered_feed_parsed) as [df [Hdf [_ [Hs _]]]].
  exists df. split; [exact Hdf | exact Hs].
Defined.

End DashboardExamples.

(* ===================================================================== *)
(** * Whole feeds                                                         *)
(* ===================================================================== *)

Module FeedFacts.
Import Calendar PyDatetime Pytz Binary64 PyFloat Json PyText Normalizer Parser ParserSpec.
Import NormalizerFacts ParserFacts FeedSpec ParserMore.

Section Zone.
Context `{TextRoutines}.
Variable tz : tzinfo.
Hypothesis tz_offsets : offsets_within_a_day tz.

Lemma convert_millis (s : string) :
  isdigit s = true -> len s = 13 ->
  exists d : aware,
    convert_to_chicago_time tz s = Some d
    /\ -1 <= instant d - 1000 * int_of_digits s <= 1.
Proof.
  intros Hd Hl.
  pose proof (int_of_digits_bounds s Hd) as Hms. rewrite Hl in Hms.
  set (ms := int_of_digits s) in *.
  destruct (utcfromtimestamp_millis ms Hms) as [us [Hu [Hus [Hnear _]]]].
  unfold convert_to_chicago_time, parse_timestamp.
  rewrite Hd, Hl. cbn [andb Z.eqb Pos.eqb bind]. fold ms. rewrite Hu. cbn [bind].
  set (u := {| ordinal := EPOCH_ORDINAL + ms / 1000 / 86400;
               usec_of_day := (ms / 1000) mod 86400 * US_PER_SECOND + us |}).
  change (replace_tzinfo u utc) with (utc_localize u).
  change (10 ^ 13) with 10000000000000 in Hms.
  pose proof (Z.mod_pos_bound (ms / 1000) 86400 ltac:(lia)) as Hsod.
  assert (Hsec : 0 <= ms / 1000 < 10000000000).
  { split; [apply Z.div_pos; lia | apply Z.div_lt_upper_bound; lia]. }
  assert (Hday : 0 <= ms / 1000 / 86400 <= 115740).
  { split; [apply Z.div_pos; lia|]. apply Z.lt_succ_r, Z.div_lt_upper_bound; lia. }
  assert (Hinst : instant (utc_localize u) = ms / 1000 * US_PER_SECOND + us).
  { unfold instant, utc_localize, u. cbn [fields utcoffset ordinal usec_of_day].
    pose proof (Z.div_mod (ms / 1000) 86400 ltac:(lia)).
    unfold US_PER_DAY, US_PER_SECOND. lia. }
  destruct (astimezone_total u tz) as [d Hconv].
  - unfold u, EPOCH_ORDINAL, MAXORDINAL. cbn [ordinal]. lia.
  - unfold u, US_PER_DAY, US_PER_SECOND. cbn [usec_of_day]. lia.
  - apply tz_offsets.
  - exists d. split; [exact Hconv|].
    destruct (astimezone_instant _ _ _ Hconv) as [Hi _].
    pose proof (Z.div_mod ms 1000 ltac:(lia)) as Hdm.
    rewrite Hi, Hinst. unfold US_PER_SECOND. lia.
Qed.

Lemma range_test_true (q : Q) :
  (0 <= q <= 1000)%Q ->
  PyFloat.leb (of_Z 0) (Finite q) && PyFloat.leb (Finite q) (of_Z 1000) = true.
Proof.
  intros [H0 H1]. unfold of_Z, PyFloat.leb.
  apply andb_true_iff. split; apply Qle_bool_iff; assumption.
Qed.

Lemma feed_item_kept (item : json) :
  feed_item item -> exists r, extract tz item = Some (Some r).
Proof.
  intros [d [s [q [-> [Hts [Hd [Hl [Hp Hq]]]]]]]].
  destruct (convert_millis s Hd Hl) as [t [Ht _]].
  exists (t, Finite q). unfold extract. rewrite Hp, Hts. cbn [bind str].
  assert (Hs : Json.truthy (JStr s) = true).
  { destruct s; [discriminate | reflexivity]. }
  rewrite Hs, Ht, (range_test_true q Hq). reflexivity.
Qed.

Lemma feed_items_collected (items : list json) :
  Forall feed_item items ->
  exists rows, collect tz items = Some rows /\ List.length rows = List.length items.
Proof.
  induction 1 as [|item items Hi _ [rows [Hc Hl]]]; cbn [collect].
  - exists []. split; reflexivity.
  - destruct (feed_item_kept item Hi) as [r Hr]. rewrite Hr, Hc. cbn [bind].
    exists (r :: rows). split; [reflexivity|]. cbn [List.length]. now rewrite Hl.
Qed.

End Zone.

Lemma chicago_offsets_within_a_day : offsets_within_a_day America_Chicago.
Proof.
  intros t. cbn [utcoffset_at America_Chicago]. apply chicago_offset_range.
Qed.

End FeedFacts.

Module FeedProperties.
Import Calendar PyDatetime Pytz Binary64 PyFloat Json PyText Normalizer Parser ParserSpec.
Import NormalizerFacts ParserFacts FeedSpec FeedFacts.

Section Zone.
Context `{TextRoutines}.
Variable tz : tzinfo.

(** X17. A feed as ComEd sends it is parsed in full: for a non-empty list
    whose items all carry a timestamp text of 13 digits and a price
    between 0 and 1000, the call returns, with as many rows as items and
    that number as the item count; no item is dropped and nothing is
    raised. *)
Theorem well_formed_feed_fully_parsed (items : list json) :
  offsets_within_a_day tz ->
  items <> [] ->
  Forall feed_item items ->
  exists rows,
    process_data_for_plotting tz (JList items) = Some (Parsed rows (List.length items))
    /\ List.length rows = List.length items.
Proof.
  intros Htz Hne Hall.
  destruct (feed_items_collected tz Htz items Hall) as [rows [Hc Hl]].
  exists (sorted rows). unfold process_data_for_plotting.
  destruct items as [|i items]; [congruence|].
  cbn [Json.truthy negb items_of]. rewrite Hc. cbn [bind].
  destruct rows as [|r rows]; [discriminate|].
  split; [reflexivity|].
  now rewrite <- (Permutation_length (sorted_perm (r :: rows))).
Qed.

End Zone.
End FeedProperties.

Module FeedExamples.
Import PyDatetime Pytz PyFloat Json PyText Parser ParserSpec FeedSpec.
Import Samples DashboardSamples FeedFacts FeedProperties.

Lemma two_observations_are_feed_items `{TextRoutines} : Forall feed_item two_observations.
Proof.
  constructor; [|constructor; [|constructor]].
  - exists [("millisUTC"%string, JStr "1700000300000"); ("price"%string, JFloat (Finite 4))],
           "1700000300000"%string, 4%Q.
    repeat split; discriminate.
  - exists [("millisUTC"%string, JStr "1700000000000");
            ("price"%string, JFloat (Finite (7 # 2)))],
           "1700000000000"%string, (7 # 2)%Q.
    repeat split; discriminate.
Qed.

Lemma well_formed_feed_fully_parsed_witness :
  offsets_within_a_day America_Chicago
  /\ two_observations <> []
  /\ (forall L : TextRoutines,
        Forall feed_item two_observations
        /\ exists rows,
             process_data_for_plotting America_Chicago (JList two_observations)
             = Some (Parsed rows 2)
             /\ List.length rows = 2%nat).
Proof.
  assert (Hne : two_observations <> []) by discriminate.
  split; [exact chicago_offsets_within_a_day|]. split; [exact Hne|]. intros L.
  split; [exact two_observations_are_feed_items|].
  pose proof (well_formed_feed_fully_parsed America_Chicago two_observations
                chicago_offsets_within_a_day Hne two_observations_are_feed_items)
    as [rows [Hp Hl]].
  exists rows. split; [exact Hp | exact Hl].
Defined.

End FeedExamples.
